(** * Reporter transport engine: shallow embedding and verification

    Embedding of the reporting engine of the instrumentation library:
    - [v1/tv/internal/traceview/reporter.go] (module [traceview]): the
      retry-aware [Sender], the event pipeline [reportEvents], the
      connection state machine ([reconnect], [healthCheck]), the redirect
      protocol and the three periodic senders;
    - [v1/ao/internal/reporter/reporter.go] (module [aoreporter]): the
      event-preparation routine [prepareEvent].

    Conventions.
    - Go's [int] and [time.Duration] are 64-bit signed integers: they are
      [Z] with the two's-complement wrap-around written out ([GoInt.wrap]).
    - [time.Time] is the number of nanoseconds elapsed since the zero time
      [time.Time{}]; it is not wrapped (its range is 2^63 seconds).
    - A function that can hit a Go run-time panic (index out of range, send
      on a closed channel, call through a nil client) returns [option],
      [None] standing for the panic.
    - Calls that leave the process (dial, RPC, aggregator flush, clock) take
      their outcome as an argument. *)

From Stdlib Require Import ZArith List Bool String Ascii Lia.
From Stdlib Require Import Strings.Byte.
Import ListNotations.

Local Open Scope Z_scope.

(** ** Go machine integers *)

Module GoInt.

Definition min_int : Z := -9223372036854775808.
Definition max_int : Z := 9223372036854775807.   (* int(^uint(0) >> 1) *)
Definition modulus : Z := 18446744073709551616.

(** Two's-complement reduction of a mathematical integer to 64 bits. *)
Definition wrap (z : Z) : Z := (z - min_int) mod modulus + min_int.

Definition add (a b : Z) : Z := wrap (a + b).
Definition mul (a b : Z) : Z := wrap (a * b).

Definition in_range (z : Z) : Prop := min_int <= z <= max_int.

(** [len(x)] of a slice. *)
Definition len {A : Type} (l : list A) : Z := Z.of_nat (List.length l).

End GoInt.

(** ** The part of package [time] the reporter uses *)

Module time.

Definition Duration : Type := Z.
Definition Time : Type := Z.

Definition Nanosecond : Duration := 1.
Definition Millisecond : Duration := 1000000.
Definition Second : Duration := 1000000000.
Definition Minute : Duration := 60000000000.

(** [time.Time{}] *)
Definition zero : Time := 0.

Definition Add (t : Time) (d : Duration) : Time := t + d.
Definition Sub (t u : Time) : Duration := GoInt.wrap (t - u).
Definition After (t u : Time) : bool := u <? t.
Definition Before (t u : Time) : bool := t <? u.

(** [t.Round(d)]: nearest multiple of [d] since the zero time, halfway
    values rounding up; [t] itself when [d <= 0]. *)
Definition Round (t : Time) (d : Duration) : Time :=
  if d <=? 0 then t
  else
    let r := t mod d in
    if r + r <? d then t - r else t + (d - r).

End time.

Definition error : Type := option string.

Definition bytes : Type := list byte.

(** A buffer of [n] zero bytes; only its length matters to the pipeline. *)
Definition zeros (n : nat) : bytes := repeat x00 n.

Module traceview.

Import GoInt.

(** *** Reporter status *)

Inductive Status : Type :=
| OK
| DISCONNECTED   (* will try to reconnect it later *)
| CLOSING.       (* closed by us, don't do anything to resume it *)

Definition Status_eqb (a b : Status) : bool :=
  match a, b with
  | OK, OK | DISCONNECTED, DISCONNECTED | CLOSING, CLOSING => true
  | _, _ => false
  end.

(** *** Default reporter parameters (the package constants) *)

Module defaults.
Definition maxEventBytes : Z := 64 * 1024 * 1024.
Definition grpcReporterFlushTimeout : time.Duration := 100 * time.Millisecond.
Definition agentMetricsInterval : time.Duration := time.Minute.
Definition agentMetricsTickInterval : time.Duration := time.Millisecond * 500.
Definition retryAmplifier : Z := 2.
Definition initialRetryInterval : time.Duration := time.Millisecond * 500.
Definition maxRetryInterval : time.Duration := time.Minute.
Definition maxMetricsRetries : Z := 20.
Definition maxConnRedirects : Z := 20.
Definition maxConnRetries : Z := GoInt.max_int.
Definition maxStatusChanCap : Z := 200.
Definition loadStatusMsgsShortBlock : time.Duration := time.Millisecond * 5.
Definition metricsConnKeepAliveInterval : time.Duration := time.Second * 20.
Definition maxMetricsMessagesOnePost : Z := 100.
Definition agentSettingsInterval : time.Duration := time.Second * 20.
Definition agentCheckSettingsTTLInterval : time.Duration := time.Second * 10.
End defaults.

Record settings : Type := mkSettings {
  maxEventBytes : Z;
  grpcReporterFlushTimeout : time.Duration;
  agentMetricsInterval : time.Duration;
  agentMetricsTickInterval : time.Duration;
  retryAmplifier : Z;
  initialRetryInterval : time.Duration;
  maxRetryInterval : time.Duration;
  maxMetricsRetries : Z;
  maxConnRedirects : Z;
  maxConnRetries : Z;
  maxStatusChanCap : Z;
  loadStatusMsgsShortBlock : time.Duration;
  metricsConnKeepAliveInterval : time.Duration;
  maxMetricsMessagesOnePost : Z;
  agentSettingsInterval : time.Duration;
  agentCheckSettingsTTLInterval : time.Duration
}.

Definition newDefaultSettings : settings :=
  {| maxEventBytes := defaults.maxEventBytes;
     grpcReporterFlushTimeout := defaults.grpcReporterFlushTimeout;
     agentMetricsInterval := defaults.agentMetricsInterval;
     agentMetricsTickInterval := defaults.agentMetricsTickInterval;
     retryAmplifier := defaults.retryAmplifier;
     initialRetryInterval := defaults.initialRetryInterval;
     maxRetryInterval := defaults.maxRetryInterval;
     maxMetricsRetries := defaults.maxMetricsRetries;
     maxConnRedirects := defaults.maxConnRedirects;
     maxConnRetries := defaults.maxConnRetries;
     maxStatusChanCap := defaults.maxStatusChanCap;
     loadStatusMsgsShortBlock := defaults.loadStatusMsgsShortBlock;
     metricsConnKeepAliveInterval := defaults.metricsConnKeepAliveInterval;
     maxMetricsMessagesOnePost := defaults.maxMetricsMessagesOnePost;
     agentSettingsInterval := defaults.agentSettingsInterval;
     agentCheckSettingsTTLInterval := defaults.agentCheckSettingsTTLInterval |}.

(** A configuration that departs from the defaults in one option. *)
Definition set_maxRetryInterval (d : time.Duration) (s : settings) : settings :=
  mkSettings (maxEventBytes s) (grpcReporterFlushTimeout s) (agentMetricsInterval s)
    (agentMetricsTickInterval s) (retryAmplifier s) (initialRetryInterval s) d
    (maxMetricsRetries s) (maxConnRedirects s) (maxConnRetries s) (maxStatusChanCap s)
    (loadStatusMsgsShortBlock s) (metricsConnKeepAliveInterval s)
    (maxMetricsMessagesOnePost s) (agentSettingsInterval s)
    (agentCheckSettingsTTLInterval s).
Definition set_maxConnRetries (n : Z) (s : settings) : settings :=
  mkSettings (maxEventBytes s) (grpcReporterFlushTimeout s) (agentMetricsInterval s)
    (agentMetricsTickInterval s) (retryAmplifier s) (initialRetryInterval s)
    (maxRetryInterval s) (maxMetricsRetries s) (maxConnRedirects s) n (maxStatusChanCap s)
    (loadStatusMsgsShortBlock s) (metricsConnKeepAliveInterval s)
    (maxMetricsMessagesOnePost s) (agentSettingsInterval s)
    (agentCheckSettingsTTLInterval s).

(** *** Sender: the retry-aware message queue *)

Module Sender.
Record t : Type := mk {
  messages : list bytes;
  nextTime : time.Time;
  retryActive : bool;
  nextRetryDelay : time.Duration;
  retryTime : time.Time;
  retries : Z
}.

Definition set_messages (m : list bytes) (s : t) : t :=
  mk m (nextTime s) (retryActive s) (nextRetryDelay s) (retryTime s) (retries s).
Definition set_nextTime (x : time.Time) (s : t) : t :=
  mk (messages s) x (retryActive s) (nextRetryDelay s) (retryTime s) (retries s).
Definition set_retryActive (b : bool) (s : t) : t :=
  mk (messages s) (nextTime s) b (nextRetryDelay s) (retryTime s) (retries s).
Definition set_nextRetryDelay (d : time.Duration) (s : t) : t :=
  mk (messages s) (nextTime s) (retryActive s) d (retryTime s) (retries s).
Definition set_retryTime (x : time.Time) (s : t) : t :=
  mk (messages s) (nextTime s) (retryActive s) (nextRetryDelay s) x (retries s).
Definition set_retries (n : Z) (s : t) : t :=
  mk (messages s) (nextTime s) (retryActive s) (nextRetryDelay s) (retryTime s) n.
End Sender.
Definition Sender : Type := Sender.t.

Definition newSender (initialRetryInterval : time.Duration) : Sender :=
  {| Sender.messages := [];
     Sender.nextTime := time.zero;
     Sender.retryActive := false;
     Sender.nextRetryDelay := initialRetryInterval;
     Sender.retryTime := time.zero;
     Sender.retries := 0 |}.

(** [func (s *Sender) setRetryDelay(now, retryAmplifier, maxMetricsRetries) bool],
    statement by statement.  The cap applied to the grown delay is the
    literal [time.Minute]. *)
Definition setRetryDelay (now : time.Time) (retryAmplifier maxMetricsRetries : Z)
           (s : Sender) : Sender * bool :=
  if maxMetricsRetries <=? Sender.retries s then
    (Sender.set_retryActive false s, false)
  else
    let s := Sender.set_retryTime (time.Add now (Sender.nextRetryDelay s)) s in
    let s := Sender.set_retries (GoInt.add (Sender.retries s) 1) s in
    let s := if negb (Sender.retryActive s) then Sender.set_retryActive true s else s in
    let s := Sender.set_nextRetryDelay (GoInt.mul (Sender.nextRetryDelay s) retryAmplifier) s in
    let s := if time.Minute <? Sender.nextRetryDelay s
             then Sender.set_nextRetryDelay time.Minute s else s in
    (s, true).

(** *** Event pipeline: the loop of [reportEvents] *)

Module pipeline.
Record t : Type := mk {
  batch : list bytes;
  eventBytes : Z;
  logIsRunning : bool;
  batches : list (list bytes);   (* what was sent on channel [batches], oldest first *)
  batchesClosed : bool           (* [close(batches)] has run *)
}.
End pipeline.
Definition pipeline : Type := pipeline.t.

Definition newPipeline : pipeline :=
  {| pipeline.batch := []; pipeline.eventBytes := 0; pipeline.logIsRunning := false;
     pipeline.batches := []; pipeline.batchesClosed := false |}.

(** The four cases of the [select]. *)
Inductive pipelineEvent : Type :=
| RecvEvent (evbuf : bytes)      (* evbuf := <-r.ch *)
| RecvResult                     (* result := <-results *)
| FlushTimeout                   (* <-time.After(r.s.grpcReporterFlushTimeout) *)
| RecvExit.                      (* <-r.exit *)

(** The closure [flushBatch]; a send on a closed channel panics. *)
Definition flushBatch (p : pipeline) : option pipeline :=
  if negb (pipeline.logIsRunning p) && (0 <? len (pipeline.batch p)) then
    if pipeline.batchesClosed p then None
    else Some {| pipeline.batch := [];
                 pipeline.eventBytes := 0;
                 pipeline.logIsRunning := true;
                 pipeline.batches := pipeline.batches p ++ [pipeline.batch p];
                 pipeline.batchesClosed := false |}
  else Some p.

(** [for dropped := 0; dropped < len(evbuf); { oldest, batch = batch[0], batch[1:]; dropped += len(oldest) }]
    with [need = len(evbuf)]; [batch[0]] on an empty batch panics. *)
Fixpoint dropOldest (need dropped : Z) (batch : list bytes) : option (list bytes) :=
  match batch with
  | [] => if dropped <? need then None else Some []
  | oldest :: rest =>
      if dropped <? need
      then dropOldest need (GoInt.add dropped (len oldest)) rest
      else Some batch
  end.

(** [batch = append(batch, evbuf); eventBytes += len(evbuf)] *)
Definition appendEvent (evbuf : bytes) (b : list bytes) (p : pipeline) : pipeline :=
  {| pipeline.batch := b ++ [evbuf];
     pipeline.eventBytes := GoInt.add (pipeline.eventBytes p) (len evbuf);
     pipeline.logIsRunning := pipeline.logIsRunning p;
     pipeline.batches := pipeline.batches p;
     pipeline.batchesClosed := pipeline.batchesClosed p |}.

Definition reportEvents_step (maxEventBytes : Z) (p : pipeline) (ev : pipelineEvent)
  : option pipeline :=
  match ev with
  | RecvEvent evbuf =>
      if maxEventBytes <? GoInt.add (pipeline.eventBytes p) (len evbuf) then   (* max buffer reached *)
        if maxEventBytes <=? len evbuf then
          Some p      (* new event larger than max buffer size, drop *)
        else
          match dropOldest (len evbuf) 0 (pipeline.batch p) with   (* drop oldest to make room for newest *)
          | None => None
          | Some b => Some (appendEvent evbuf b p)
          end
      else Some (appendEvent evbuf (pipeline.batch p) p)
  | RecvResult =>
      flushBatch {| pipeline.batch := pipeline.batch p;
                    pipeline.eventBytes := pipeline.eventBytes p;
                    pipeline.logIsRunning := false;
                    pipeline.batches := pipeline.batches p;
                    pipeline.batchesClosed := pipeline.batchesClosed p |}
  | FlushTimeout => flushBatch p
  | RecvExit =>
      if pipeline.batchesClosed p then None     (* close of a closed channel *)
      else Some {| pipeline.batch := pipeline.batch p;
                   pipeline.eventBytes := pipeline.eventBytes p;
                   pipeline.logIsRunning := pipeline.logIsRunning p;
                   pipeline.batches := pipeline.batches p;
                   pipeline.batchesClosed := true |}
  end.

(** The [for] loop run over a finite sequence of [select] outcomes. *)
Fixpoint reportEvents (maxEventBytes : Z) (p : pipeline) (evs : list pipelineEvent)
  : option pipeline :=
  match evs with
  | [] => Some p
  | ev :: rest =>
      match reportEvents_step maxEventBytes p ev with
      | None => None
      | Some p' => reportEvents maxEventBytes p' rest
      end
  end.

(** *** The collector RPC surface

    Modelled from the spec: package [collector] (the generated RPC stubs)
    is not part of the sources; the result codes are the five the spec
    lists, and a reply carries the code and the optional redirect host
    ([GetResult], [GetArg]). *)

Inductive ResultCode : Type :=
| ResultCode_OK
| ResultCode_TRY_LATER
| ResultCode_LIMIT_EXCEEDED
| ResultCode_INVALID_API_KEY
| ResultCode_REDIRECT.

Record MessageResult : Type := mkMessageResult {
  GetResult : ResultCode;
  GetArg : string
}.

Definition OboeSetting : Type := bytes.

Record SettingsResult : Type := mkSettingsResult {
  sresult : MessageResult;
  Settings : list OboeSetting
}.

(** [*grpc.ClientConn], identified by a handle, and the client built on it. *)
Definition ClientConn : Type := nat.

Inductive TraceCollectorClient : Type :=
| NewTraceCollectorClient (conn : ClientConn).

(** Outcome [(x, err)] of a call that leaves the process: [None] when
    [err != nil]. *)
Definition outcome (A : Type) : Type := option A.

(** *** gRPC: the metrics connection *)

Module gRPC.
Record t : Type := mk {
  client : option TraceCollectorClient;   (* [None] is the nil client *)
  status : Status;
  retries : Z;
  nextRetryTime : time.Time;              (* only works in DISCONNECTED state *)
  redirects : Z;
  nextKeepAliveTime : time.Time;
  currTime : time.Time
}.

Definition set_client (c : option TraceCollectorClient) (g : t) : t :=
  mk c (status g) (retries g) (nextRetryTime g) (redirects g) (nextKeepAliveTime g) (currTime g).
Definition set_status (x : Status) (g : t) : t :=
  mk (client g) x (retries g) (nextRetryTime g) (redirects g) (nextKeepAliveTime g) (currTime g).
Definition set_retries (n : Z) (g : t) : t :=
  mk (client g) (status g) n (nextRetryTime g) (redirects g) (nextKeepAliveTime g) (currTime g).
Definition set_nextRetryTime (x : time.Time) (g : t) : t :=
  mk (client g) (status g) (retries g) x (redirects g) (nextKeepAliveTime g) (currTime g).
Definition set_redirects (n : Z) (g : t) : t :=
  mk (client g) (status g) (retries g) (nextRetryTime g) n (nextKeepAliveTime g) (currTime g).
Definition set_nextKeepAliveTime (x : time.Time) (g : t) : t :=
  mk (client g) (status g) (retries g) (nextRetryTime g) (redirects g) x (currTime g).
Definition set_currTime (x : time.Time) (g : t) : t :=
  mk (client g) (status g) (retries g) (nextRetryTime g) (redirects g) (nextKeepAliveTime g) x.
End gRPC.
Definition gRPC : Type := gRPC.t.

Definition newGRPC (client : option TraceCollectorClient) : gRPC :=
  {| gRPC.client := client;
     gRPC.status := OK;
     gRPC.retries := 0;
     gRPC.nextRetryTime := time.zero;
     gRPC.redirects := 0;
     gRPC.nextKeepAliveTime := time.zero;
     gRPC.currTime := time.zero |}.

Definition getNextTime (now : time.Time) (interval : time.Duration) : time.Time :=
  let nextTime := time.Round now interval in
  if time.Before nextTime now then time.Add nextTime interval else nextTime.

(** A call of [dialGRPC(certPath, addr)], as recorded by [reconnect]. *)
Record dialCall : Type := mkDialCall { dial_certPath : string; dial_addr : string }.

(** [func (g *gRPC) reconnect(addr, certPath, s)].  [dial] is the outcome
    [dialGRPC] has if it is called; the second component lists the dial
    calls made. *)
Definition reconnect (addr certPath : string) (s : settings)
           (dial : outcome ClientConn) (g : gRPC) : gRPC * list dialCall :=
  match gRPC.status g with
  | OK | CLOSING => (g, [])
  | DISCONNECTED =>
      if maxConnRetries s <? gRPC.retries g then     (* infinitely retry *)
        (gRPC.set_status CLOSING g, [])     (* it will be closed in the next loop *)
      else if time.After (gRPC.nextRetryTime g) (gRPC.currTime g) then
        (g, [])                             (* do nothing *)
      else
        let call := mkDialCall certPath addr in
        match dial with
        | None =>
            let nextInterval :=
              GoInt.mul time.Second (GoInt.mul (GoInt.add (gRPC.retries g) 1) (retryAmplifier s)) in
            let nextInterval :=
              if maxRetryInterval s <? nextInterval then maxRetryInterval s else nextInterval in
            let g := gRPC.set_nextRetryTime (time.Add (gRPC.currTime g) nextInterval) g in
            let g := gRPC.set_retries (GoInt.add (gRPC.retries g) 1) g in
            (g, [call])
        | Some conn =>      (* reconnected *)
            let g := gRPC.set_client (Some (NewTraceCollectorClient conn)) g in
            let g := gRPC.set_retries 0 g in
            let g := gRPC.set_nextRetryTime time.zero g in
            let g := gRPC.set_status OK g in
            let g := gRPC.set_nextKeepAliveTime
                       (getNextTime (gRPC.currTime g) (metricsConnKeepAliveInterval s)) g in
            (g, [call])
        end
  end.

(** *** grpcReporter *)

(** Modelled from the spec: the metrics aggregator is an external
    collaborator; the reporter only closes its exit signal on shutdown. *)
Record MetricsAggregator : Type := mkMetricsAggregator {
  exitChanClosed : bool
}.

Module grpcReporter.
Record t : Type := mk {
  client : option TraceCollectorClient;
  serverAddr : string;            (* server address in string format: host:port *)
  certPath : string;
  exit : nat;                     (* signals pending on channel [exit] *)
  apiKey : string;
  s : traceview.settings;
  metricsConn : gRPC;             (* metrics sender connection, for metrics, status and settings *)
  metrics : Sender;
  status : Sender;
  settings : Sender;
  ch : list bytes;                (* event messages handed to the pipeline, oldest first *)
  mAgg : MetricsAggregator;
  sMsgs : list bytes              (* status messages waiting on the channel *)
}.

Definition set_serverAddr (x : string) (r : t) : t :=
  mk (client r) x (certPath r) (exit r) (apiKey r) (s r) (metricsConn r)
     (metrics r) (status r) (settings r) (ch r) (mAgg r) (sMsgs r).
Definition set_exit (x : nat) (r : t) : t :=
  mk (client r) (serverAddr r) (certPath r) x (apiKey r) (s r) (metricsConn r)
     (metrics r) (status r) (settings r) (ch r) (mAgg r) (sMsgs r).
Definition set_metricsConn (x : gRPC) (r : t) : t :=
  mk (client r) (serverAddr r) (certPath r) (exit r) (apiKey r) (s r) x
     (metrics r) (status r) (settings r) (ch r) (mAgg r) (sMsgs r).
Definition set_metrics (x : Sender) (r : t) : t :=
  mk (client r) (serverAddr r) (certPath r) (exit r) (apiKey r) (s r) (metricsConn r)
     x (status r) (settings r) (ch r) (mAgg r) (sMsgs r).
Definition set_status (x : Sender) (r : t) : t :=
  mk (client r) (serverAddr r) (certPath r) (exit r) (apiKey r) (s r) (metricsConn r)
     (metrics r) x (settings r) (ch r) (mAgg r) (sMsgs r).
Definition set_settings (x : Sender) (r : t) : t :=
  mk (client r) (serverAddr r) (certPath r) (exit r) (apiKey r) (s r) (metricsConn r)
     (metrics r) (status r) x (ch r) (mAgg r) (sMsgs r).
Definition set_ch (x : list bytes) (r : t) : t :=
  mk (client r) (serverAddr r) (certPath r) (exit r) (apiKey r) (s r) (metricsConn r)
     (metrics r) (status r) (settings r) x (mAgg r) (sMsgs r).
Definition set_mAgg (x : MetricsAggregator) (r : t) : t :=
  mk (client r) (serverAddr r) (certPath r) (exit r) (apiKey r) (s r) (metricsConn r)
     (metrics r) (status r) (settings r) (ch r) x (sMsgs r).
Definition set_sMsgs (x : list bytes) (r : t) : t :=
  mk (client r) (serverAddr r) (certPath r) (exit r) (apiKey r) (s r) (metricsConn r)
     (metrics r) (status r) (settings r) (ch r) (mAgg r) x.

(** Updates through the embedded connection, [r.metricsConn.f = x]. *)
Definition upd_metricsConn (f : gRPC -> gRPC) (r : t) : t :=
  set_metricsConn (f (metricsConn r)) r.
Definition upd_metrics (f : Sender -> Sender) (r : t) : t :=
  set_metrics (f (metrics r)) r.
Definition upd_status (f : Sender -> Sender) (r : t) : t :=
  set_status (f (status r)) r.
Definition upd_settings (f : Sender -> Sender) (r : t) : t :=
  set_settings (f (settings r)) r.
End grpcReporter.
Definition grpcReporter : Type := grpcReporter.t.

(** [newGRPCReporterWithConfig], without starting the two goroutines. *)
Definition newGRPCReporterWithConfig (eClient : option TraceCollectorClient) (s : settings)
           (mClient : option TraceCollectorClient) (reporterAddr certPath apiKey : string)
  : grpcReporter :=
  {| grpcReporter.client := eClient;
     grpcReporter.serverAddr := reporterAddr;
     grpcReporter.certPath := certPath;
     grpcReporter.exit := 0%nat;
     grpcReporter.apiKey := apiKey;
     grpcReporter.s := s;
     grpcReporter.metricsConn := newGRPC mClient;
     grpcReporter.metrics := newSender (initialRetryInterval s);
     grpcReporter.status := newSender (initialRetryInterval s);
     grpcReporter.settings := newSender (initialRetryInterval s);
     grpcReporter.ch := [];
     grpcReporter.mAgg := mkMetricsAggregator false;
     grpcReporter.sMsgs := [] |}.

(** [metricsConnClosed] *)
Definition metricsConnClosed (r : grpcReporter) : bool :=
  Status_eqb (gRPC.status (grpcReporter.metricsConn r)) CLOSING &&
  match gRPC.client (grpcReporter.metricsConn r) with None => true | Some _ => false end.

(** [closeMetricsConn]; closing the aggregator's exit channel twice panics. *)
Definition closeMetricsConn (r : grpcReporter) : option grpcReporter :=
  match gRPC.client (grpcReporter.metricsConn r) with
  | None => Some r      (* Closing a closed connection. *)
  | Some _ =>
      if exitChanClosed (grpcReporter.mAgg r) then None
      else
        let r := grpcReporter.set_mAgg (mkMetricsAggregator true) r in
        let r := grpcReporter.upd_metricsConn (gRPC.set_client None) r in
        let r := grpcReporter.upd_metrics (Sender.set_messages []) r in
        let r := grpcReporter.upd_status (Sender.set_messages []) r in
        let r := grpcReporter.upd_settings (Sender.set_messages []) r in
        Some r
  end.

(** [healthCheck] *)
Definition healthCheck (dial : outcome ClientConn) (r : grpcReporter)
  : option (grpcReporter * list dialCall) :=
  match gRPC.status (grpcReporter.metricsConn r) with
  | OK => Some (r, [])
  | CLOSING => option_map (fun r => (r, [])) (closeMetricsConn r)
  | DISCONNECTED =>
      let '(g, calls) :=
        reconnect (grpcReporter.serverAddr r) (grpcReporter.certPath r) (grpcReporter.s r)
                  dial (grpcReporter.metricsConn r) in
      Some (grpcReporter.set_metricsConn g r, calls)
  end.

(** [blockTillNextTick]: the time the caller resumes at. *)
Definition blockTillNextTick (now : time.Time) (interval : time.Duration) (r : grpcReporter)
  : time.Time :=
  match gRPC.status (grpcReporter.metricsConn r) with
  | OK => getNextTime now interval
  | _ => now
  end.

(** [strings.Contains(host, ":")] *)
Fixpoint containsColon (host : string) : bool :=
  match host with
  | EmptyString => false
  | String c rest => Ascii.eqb c ":"%char || containsColon rest
  end.

(** [setServerAddr] *)
Definition setServerAddr (host : string) (r : grpcReporter) : grpcReporter * bool :=
  if containsColon host then (r, false)
  else (grpcReporter.set_serverAddr host r, true).

(** [processRedirect] *)
Definition processRedirect (host : string) (r : grpcReporter) : grpcReporter :=
  if maxConnRedirects (grpcReporter.s r) <=? gRPC.redirects (grpcReporter.metricsConn r) then
    grpcReporter.upd_metricsConn (gRPC.set_status CLOSING) r
  else
    let r := grpcReporter.upd_metricsConn (gRPC.set_status DISCONNECTED) r in
    let '(r, ok) := setServerAddr host r in
    if ok then
      let r := grpcReporter.upd_metrics (Sender.set_retryActive false) r in
      let r := grpcReporter.upd_metricsConn
                 (fun g => gRPC.set_redirects (GoInt.add (gRPC.redirects g) 1) g) r in
      let r := grpcReporter.upd_metricsConn (gRPC.set_retries 0) r in
      grpcReporter.upd_metricsConn (gRPC.set_nextRetryTime time.zero) r
    else
      grpcReporter.upd_metricsConn (gRPC.set_status CLOSING) r.

(** *** The three periodic senders *)

(** [sendMetrics], first part: when the metrics deadline has passed, the
    aggregator is flushed into the queue.  [flush] is the outcome of
    [r.mAgg.FlushBSON(r.s)]. *)
Definition sendMetrics_collect (flush : outcome bytes) (r : grpcReporter) : grpcReporter :=
  let currTime := gRPC.currTime (grpcReporter.metricsConn r) in
  let st := grpcReporter.s r in
  if time.Before (Sender.nextTime (grpcReporter.metrics r)) currTime then
    let r := grpcReporter.upd_metrics
               (Sender.set_nextTime (getNextTime currTime (agentMetricsInterval st))) r in
    match flush with
    | Some message =>
        let r := grpcReporter.upd_metrics
                   (fun m => Sender.set_messages (Sender.messages m ++ [message]) m) r in
        if maxMetricsMessagesOnePost st <? len (Sender.messages (grpcReporter.metrics r))
        then grpcReporter.upd_metrics (fun m => Sender.set_messages (tl (Sender.messages m)) m) r
        else r
    | None => r
    end
  else r.

(** [sendMetrics], second part: the post and the handling of its result.
    [reply] is the outcome of [PostMetrics]; a post through a nil client
    panics. *)
Definition sendMetrics_post (reply : outcome MessageResult) (r : grpcReporter)
  : option grpcReporter :=
  let currTime := gRPC.currTime (grpcReporter.metricsConn r) in
  let st := grpcReporter.s r in
  (* return if in retry state but it's not time for retry *)
  if Sender.retryActive (grpcReporter.metrics r)
     && time.After (Sender.retryTime (grpcReporter.metrics r)) currTime then Some r
  (* return if connection is not OK or we have no message to send *)
  else if negb (Status_eqb (gRPC.status (grpcReporter.metricsConn r)) OK)
          || (len (Sender.messages (grpcReporter.metrics r)) =? 0) then Some r
  else
    match gRPC.client (grpcReporter.metricsConn r) with
    | None => None
    | Some _ =>
        match reply with
        | None => Some (grpcReporter.upd_metricsConn (gRPC.set_status DISCONNECTED) r)
        | Some mres =>
            (* Update connection keep alive time *)
            let r := grpcReporter.upd_metricsConn
                       (gRPC.set_nextKeepAliveTime
                          (getNextTime currTime (metricsConnKeepAliveInterval st))) r in
            match GetResult mres with
            | ResultCode_OK =>
                let r := grpcReporter.upd_metrics (Sender.set_messages []) r in
                let r := grpcReporter.upd_metrics (Sender.set_retries 0) r in
                let r := grpcReporter.upd_metrics (Sender.set_retryActive false) r in
                Some (grpcReporter.upd_metricsConn (gRPC.set_redirects 0) r)
            | ResultCode_TRY_LATER | ResultCode_LIMIT_EXCEEDED =>
                let '(m, scheduled) :=
                  setRetryDelay currTime (retryAmplifier st) (maxMetricsRetries st)
                                (grpcReporter.metrics r) in
                let r := grpcReporter.set_metrics m r in
                if scheduled
                then Some (grpcReporter.upd_metrics
                             (fun m => Sender.set_messages (tl (Sender.messages m)) m) r)
                else Some r
            | ResultCode_INVALID_API_KEY =>
                let r := grpcReporter.upd_metricsConn (gRPC.set_status CLOSING) r in
                Some (grpcReporter.upd_metrics (Sender.set_messages []) r)
            | ResultCode_REDIRECT => Some (processRedirect (GetArg mres) r)
            end
        end
    end.

(** [sendMetrics] *)
Definition sendMetrics (flush : outcome bytes) (reply : outcome MessageResult)
           (r : grpcReporter) : option grpcReporter :=
  sendMetrics_post reply (sendMetrics_collect flush r).

(** [loadStatusMsgs]: moves what waits on [sMsgs] to the status sender. *)
Definition loadStatusMsgs (r : grpcReporter) : grpcReporter * bool :=
  let r := grpcReporter.upd_status
             (fun m => Sender.set_messages (Sender.messages m ++ grpcReporter.sMsgs r) m) r in
  let r := grpcReporter.set_sMsgs [] r in
  (r, 0 <? len (Sender.messages (grpcReporter.status r))).

(** The condition [len(r.status.messages) > 0 || r.loadStatusMsgs()] of
    [sendStatus]: the channel is drained only when the queue is empty. *)
Definition statusToSend (r : grpcReporter) : grpcReporter * bool :=
  if 0 <? len (Sender.messages (grpcReporter.status r)) then (r, true)
  else loadStatusMsgs r.

(** [sendStatus]; [reply] is the outcome of [PostStatus]. *)
Definition sendStatus (reply : outcome MessageResult) (r : grpcReporter)
  : option grpcReporter :=
  let currTime := gRPC.currTime (grpcReporter.metricsConn r) in
  let st := grpcReporter.s r in
  if negb (Status_eqb (gRPC.status (grpcReporter.metricsConn r)) OK) then Some r
  (* return if we're retrying and it's not time for retry *)
  else if Sender.retryActive (grpcReporter.status r)
          && time.After (Sender.retryTime (grpcReporter.status r)) currTime then Some r
  else
    let '(r, go) := statusToSend r in
    if negb go then Some r
    else
      match gRPC.client (grpcReporter.metricsConn r) with
      | None => None
      | Some _ =>
          match reply with
          | None => Some (grpcReporter.upd_metricsConn (gRPC.set_status DISCONNECTED) r)
          | Some mres =>
              (* Update connection keep alive time *)
              let r := grpcReporter.upd_metricsConn
                         (gRPC.set_nextKeepAliveTime
                            (getNextTime currTime (metricsConnKeepAliveInterval st))) r in
              match GetResult mres with
              | ResultCode_OK =>
                  let r := grpcReporter.upd_status (Sender.set_messages []) r in
                  let r := grpcReporter.upd_status (Sender.set_retryActive false) r in
                  Some (grpcReporter.upd_metricsConn (gRPC.set_redirects 0) r)
              | ResultCode_TRY_LATER | ResultCode_LIMIT_EXCEEDED =>
                  let '(m, scheduled) :=
                    setRetryDelay currTime (retryAmplifier st) (maxMetricsRetries st)
                                  (grpcReporter.status r) in
                  let r := grpcReporter.set_status m r in
                  if scheduled
                  then Some (grpcReporter.upd_status (Sender.set_messages []) r)
                  else Some r
              | ResultCode_INVALID_API_KEY =>
                  let r := grpcReporter.upd_metricsConn (gRPC.set_status CLOSING) r in
                  Some (grpcReporter.upd_status (Sender.set_messages []) r)
              | ResultCode_REDIRECT => Some (processRedirect (GetArg mres) r)
              end
          end
      end.

(** [storeSettings], on the package variable [latestSettings]. *)
Definition storeSettings (sres : SettingsResult) (latestSettings : list OboeSetting)
  : list OboeSetting :=
  if 0 <? len (Settings sres) then Settings sres else latestSettings.

(** The guard of [getSettings]: a settings request is due. *)
Definition settingsDue (r : grpcReporter) : bool :=
  let tn := gRPC.currTime (grpcReporter.metricsConn r) in
  let ss := grpcReporter.settings r in
  (negb (Sender.retryActive ss)
   && (time.Before (Sender.nextTime ss) tn
       || time.Before (gRPC.nextKeepAliveTime (grpcReporter.metricsConn r)) tn))
  || (Sender.retryActive ss && time.Before (Sender.retryTime ss) tn).

(** [getSettings]; [reply] is the outcome of the [GetSettings] call.  The
    last component tells whether the call was made. *)
Definition getSettings (reply : outcome SettingsResult)
           (r : grpcReporter) (latestSettings : list OboeSetting)
  : option (grpcReporter * list OboeSetting * bool) :=
  let currTime := gRPC.currTime (grpcReporter.metricsConn r) in
  let st := grpcReporter.s r in
  if negb (Status_eqb (gRPC.status (grpcReporter.metricsConn r)) OK) then
    Some (r, latestSettings, false)
  else if negb (settingsDue r) then Some (r, latestSettings, false)
  else
    match gRPC.client (grpcReporter.metricsConn r) with
    | None => None
    | Some _ =>
        match reply with
        | None =>
            Some (grpcReporter.upd_metricsConn (gRPC.set_status DISCONNECTED) r,
                  latestSettings, true)
        | Some sres =>
            let r := grpcReporter.upd_metricsConn
                       (gRPC.set_nextKeepAliveTime
                          (getNextTime currTime (metricsConnKeepAliveInterval st))) r in
            match GetResult (sresult sres) with
            | ResultCode_OK =>
                let r := grpcReporter.upd_settings
                           (Sender.set_nextTime
                              (getNextTime currTime (agentSettingsInterval st))) r in
                let r := grpcReporter.upd_settings (Sender.set_retryActive false) r in
                Some (grpcReporter.upd_metricsConn (gRPC.set_redirects 0) r,
                      storeSettings sres latestSettings, true)
            | ResultCode_TRY_LATER | ResultCode_LIMIT_EXCEEDED =>
                let r := grpcReporter.upd_settings (Sender.set_retries 0) r in   (* retry infinitely *)
                let '(m, _) :=
                  setRetryDelay currTime (retryAmplifier st) (maxMetricsRetries st)
                                (grpcReporter.settings r) in
                Some (grpcReporter.set_settings m r, latestSettings, true)
            | ResultCode_INVALID_API_KEY =>
                Some (grpcReporter.upd_metricsConn (gRPC.set_status CLOSING) r,
                      latestSettings, true)
            | ResultCode_REDIRECT =>
                Some (processRedirect (GetArg (sresult sres)) r, latestSettings, true)
            end
        end
    end.

(** [InvalidateOutdatedSettings], on the timeout it is handed by pointer. *)
Definition InvalidateOutdatedSettings (timeout curr : time.Time) (interval : time.Duration)
  : time.Time :=
  if time.Before timeout curr then getNextTime curr interval else timeout.

(** *** The control loop [periodic] *)

(** What one iteration receives from outside the reporter. *)
Record tick : Type := mkTick {
  tick_now : time.Time;                        (* time.Now() *)
  tick_flush : outcome bytes;                  (* r.mAgg.FlushBSON *)
  tick_metrics : outcome MessageResult;        (* PostMetrics *)
  tick_status : outcome MessageResult;         (* PostStatus *)
  tick_settings : outcome SettingsResult;      (* GetSettings *)
  tick_dial : outcome ClientConn               (* dialGRPC *)
}.

Record periodicState : Type := mkPeriodicState {
  rep : grpcReporter;
  checkTTLTimeout : time.Time;
  latestSettings : list OboeSetting;
  dialed : list dialCall;          (* dial calls made so far, oldest first *)
  settingsCalls : nat;             (* GetSettings calls made so far *)
  stopped : bool                   (* the loop was left through [break] *)
}.

(** The statements of [periodic] before its loop. *)
Definition periodic_init (now : time.Time) (r : grpcReporter) : periodicState :=
  let st := grpcReporter.s r in
  let r := grpcReporter.upd_metricsConn
             (gRPC.set_nextKeepAliveTime (getNextTime now (metricsConnKeepAliveInterval st))) r in
  let r := grpcReporter.upd_metrics
             (Sender.set_nextTime (getNextTime now (agentMetricsInterval st))) r in
  {| rep := r;
     checkTTLTimeout := getNextTime now (agentCheckSettingsTTLInterval st);
     latestSettings := [];
     dialed := [];
     settingsCalls := 0%nat;
     stopped := false |}.

(** One iteration of the loop of [periodic]. *)
Definition periodic_iter (p : periodicState) (i : tick) : option periodicState :=
  if stopped p then Some p
  else
    let r := rep p in
    let st := grpcReporter.s r in
    let r := grpcReporter.upd_metricsConn
               (gRPC.set_currTime (blockTillNextTick (tick_now i) (agentMetricsTickInterval st) r)) r in
    match sendMetrics (tick_flush i) (tick_metrics i) r with
    | None => None
    | Some r =>
    match sendStatus (tick_status i) r with
    | None => None
    | Some r =>
    match getSettings (tick_settings i) r (latestSettings p) with
    | None => None
    | Some (r, latest, called) =>
        let ttl := InvalidateOutdatedSettings (checkTTLTimeout p)
                     (gRPC.currTime (grpcReporter.metricsConn r))
                     (agentCheckSettingsTTLInterval st) in
        (* exit as per the request from the other (main) goroutine *)
        let r := match grpcReporter.exit r with
                 | S n => grpcReporter.upd_metricsConn (gRPC.set_status CLOSING)
                            (grpcReporter.set_exit n r)
                 | O => r
                 end in
        match healthCheck (tick_dial i) r with
        | None => None
        | Some (r, calls) =>
            Some {| rep := r;
                    checkTTLTimeout := ttl;
                    latestSettings := latest;
                    dialed := dialed p ++ calls;
                    settingsCalls := (settingsCalls p + if called then 1 else 0)%nat;
                    stopped := metricsConnClosed r |}
        end
    end end end.

Fixpoint periodic (p : periodicState) (ticks : list tick) : option periodicState :=
  match ticks with
  | [] => Some p
  | i :: rest =>
      match periodic_iter p i with
      | None => None
      | Some p' => periodic p' rest
      end
  end.


(** *** Events and contexts

    Modelled from the spec: the declarations of [event], [oboeContext] and
    of the payload encoder are not part of the sources.  The records carry
    the fields the reporter reads ([metadata.ids.taskID], [metadata.ids.opID],
    [bbuf.buf]); the encoder is an interface over opaque byte buffers. *)

Record oboeIDs : Type := mkIDs { taskID : bytes; opID : bytes }.
Record oboeMetadata : Type := mkMetadata { ids : oboeIDs }.
Record bsonBuffer : Type := mkBuffer { buf : bytes }.

Module oboeContext.
Record t : Type := mk { metadata : oboeMetadata }.
End oboeContext.
Definition oboeContext : Type := oboeContext.t.

Module event.
Record t : Type := mk { metadata : oboeMetadata; bbuf : bsonBuffer }.
End event.
Definition event : Type := event.t.

Class Encoder : Type := {
  bsonAppendInt64 : bsonBuffer -> string -> Z -> bsonBuffer;
  bsonAppendString : bsonBuffer -> string -> string -> bsonBuffer;
  bsonAppendInt : bsonBuffer -> string -> Z -> bsonBuffer;
  bsonBufferFinish : bsonBuffer -> bsonBuffer
}.

Section Events.
Context {enc : Encoder}.

Definition AddInt64 (k : string) (v : Z) (e : event) : event :=
  event.mk (event.metadata e) (bsonAppendInt64 (event.bbuf e) k v).
Definition AddString (k v : string) (e : event) : event :=
  event.mk (event.metadata e) (bsonAppendString (event.bbuf e) k v).
Definition AddInt (k : string) (v : Z) (e : event) : event :=
  event.mk (event.metadata e) (bsonAppendInt (event.bbuf e) k v).
Definition finish (e : event) : event :=
  event.mk (event.metadata e) (bsonBufferFinish (event.bbuf e)).
End Events.

(** [ids.setOpID] on the context's metadata. *)
Definition setOpID (op : bytes) (ctx : oboeContext) : oboeContext :=
  oboeContext.mk (mkMetadata (mkIDs (taskID (ids (oboeContext.metadata ctx))) op)).

(** [bytes.Equal] *)
Fixpoint bytes_Equal (a b : bytes) : bool :=
  match a, b with
  | [], [] => true
  | x :: a', y :: b' => Byte.eqb x y && bytes_Equal a' b'
  | _, _ => false
  end.

(** *** The reporter interface and its three implementations *)

(** [WritePacket], [IsOpen] and [IsMetricsConnOpen] of interface
    [reporter]; [WritePacket] returns the reporter after the write and the
    pair [(n, err)]. *)
Class reporter (R : Type) : Type := {
  WritePacket : R -> bytes -> R * (Z * error);
  IsOpen : R -> bool;
  IsMetricsConnOpen : R -> bool
}.

Inductive nullReporter : Type := mkNullReporter.

#[export] Instance nullReporter_reporter : reporter nullReporter := {
  WritePacket r buf := (r, (len buf, None));
  IsOpen _ := false;
  IsMetricsConnOpen _ := false
}.

(** [*net.UDPConn]: the datagrams written so far, and the error the
    socket answers a write with, if any. *)
Record UDPConn : Type := mkUDPConn { datagrams : list bytes; writeErr : error }.

Record udpReporter : Type := mkUDPReporter { conn : option UDPConn }.

#[export] Instance udpReporter_reporter : reporter udpReporter := {
  WritePacket r buf :=
    match conn r with
    | None => (r, (0, Some "invalid argument"%string))
    | Some c =>
        match writeErr c with
        | Some e => (r, (0, Some e))
        | None => (mkUDPReporter (Some (mkUDPConn (datagrams c ++ [buf]) None)),
                   (len buf, None))
        end
    end;
  IsOpen r := match conn r with Some _ => true | None => false end;
  IsMetricsConnOpen _ := false
}.

#[export] Instance grpcReporter_reporter : reporter grpcReporter := {
  WritePacket r buf := (grpcReporter.set_ch (grpcReporter.ch r ++ [buf]) r, (len buf, None));
  IsOpen r := match grpcReporter.client r with Some _ => true | None => false end;
  IsMetricsConnOpen r :=
    match gRPC.client (grpcReporter.metricsConn r) with Some _ => true | None => false end
}.

(** What [reportEvent] leaves behind: the reporter, the two objects it was
    handed by pointer, and the returned error. *)
Record reported (R : Type) : Type := mkReported {
  rep_reporter : R;
  rep_ctx : option oboeContext;
  rep_event : option event;
  rep_err : error
}.
Arguments mkReported {R}.
Arguments rep_reporter {R}.
Arguments rep_ctx {R}.
Arguments rep_event {R}.
Arguments rep_err {R}.

(** [reportEvent(r, ctx, e)]; [unixNano] is [time.Now().UnixNano()]. *)
Definition reportEvent {R : Type} {RI : reporter R} {enc : Encoder}
           (unixNano : Z) (cachedHostname : string) (cachedPid : Z)
           (r : R) (ctx : option oboeContext) (e : option event) : reported R :=
  if negb (IsOpen r) then
    (* Reporter didn't initialize, nothing to do... *)
    mkReported r ctx e None
  else
    match ctx, e with
    | Some c, Some ev =>
        (* The context metadata must have the same task_id as the event. *)
        if negb (bytes_Equal (taskID (ids (oboeContext.metadata c)))
                             (taskID (ids (event.metadata ev)))) then
          mkReported r ctx e (Some "Invalid event, different task_id from context"%string)
        (* The context metadata must have a different op_id than the event. *)
        else if bytes_Equal (opID (ids (oboeContext.metadata c)))
                            (opID (ids (event.metadata ev))) then
          mkReported r ctx e (Some "Invalid event, same as context"%string)
        else
          let us := Z.quot unixNano 1000 in
          let ev := AddInt64 "Timestamp_u" us ev in
          let ev := AddString "Hostname" cachedHostname ev in
          let ev := AddInt "PID" cachedPid ev in
          let c := setOpID (opID (ids (event.metadata ev))) c in
          let ev := finish ev in
          let '(r, (_, err)) := WritePacket r (buf (event.bbuf ev)) in
          mkReported r (Some c) (Some ev) err
    | _, _ => mkReported r ctx e (Some "Invalid context, event"%string)
    end.

(** *** Metrics records *)

(** [PushMetricsRecord] of the three reporters.  [accepted] is the answer
    of the aggregator's own [PushMetricsRecord], which only a gRPC reporter
    with an open metrics connection asks for. *)
Definition nullReporter_PushMetricsRecord (r : nullReporter) : bool := true.
Definition udpReporter_PushMetricsRecord (r : udpReporter) : bool := false.
Definition grpcReporter_PushMetricsRecord (accepted : bool) (r : grpcReporter) : bool :=
  if negb (IsMetricsConnOpen r) then false else accepted.

(** *** The process-wide reporter *)

(** A value of interface type [reporter]: its dynamic type and the value. *)
Inductive anyReporter : Type :=
| AsNull (r : nullReporter)
| AsUDP (r : udpReporter)
| AsGRPC (r : grpcReporter).

#[export] Instance anyReporter_reporter : reporter anyReporter := {
  WritePacket r buf :=
    match r with
    | AsNull n => let '(n', res) := WritePacket n buf in (AsNull n', res)
    | AsUDP u => let '(u', res) := WritePacket u buf in (AsUDP u', res)
    | AsGRPC g => let '(g', res) := WritePacket g buf in (AsGRPC g', res)
    end;
  IsOpen r :=
    match r with AsNull n => IsOpen n | AsUDP u => IsOpen u | AsGRPC g => IsOpen g end;
  IsMetricsConnOpen r :=
    match r with
    | AsNull n => IsMetricsConnOpen n
    | AsUDP u => IsMetricsConnOpen u
    | AsGRPC g => IsMetricsConnOpen g
    end
}.

Definition anyReporter_PushMetricsRecord (accepted : bool) (r : anyReporter) : bool :=
  match r with
  | AsNull n => nullReporter_PushMetricsRecord n
  | AsUDP u => udpReporter_PushMetricsRecord u
  | AsGRPC g => grpcReporter_PushMetricsRecord accepted g
  end.

(** The type assertion of [initReporter]: the dynamic type is the null
    reporter's. *)
Definition isNullReporter (r : anyReporter) : bool :=
  match r with AsNull _ => true | _ => false end.

(** The package variables the initialisation reads and writes. *)
Record globals : Type := mkGlobals {
  _globalReporter : anyReporter;
  initGlobalReporterOnce : bool;     (* [Do] has run, [initGlobalReporterChan] is closed *)
  reportingDisabled : bool;
  cachedHostname : string;
  debugLevel : Z
}.

(** What the initialisation gets from outside the package: the environment,
    [strconv.Atoi], and the outcomes of the dials ([udpDial] is [None] when
    [ResolveUDPAddr] or [DialUDP] fails). *)
Record initEnv : Type := mkInitEnv {
  Getenv : string -> string;
  Atoi : string -> option Z;
  udpDial : outcome UDPConn;
  grpcDial : outcome ClientConn;
  grpcMetricsDial : outcome ClientConn
}.

Definition grpcReporterAddr : string := "collector.librato.com:443".

(** [strings.ToLower] on ASCII text: no letter outside ASCII lowers to one
    of the letters of ["udp"], the only string the result is compared
    with. *)
Definition toLowerAscii (c : ascii) : ascii :=
  let n := nat_of_ascii c in
  if ((65 <=? n) && (n <=? 90))%nat then ascii_of_nat (n + 32) else c.

Fixpoint ToLower (s : string) : string :=
  match s with
  | EmptyString => EmptyString
  | String c rest => String (toLowerAscii c) (ToLower rest)
  end.

(** [cacheHostname]; [(h, failed)] is what [hn.Hostname()] returns, [failed]
    standing for [err != nil]. *)
Definition cacheHostname (h : string) (failed : bool) (g : globals) : globals :=
  let disabled := if failed then true else reportingDisabled g in
  mkGlobals (_globalReporter g) (initGlobalReporterOnce g) disabled h (debugLevel g).

(** The package variables as declared, [ERROR] being the debug level of
    that name, and after the package's [init]. *)
Definition declaredGlobals (ERROR : Z) : globals :=
  mkGlobals (AsNull mkNullReporter) false false EmptyString ERROR.

Definition initialGlobals (ERROR : Z) (h : string) (failed : bool) : globals :=
  cacheHostname h failed (declaredGlobals ERROR).

(** [newUDPReporter] *)
Definition newUDPReporter (env : initEnv) (g : globals) : anyReporter :=
  if reportingDisabled g then AsNull mkNullReporter
  else match udpDial env with
       | None => AsNull mkNullReporter
       | Some conn => AsUDP (mkUDPReporter (Some conn))
       end.

(** [newGRPCReporter] *)
Definition newGRPCReporter (env : initEnv) (g : globals) : anyReporter :=
  if reportingDisabled g then AsNull mkNullReporter
  else
    let key := Getenv env "APPOPTICS_SERVICE_KEY" in
    if String.eqb key "" then AsNull mkNullReporter
    else
      let reporterAddr :=
        if negb (String.eqb (Getenv env "APPOPTICS_COLLECTOR") "")
        then Getenv env "APPOPTICS_COLLECTOR" else grpcReporterAddr in
      let certPath := Getenv env "GRPC_CERT_PATH" in
      match grpcDial env with
      | None => AsNull mkNullReporter
      | Some conn =>
          match grpcMetricsDial env with
          | None => AsNull mkNullReporter
          | Some mConn =>
              AsGRPC (newGRPCReporterWithConfig (Some (NewTraceCollectorClient conn))
                        newDefaultSettings (Some (NewTraceCollectorClient mConn))
                        reporterAddr certPath key)
          end
      end.

(** [initReporter] *)
Definition initReporter (ERROR : Z) (env : initEnv) (g : globals) : globals :=
  let level :=
    let l := Getenv env "APPOPTICS_DEBUG_LEVEL" in
    if negb (String.eqb l "") then
      match Atoi env l with
      | Some i => i
      | None => debugLevel g
      end
    else ERROR in
  let rType := ToLower (Getenv env "APPOPTICS_REPORTER") in
  let r := if String.eqb rType "udp" then newUDPReporter env g else newGRPCReporter env g in
  let disabled := if negb (isNullReporter r) then true else false in
  mkGlobals r true disabled (cachedHostname g) level.

(** [globalReporter()]: the reporter returned and the package variables
    after the call. *)
Definition globalReporter (ERROR : Z) (env : initEnv) (g : globals) : anyReporter * globals :=
  let g := if initGlobalReporterOnce g then g else initReporter ERROR env g in
  (if reportingDisabled g then AsNull mkNullReporter else _globalReporter g, g).

(** The package function [PushMetricsRecord]. *)
Definition PushMetricsRecord (ERROR : Z) (env : initEnv) (accepted : bool) (g : globals)
  : bool * globals :=
  let '(r, g) := globalReporter ERROR env g in
  (anyReporter_PushMetricsRecord accepted r, g).

End traceview.

(** ** Package [reporter] of [v1/ao]: event preparation *)

Module aoreporter.

Import traceview.

(** What [prepareEvent] leaves behind. *)
Record prepared : Type := mkPrepared {
  prep_ctx : option oboeContext;
  prep_event : option event;
  prep_err : error
}.

(** [prepareEvent(ctx, e)]; [unixNano], [hostname] and [pid] are what
    [time.Now().UnixNano()], [host.Hostname()] and [host.PID()] return. *)
Definition prepareEvent {enc : Encoder} (unixNano : Z) (hostname : string) (pid : Z)
           (ctx : option oboeContext) (e : option event) : prepared :=
  match ctx, e with
  | Some c, Some ev =>
      (* The context metadata must have the same task_id as the event. *)
      if negb (bytes_Equal (taskID (ids (oboeContext.metadata c)))
                           (taskID (ids (event.metadata ev)))) then
        mkPrepared ctx e (Some "invalid event, different task_id from context"%string)
      (* The context metadata must have a different op_id than the event. *)
      else if bytes_Equal (opID (ids (oboeContext.metadata c)))
                          (opID (ids (event.metadata ev))) then
        mkPrepared ctx e (Some "invalid event, same as context"%string)
      else
        let us := Z.quot unixNano 1000 in
        let ev := AddInt64 "Timestamp_u" us ev in
        let ev := AddString "Hostname" hostname ev in
        let ev := AddInt "PID" pid ev in
        let c := setOpID (opID (ids (event.metadata ev))) c in
        let ev := finish ev in
        mkPrepared (Some c) (Some ev) None
  | _, _ => mkPrepared ctx e (Some "invalid context, event"%string)
  end.

(** *** Settings arguments *)

(** KVs from getSettingsResult arguments *)
Definition kvBucketCapacity : string := "BucketCapacity".
Definition kvBucketRate : string := "BucketRate".
Definition kvMetricsFlushInterval : string := "MetricsFlushInterval".
Definition kvEventsFlushInterval : string := "EventsFlushInterval".
Definition kvMaxTransactions : string := "MaxTransactions".

(** A [map[string][]byte]: what a lookup returns, [None] for a missing
    key. *)
Definition argsMap : Type := string -> option bytes.

Definition emptyArgs : argsMap := fun _ => None.

(** [args[k] = v] *)
Definition setArg (k : string) (v : bytes) (args : argsMap) : argsMap :=
  fun k' => if String.eqb k' k then Some v else args k'.

(** The conversion [byte(x)] of an unsigned integer: its low eight bits. *)
Definition byteOf (x : Z) : byte :=
  match Byte.of_N (Z.to_N (x mod 256)) with
  | Some b => b
  | None => x00
  end.

(** The conversion [uint32(x)] of an [int]. *)
Definition uint32 (x : Z) : Z := x mod 4294967296.

(** [binary.LittleEndian.PutUint32] and [PutUint64] on a slice made for
    them: the bytes they leave. *)
Definition PutUint32 (v : Z) : bytes :=
  [byteOf v; byteOf (Z.shiftr v 8); byteOf (Z.shiftr v 16); byteOf (Z.shiftr v 24)].

Definition PutUint64 (v : Z) : bytes :=
  [byteOf v; byteOf (Z.shiftr v 8); byteOf (Z.shiftr v 16); byteOf (Z.shiftr v 24);
   byteOf (Z.shiftr v 32); byteOf (Z.shiftr v 40); byteOf (Z.shiftr v 48);
   byteOf (Z.shiftr v 56)].

Section ArgsToMap.

(** The two [float64] arguments enter [argsToMap] through a comparison with
    -1 and through [math.Float64bits]; both are taken as given. *)
Variable float64 : Type.
Variable aboveMinusOne : float64 -> bool.     (* x > -1 *)
Variable Float64bits : float64 -> Z.          (* a uint64 *)

(** [argsToMap(capacity, ratePerSec, metricsFlushInterval, maxTransactions)] *)
Definition argsToMap (capacity ratePerSec : float64)
           (metricsFlushInterval maxTransactions : Z) : argsMap :=
  let args := emptyArgs in
  let args :=
    if aboveMinusOne capacity
    then setArg kvBucketCapacity (PutUint64 (Float64bits capacity)) args else args in
  let args :=
    if aboveMinusOne ratePerSec
    then setArg kvBucketRate (PutUint64 (Float64bits ratePerSec)) args else args in
  let args :=
    if -1 <? metricsFlushInterval
    then setArg kvMetricsFlushInterval (PutUint32 (uint32 metricsFlushInterval)) args
    else args in
  let args :=
    if -1 <? maxTransactions
    then setArg kvMaxTransactions (PutUint32 (uint32 maxTransactions)) args
    else args in
  args.

End ArgsToMap.

End aoreporter.

Import traceview.

(** * Vocabulary of the statements *)

(** Bytes submitted on [r.ch] by a sequence of [select] outcomes. *)
Fixpoint submitted (evs : list pipelineEvent) : Z :=
  match evs with
  | [] => 0
  | RecvEvent evbuf :: rest => GoInt.len evbuf + submitted rest
  | _ :: rest => submitted rest
  end.

(** Every buffer the pipeline holds or has handed to the poster respects
    the ceiling, and the running total is bounded by [k]. *)
Definition pipeline_inv (maxBytes k : Z) (p : pipeline) : Prop :=
  0 <= pipeline.eventBytes p <= k /\
  (forall evbuf, In evbuf (pipeline.batch p) -> GoInt.len evbuf <= maxBytes) /\
  (forall b evbuf, In b (pipeline.batches p) -> In evbuf b -> GoInt.len evbuf <= maxBytes).

(** A reporter as [newGRPCReporter] builds it: default settings, both
    dials successful. *)
Definition defaultReporter : grpcReporter :=
  newGRPCReporterWithConfig (Some (NewTraceCollectorClient 1%nat)) newDefaultSettings
    (Some (NewTraceCollectorClient 2%nat)) "collector.librato.com:443" "" "service-key".

Definition okResult : MessageResult := mkMessageResult ResultCode_OK "".
Definition tryLater : MessageResult := mkMessageResult ResultCode_TRY_LATER "".
Definition okSettings : SettingsResult := mkSettingsResult okResult [].
Definition tryLaterSettings : SettingsResult := mkSettingsResult tryLater [].

(** The control loop started at second 1000 on the default reporter. *)
Definition startedLoop : periodicState :=
  periodic_init (1000 * time.Second) defaultReporter.

(** Two iterations of the loop: at second 1021 the aggregator flushes a
    message and the collector answers the metrics post TRY_LATER; at second
    1081 it flushes another and the collector answers OK. *)
Definition laterThenOk : list tick :=
  [ mkTick (1021 * time.Second) (Some (zeros 8)) (Some tryLater) None (Some okSettings) None;
    mkTick (1081 * time.Second) (Some (zeros 8)) (Some okResult) None (Some okSettings) None ].

(** Consecutive calls of [setRetryDelay], one at each of the times [nows]:
    the sender they leave and, for the calls that scheduled a retry, the
    delay scheduled ([retryTime - now]), in order. *)
Fixpoint retryRounds (nows : list time.Time) (amp ceiling : Z) (s : Sender)
  : Sender * list time.Duration :=
  match nows with
  | [] => (s, [])
  | now :: rest =>
      let s1 := setRetryDelay now amp ceiling s in
      let rec := retryRounds rest amp ceiling (fst s1) in
      (fst rec,
       if snd s1 then (Sender.retryTime (fst s1) - now) :: snd rec else snd rec)
  end.

(** The default settings with the maximum retry interval configured to one
    second. *)
Definition oneSecondCap : settings := set_maxRetryInterval time.Second newDefaultSettings.

(** [n] iterations of the loop, 61 seconds apart from second 1021 on, the
    collector answering every settings request TRY_LATER. *)
Definition settingsAlwaysLater (n : nat) : list tick :=
  map (fun i => mkTick ((1021 + 61 * Z.of_nat i) * time.Second)
                       None None None (Some tryLaterSettings) None)
      (seq 0 n).

(** Reconnection attempts at the successive tick times [ticks], every dial
    failing: the connection left and the dial calls made. *)
Fixpoint redial (addr certPath : string) (s : settings) (ticks : list time.Time) (g : gRPC)
  : gRPC * list dialCall :=
  match ticks with
  | [] => (g, [])
  | t :: rest =>
      let r1 := reconnect addr certPath s None (gRPC.set_currTime t g) in
      let r2 := redial addr certPath s rest (fst r1) in
      (fst r2, snd r1 ++ snd r2)
  end.

(** The default settings with two connection retries allowed. *)
Definition twoConnRetries : settings := set_maxConnRetries 2 newDefaultSettings.

(** A connection that has just been marked DISCONNECTED. *)
Definition lostConn : gRPC :=
  gRPC.set_status DISCONNECTED (newGRPC (Some (NewTraceCollectorClient 2%nat))).

(** An encoder that appends nothing: enough to run the validation. *)
Definition nullEncoder : Encoder :=
  {| bsonAppendInt64 b _ _ := b;
     bsonAppendString b _ _ := b;
     bsonAppendInt b _ _ := b;
     bsonBufferFinish b := b |}.

(** A context and an event of another trace (task identifiers differ). *)
Definition ctxA : oboeContext :=
  oboeContext.mk (mkMetadata (mkIDs [x01; x02] [x0a])).
Definition eventB : event :=
  event.mk (mkMetadata (mkIDs [x01; x03] [x0b])) (mkBuffer [x00]).

(** An event of the context's trace carrying the context's operation
    identifier. *)
Definition eventSameOp : event :=
  event.mk (mkMetadata (mkIDs [x01; x02] [x0a])) (mkBuffer [x00]).

(** Total size of the buffers of a batch. *)
Fixpoint totalBytes (b : list bytes) : Z :=
  match b with
  | [] => 0
  | evbuf :: rest => GoInt.len evbuf + totalBytes rest
  end.

(** The buffers submitted on [r.ch] by a sequence of [select] outcomes,
    in order. *)
Fixpoint submittedBufs (evs : list pipelineEvent) : list bytes :=
  match evs with
  | [] => []
  | RecvEvent evbuf :: rest => evbuf :: submittedBufs rest
  | _ :: rest => submittedBufs rest
  end.

(** Results received from the poster by a sequence of [select] outcomes. *)
Fixpoint countResults (evs : list pipelineEvent) : nat :=
  match evs with
  | [] => 0%nat
  | RecvResult :: rest => S (countResults rest)
  | _ :: rest => countResults rest
  end.

(** [l] is [h] with some elements left out, the others in their order. *)
Inductive subseq {A : Type} : list A -> list A -> Prop :=
| subseq_nil : subseq [] []
| subseq_skip x l h : subseq l h -> subseq l (x :: h)
| subseq_keep x l h : subseq l h -> subseq (x :: l) (x :: h).

(** The invariant of the loop of [reportEvents]: the running total bounds
    the batch from above, and every batch respects the ceiling. *)
Definition pipeline_sound (maxBytes k : Z) (p : pipeline) : Prop :=
  0 <= pipeline.eventBytes p <= k /\
  totalBytes (pipeline.batch p) <= pipeline.eventBytes p /\
  (pipeline.batch p = [] \/ totalBytes (pipeline.batch p) <= maxBytes) /\
  (forall b, In b (pipeline.batches p) -> b <> [] /\ totalBytes b <= maxBytes).

(** What the periodic senders leave alone: the event side of the reporter,
    its configuration and the aggregator handle. *)
Definition same_static (r r' : grpcReporter) : Prop :=
  grpcReporter.client r' = grpcReporter.client r /\
  grpcReporter.certPath r' = grpcReporter.certPath r /\
  grpcReporter.exit r' = grpcReporter.exit r /\
  grpcReporter.apiKey r' = grpcReporter.apiKey r /\
  grpcReporter.s r' = grpcReporter.s r /\
  grpcReporter.ch r' = grpcReporter.ch r /\
  grpcReporter.mAgg r' = grpcReporter.mAgg r /\
  gRPC.client (grpcReporter.metricsConn r') = gRPC.client (grpcReporter.metricsConn r) /\
  gRPC.currTime (grpcReporter.metricsConn r') = gRPC.currTime (grpcReporter.metricsConn r).

(** An environment in which the gRPC reporter can be built: a service key
    is set and both dials succeed. *)
Definition goodEnv : initEnv :=
  {| Getenv := fun k => if String.eqb k "APPOPTICS_SERVICE_KEY"
                        then "service-key"%string else EmptyString;
     Atoi := fun _ => None;
     udpDial := None;
     grpcDial := Some 1%nat;
     grpcMetricsDial := Some 2%nat |}.

(** The unsigned integer a byte slice spells in little-endian order, as
    [binary.LittleEndian.Uint32] and [Uint64] read it. *)
Fixpoint littleEndian (b : bytes) : Z :=
  match b with
  | [] => 0
  | x :: rest => Z.of_N (Byte.to_N x) + 256 * littleEndian rest
  end.

(** A redirect answered by an immediate reconnection: [processRedirect]
    followed, in the same iteration, by [healthCheck], the dial succeeding
    with connection [conn]. *)
Definition redirectRound (host : string) (conn : ClientConn) (r : grpcReporter)
  : option (grpcReporter * list dialCall) :=
  healthCheck (Some conn) (processRedirect host r).

(** Consecutive redirects, each followed by a successful reconnection, with
    no OK answer in between: the reporter left and the dial calls made. *)
Fixpoint redirectRounds (rounds : list (string * ClientConn)) (r : grpcReporter)
  : option (grpcReporter * list dialCall) :=
  match rounds with
  | [] => Some (r, [])
  | (host, conn) :: rest =>
      match redirectRound host conn r with
      | None => None
      | Some (r1, calls) =>
          match redirectRounds rest r1 with
          | None => None
          | Some (r2, calls') => Some (r2, calls ++ calls')
          end
      end
  end.

(** The state a reporter is in between two redirects of such a sequence. *)
Definition redirect_ready (r : grpcReporter) (k : Z) : Prop :=
  gRPC.status (grpcReporter.metricsConn r) = OK /\
  gRPC.redirects (grpcReporter.metricsConn r) = k /\
  gRPC.client (grpcReporter.metricsConn r) <> None /\
  exitChanClosed (grpcReporter.mAgg r) = false /\
  0 <= gRPC.currTime (grpcReporter.metricsConn r) /\
  0 <= maxConnRetries (grpcReporter.s r) /\
  GoInt.in_range (maxConnRedirects (grpcReporter.s r)).


(** * Properties *)

(** Reads off an equation [Some x = Some y] introduced from the goal. *)
Ltac some_inv :=
  let H := fresh "Heq" in
  intros H; injection H as H;
  first [subst | rewrite <- H | idtac].

(** Closes a goal on closed terms by evaluation. *)
Ltac by_eval :=
  vm_compute; repeat split; first [reflexivity | discriminate | idtac].

(** Reduces projections of updated connection records. *)
Ltac grpc_simpl :=
  cbn [gRPC.client gRPC.status gRPC.retries gRPC.nextRetryTime gRPC.redirects
       gRPC.nextKeepAliveTime gRPC.currTime
       gRPC.set_client gRPC.set_status gRPC.set_retries gRPC.set_nextRetryTime
       gRPC.set_redirects gRPC.set_nextKeepAliveTime gRPC.set_currTime fst snd].

(** ** Machine integers *)

Lemma wrap_in_range (z : Z) : GoInt.in_range z -> GoInt.wrap z = z.
Proof.
  unfold GoInt.in_range, GoInt.wrap, GoInt.min_int, GoInt.max_int, GoInt.modulus.
  intros H. rewrite Z.mod_small; lia.
Qed.

Lemma add_no_overflow (a b : Z) : GoInt.in_range (a + b) -> GoInt.add a b = a + b.
Proof. apply wrap_in_range. Qed.

Lemma mul_no_overflow (a b : Z) : GoInt.in_range (a * b) -> GoInt.mul a b = a * b.
Proof. apply wrap_in_range. Qed.

Lemma len_nonneg {A : Type} (l : list A) : 0 <= GoInt.len l.
Proof. unfold GoInt.len. lia. Qed.

Lemma len_app {A : Type} (l k : list A) : GoInt.len (l ++ k) = GoInt.len l + GoInt.len k.
Proof. unfold GoInt.len. rewrite length_app. lia. Qed.

Lemma len_zeros (n : nat) : GoInt.len (zeros n) = Z.of_nat n.
Proof. unfold GoInt.len, zeros. now rewrite repeat_length. Qed.

(** ** Event pipeline *)

Section Pipeline.

Variable maxBytes : Z.

Lemma submitted_nonneg (evs : list pipelineEvent) : 0 <= submitted evs.
Proof.
  induction evs as [|[evbuf| | |] evs IH]; simpl; try lia.
  pose proof (len_nonneg evbuf). lia.
Qed.

Lemma submitted_app (evs evs' : list pipelineEvent) :
  submitted (evs ++ evs') = submitted evs + submitted evs'.
Proof.
  induction evs as [|[evbuf| | |] evs IH]; simpl; lia.
Qed.

Lemma dropOldest_incl (need : Z) (b : list bytes) :
  forall dropped b', dropOldest need dropped b = Some b' -> incl b' b.
Proof.
  induction b as [|oldest rest IH]; simpl; intros dropped b'.
  - destruct (dropped <? need); [discriminate|]. some_inv. apply incl_refl.
  - destruct (dropped <? need).
    + intros H. apply incl_tl. eapply IH; eauto.
    + some_inv. apply incl_refl.
Qed.

Lemma flushBatch_inv (k : Z) (p p' : pipeline) :
  pipeline_inv maxBytes k p -> flushBatch p = Some p' -> pipeline_inv maxBytes k p'.
Proof.
  unfold flushBatch. intros (Hb & Hbatch & Hsent).
  destruct (negb (pipeline.logIsRunning p) && (0 <? GoInt.len (pipeline.batch p))).
  - destruct (pipeline.batchesClosed p); [discriminate|]. some_inv.
    unfold pipeline_inv; simpl. split; [lia|split].
    + intros ? [].
    + intros b evbuf Hin. apply in_app_or in Hin as [Hin|[<-|[]]]; eauto.
  - some_inv. split; [lia|split]; auto.
Qed.

Lemma reportEvents_step_inv (k : Z) (p p' : pipeline) (ev : pipelineEvent) :
  pipeline_inv maxBytes k p ->
  k + submitted [ev] <= GoInt.max_int ->
  reportEvents_step maxBytes p ev = Some p' ->
  pipeline_inv maxBytes (k + submitted [ev]) p'.
Proof.
  intros Hinv Hk. destruct ev as [evbuf| | |]; simpl in *.
  - pose proof (len_nonneg evbuf) as Hlen.
    destruct Hinv as (Hb & Hbatch & Hsent).
    rewrite add_no_overflow
      by (unfold GoInt.in_range, GoInt.min_int, GoInt.max_int in *; lia).
    assert (Happ : forall b, incl b (pipeline.batch p) -> GoInt.len evbuf <= maxBytes ->
                   pipeline_inv maxBytes (k + (GoInt.len evbuf + 0)) (appendEvent evbuf b p)).
    { intros b Hincl Hle. unfold pipeline_inv, appendEvent; simpl.
      rewrite add_no_overflow
        by (unfold GoInt.in_range, GoInt.min_int, GoInt.max_int in *; lia).
      repeat split; try lia; auto.
      intros x Hin. apply in_app_or in Hin as [Hin|[<-|[]]]; auto. }
    destruct (maxBytes <? pipeline.eventBytes p + GoInt.len evbuf) eqn:Hfull.
    + destruct (maxBytes <=? GoInt.len evbuf) eqn:Hbig.
      * some_inv. repeat split; auto; lia.
      * destruct (dropOldest _ _ _) as [b|] eqn:Hdrop; [|discriminate].
        some_inv. apply Happ; [eapply dropOldest_incl; eauto | lia].
    + some_inv. apply Happ; [apply incl_refl | lia].
  - intros H. rewrite Z.add_0_r. eapply flushBatch_inv; [|exact H].
    destruct Hinv as (Hb & Hbatch & Hsent). repeat split; simpl; auto; lia.
  - intros H. rewrite Z.add_0_r. eapply flushBatch_inv; eauto.
  - destruct (pipeline.batchesClosed p); [discriminate|]. some_inv.
    rewrite Z.add_0_r. destruct Hinv as (Hb & Hbatch & Hsent).
    repeat split; simpl; auto; lia.
Qed.

Lemma reportEvents_inv (evs : list pipelineEvent) :
  forall k p p',
    pipeline_inv maxBytes k p ->
    k + submitted evs <= GoInt.max_int ->
    reportEvents maxBytes p evs = Some p' ->
    pipeline_inv maxBytes (k + submitted evs) p'.
Proof.
  induction evs as [|ev evs IH]; simpl; intros k p p' Hinv Hk.
  - some_inv. now rewrite Z.add_0_r.
  - destruct (reportEvents_step maxBytes p ev) as [p1|] eqn:Hstep; [|discriminate].
    intros Hrun.
    assert (Hs : submitted (ev :: evs) = submitted [ev] + submitted evs)
      by (destruct ev; simpl; lia).
    pose proof (submitted_nonneg evs) as Hnn.
    assert (Hev : submitted [ev] + submitted evs =
                  match ev with RecvEvent evbuf => GoInt.len evbuf + submitted evs | _ => submitted evs end)
      by (destruct ev; simpl; lia).
    replace (k + match ev with RecvEvent evbuf => GoInt.len evbuf + submitted evs | _ => submitted evs end)
      with ((k + submitted [ev]) + submitted evs) in * by (rewrite <- Hev; lia).
    eapply IH; [eapply reportEvents_step_inv; eauto; lia | lia | exact Hrun].
Qed.

Lemma newPipeline_inv : pipeline_inv maxBytes 0 newPipeline.
Proof. unfold pipeline_inv; simpl. repeat split; try lia; intros; contradiction. Qed.

End Pipeline.

(** C1 (scenario).  Buffers of 10, 20 and 5 bytes submitted with a ceiling
    of 25: the run does not end with the batch [20, 5]; the eviction loop
    indexes the emptied batch while serving the second buffer, and the
    pipeline panics. *)
Theorem reportEvents_scenario_panics :
  reportEvents 25 newPipeline
    [RecvEvent (zeros 10); RecvEvent (zeros 20); RecvEvent (zeros 5)] = None
  /\ reportEvents 25 newPipeline [RecvEvent (zeros 10); RecvEvent (zeros 20)] = None
  /\ dropOldest 20 0 [zeros 10] = None.
Proof. repeat split; vm_compute; reflexivity. Qed.

(** C9.  In every state the pipeline reaches, a buffer longer than the
    ceiling is dropped outright: its submission returns the state as it was
    (batch, running total and posted batches unchanged); and no buffer
    longer than the ceiling sits in the current batch or in any batch
    handed to the poster. *)
Theorem reportEvents_oversize_dropped (maxBytes : Z) (evs : list pipelineEvent) (p : pipeline) :
  submitted evs <= GoInt.max_int ->
  reportEvents maxBytes newPipeline evs = Some p ->
  (forall evbuf,
      maxBytes < GoInt.len evbuf ->
      submitted evs + GoInt.len evbuf <= GoInt.max_int ->
      reportEvents_step maxBytes p (RecvEvent evbuf) = Some p) /\
  (forall b evbuf,
      In b (pipeline.batch p :: pipeline.batches p) -> In evbuf b ->
      GoInt.len evbuf <= maxBytes).
Proof.
  intros Hsub Hrun.
  pose proof (reportEvents_inv maxBytes evs 0 newPipeline p
                (newPipeline_inv maxBytes) Hsub Hrun) as (Hb & Hbatch & Hsent).
  simpl in Hb. split.
  - intros evbuf Hbig Hroom. simpl.
    pose proof (len_nonneg evbuf) as Hlen.
    rewrite add_no_overflow
      by (unfold GoInt.in_range, GoInt.min_int, GoInt.max_int in *; lia).
    replace (maxBytes <? pipeline.eventBytes p + GoInt.len evbuf) with true
      by (symmetry; apply Z.ltb_lt; lia).
    replace (maxBytes <=? GoInt.len evbuf) with true
      by (symmetry; apply Z.leb_le; lia).
    reflexivity.
  - intros b evbuf [<-|Hin] Hev; eauto.
Qed.

Lemma reportEvents_oversize_dropped_witness :
  let p := {| pipeline.batch := [zeros 5]; pipeline.eventBytes := 5;
              pipeline.logIsRunning := true;
              pipeline.batches := [[zeros 10]]; pipeline.batchesClosed := false |} in
  reportEvents_step 25 p (RecvEvent (zeros 26)) = Some p.
Proof.
  intros p.
  refine (proj1 (reportEvents_oversize_dropped 25
            [RecvEvent (zeros 10); FlushTimeout; RecvEvent (zeros 5)] p _ _)
            (zeros 26) _ _).
  - vm_compute. discriminate.
  - vm_compute. reflexivity.
  - vm_compute. reflexivity.
  - vm_compute. discriminate.
Defined.

(** ** Redirect protocol *)

(** [containsColon] is [strings.Contains(host, ":")]. *)
Lemma containsColon_spec (host : string) :
  containsColon host = true <->
  exists a b : string, host = (a ++ String ":"%char b)%string.
Proof.
  induction host as [|c rest IH]; simpl.
  - split; [discriminate|]. intros ([|? ?] & b & H); discriminate.
  - rewrite orb_true_iff, IH, Ascii.eqb_eq. split.
    + intros [->|(a & b & ->)].
      * exists EmptyString, rest. reflexivity.
      * exists (String c a), b. reflexivity.
    + intros ([|x a] & b & H); simpl in H; injection H as -> ->.
      * now left.
      * right. now exists a, b.
Qed.

Lemma setServerAddr_port (host : string) (r : grpcReporter) :
  containsColon host = true -> setServerAddr host r = (r, false).
Proof. unfold setServerAddr. now intros ->. Qed.

Lemma setServerAddr_bare (host : string) (r : grpcReporter) :
  containsColon host = false ->
  setServerAddr host r = (grpcReporter.set_serverAddr host r, true).
Proof. unfold setServerAddr. now intros ->. Qed.

(** The state [processRedirect] leaves when it accepts the host. *)
Lemma processRedirect_accept (host : string) (r : grpcReporter) :
  gRPC.redirects (grpcReporter.metricsConn r) < maxConnRedirects (grpcReporter.s r) ->
  containsColon host = false ->
  processRedirect host r =
  let g := grpcReporter.metricsConn r in
  grpcReporter.set_metricsConn
    (gRPC.mk (gRPC.client g) DISCONNECTED 0 time.zero
             (GoInt.add (gRPC.redirects g) 1)
             (gRPC.nextKeepAliveTime g) (gRPC.currTime g))
    (grpcReporter.set_metrics (Sender.set_retryActive false (grpcReporter.metrics r))
       (grpcReporter.set_serverAddr host r)).
Proof.
  intros Hlt Hhost. unfold processRedirect.
  replace (maxConnRedirects (grpcReporter.s r) <=? gRPC.redirects (grpcReporter.metricsConn r))
    with false by (symmetry; apply Z.leb_gt; lia).
  rewrite setServerAddr_bare by exact Hhost.
  destruct r as [c a cp ex k st [gc gs gr gn gd gk gt] m stt se ch ag sm]; reflexivity.
Qed.

(** C5.  [processRedirect newHost]: with the redirect counter at the
    ceiling the connection is forced to CLOSING and nothing else changes;
    below the ceiling a host without port separator is installed as server
    address, the status is DISCONNECTED, the metrics sender's retry-active
    flag is cleared, the redirect counter grows by one and the connection's
    retry counter and retry timestamp are reset; below the ceiling a host
    with a port separator is rejected and the connection ends at CLOSING. *)
Theorem processRedirect_contract (host : string) (r : grpcReporter) :
  let g := grpcReporter.metricsConn r in
  let r' := processRedirect host r in
  let g' := grpcReporter.metricsConn r' in
  GoInt.in_range (gRPC.redirects g) ->
  GoInt.in_range (maxConnRedirects (grpcReporter.s r)) ->
  (maxConnRedirects (grpcReporter.s r) <= gRPC.redirects g ->
     r' = grpcReporter.upd_metricsConn (gRPC.set_status CLOSING) r) /\
  (gRPC.redirects g < maxConnRedirects (grpcReporter.s r) ->
   containsColon host = false ->
     gRPC.status g' = DISCONNECTED /\
     grpcReporter.serverAddr r' = host /\
     Sender.retryActive (grpcReporter.metrics r') = false /\
     gRPC.redirects g' = gRPC.redirects g + 1 /\
     gRPC.retries g' = 0 /\
     gRPC.nextRetryTime g' = time.zero) /\
  (gRPC.redirects g < maxConnRedirects (grpcReporter.s r) ->
   containsColon host = true ->
     gRPC.status g' = CLOSING /\
     grpcReporter.serverAddr r' = grpcReporter.serverAddr r).
Proof.
  intros g r' g' Hred Hmax. subst g' r' g. split; [|split].
  - intros Hge. unfold processRedirect.
    replace (maxConnRedirects (grpcReporter.s r) <=? gRPC.redirects (grpcReporter.metricsConn r))
      with true by (symmetry; apply Z.leb_le; exact Hge).
    reflexivity.
  - intros Hlt Hhost. rewrite processRedirect_accept by assumption. simpl.
    repeat split.
    apply add_no_overflow.
    unfold GoInt.in_range, GoInt.min_int, GoInt.max_int in *. lia.
  - intros Hlt Hhost. unfold processRedirect.
    replace (maxConnRedirects (grpcReporter.s r) <=? gRPC.redirects (grpcReporter.metricsConn r))
      with false by (symmetry; apply Z.leb_gt; lia).
    rewrite setServerAddr_port by exact Hhost. split; reflexivity.
Qed.

Lemma processRedirect_contract_witness :
  let r' := processRedirect "new-collector.example.com" defaultReporter in
  gRPC.status (grpcReporter.metricsConn r') = DISCONNECTED /\
  grpcReporter.serverAddr r' = "new-collector.example.com"%string /\
  Sender.retryActive (grpcReporter.metrics r') = false /\
  gRPC.redirects (grpcReporter.metricsConn r') = 0 + 1 /\
  gRPC.retries (grpcReporter.metricsConn r') = 0 /\
  gRPC.nextRetryTime (grpcReporter.metricsConn r') = time.zero.
Proof.
  refine (proj1 (proj2 (processRedirect_contract "new-collector.example.com"
                          defaultReporter _ _)) _ _); by_eval.
Defined.

(** C10.  A redirect host with a port separator changes nothing but the
    connection status: [setServerAddr] returns false and the reporter it
    was given; [processRedirect] returns the reporter with status CLOSING,
    so the server address, the metrics sender's retry-active flag, the
    redirect counter, the connection retry counter and the retry timestamp
    are those it started with. *)
Theorem processRedirect_port_frame (host : string) (r : grpcReporter) :
  containsColon host = true ->
  let r' := processRedirect host r in
  setServerAddr host r = (r, false) /\
  r' = grpcReporter.upd_metricsConn (gRPC.set_status CLOSING) r /\
  gRPC.status (grpcReporter.metricsConn r') = CLOSING /\
  grpcReporter.serverAddr r' = grpcReporter.serverAddr r /\
  Sender.retryActive (grpcReporter.metrics r') = Sender.retryActive (grpcReporter.metrics r) /\
  gRPC.redirects (grpcReporter.metricsConn r') = gRPC.redirects (grpcReporter.metricsConn r) /\
  gRPC.retries (grpcReporter.metricsConn r') = gRPC.retries (grpcReporter.metricsConn r) /\
  gRPC.nextRetryTime (grpcReporter.metricsConn r') =
    gRPC.nextRetryTime (grpcReporter.metricsConn r).
Proof.
  intros Hhost r'.
  assert (Heq : r' = grpcReporter.upd_metricsConn (gRPC.set_status CLOSING) r).
  { subst r'. unfold processRedirect. rewrite setServerAddr_port by exact Hhost.
    destruct (maxConnRedirects (grpcReporter.s r) <=? gRPC.redirects (grpcReporter.metricsConn r));
      destruct r as [c a cp ex k st [gc gs gr gn gd gk gt] m stt se ch ag sm]; reflexivity. }
  split; [now apply setServerAddr_port|]. split; [exact Heq|].
  rewrite Heq. repeat split.
Qed.

Lemma processRedirect_port_frame_witness :
  processRedirect "new-collector.example.com:443" defaultReporter =
  grpcReporter.upd_metricsConn (gRPC.set_status CLOSING) defaultReporter.
Proof.
  refine (proj1 (proj2 (processRedirect_port_frame "new-collector.example.com:443"
                          defaultReporter _))).
  by_eval.
Defined.

(** ** The retry-aware sender *)

Lemma setRetryDelay_giveup (now : time.Time) (amp ceiling : Z) (s : Sender) :
  ceiling <= Sender.retries s ->
  setRetryDelay now amp ceiling s = (Sender.set_retryActive false s, false).
Proof.
  intros H. unfold setRetryDelay.
  replace (ceiling <=? Sender.retries s) with true by (symmetry; apply Z.leb_le; exact H).
  reflexivity.
Qed.

Lemma setRetryDelay_schedule (now : time.Time) (amp ceiling : Z) (s : Sender) :
  Sender.retries s < ceiling ->
  setRetryDelay now amp ceiling s =
  ({| Sender.messages := Sender.messages s;
      Sender.nextTime := Sender.nextTime s;
      Sender.retryActive := true;
      Sender.nextRetryDelay :=
        if time.Minute <? GoInt.mul (Sender.nextRetryDelay s) amp
        then time.Minute else GoInt.mul (Sender.nextRetryDelay s) amp;
      Sender.retryTime := time.Add now (Sender.nextRetryDelay s);
      Sender.retries := GoInt.add (Sender.retries s) 1 |}, true).
Proof.
  intros H. unfold setRetryDelay.
  replace (ceiling <=? Sender.retries s) with false by (symmetry; apply Z.leb_gt; exact H).
  destruct s as [ms nt [|] d rt n]; simpl;
    destruct (time.Minute <? GoInt.mul d amp); reflexivity.
Qed.

Lemma setRetryDelay_messages (now : time.Time) (amp ceiling : Z) (s : Sender) :
  Sender.messages (fst (setRetryDelay now amp ceiling s)) = Sender.messages s.
Proof.
  destruct (Z_lt_le_dec (Sender.retries s) ceiling) as [H|H].
  - now rewrite setRetryDelay_schedule.
  - now rewrite setRetryDelay_giveup.
Qed.

Lemma len_cons_nonzero {A : Type} (x : A) (l : list A) : (GoInt.len (x :: l) =? 0) = false.
Proof. apply Z.eqb_neq. unfold GoInt.len. simpl List.length. lia. Qed.

Lemma len_cons_pos {A : Type} (x : A) (l : list A) : (0 <? GoInt.len (x :: l)) = true.
Proof. apply Z.ltb_lt. unfold GoInt.len. simpl List.length. lia. Qed.

Lemma statusToSend_frame (r : grpcReporter) :
  grpcReporter.metricsConn (fst (statusToSend r)) = grpcReporter.metricsConn r /\
  grpcReporter.s (fst (statusToSend r)) = grpcReporter.s r /\
  Sender.nextRetryDelay (grpcReporter.status (fst (statusToSend r))) =
    Sender.nextRetryDelay (grpcReporter.status r).
Proof.
  unfold statusToSend.
  destruct (0 <? GoInt.len (Sender.messages (grpcReporter.status r))); simpl; auto.
Qed.

Lemma sendMetrics_collect_frame (flush : outcome bytes) (r : grpcReporter) :
  grpcReporter.metricsConn (sendMetrics_collect flush r) = grpcReporter.metricsConn r /\
  grpcReporter.s (sendMetrics_collect flush r) = grpcReporter.s r /\
  Sender.nextRetryDelay (grpcReporter.metrics (sendMetrics_collect flush r)) =
    Sender.nextRetryDelay (grpcReporter.metrics r).
Proof.
  unfold sendMetrics_collect.
  destruct (time.Before _ _); [|auto].
  destruct flush as [message|]; simpl; [|auto].
  match goal with |- context [if ?c then _ else _] => destruct c end; simpl; auto.
Qed.

(** C7.  A post answered TRY_LATER or LIMIT_EXCEEDED runs [setRetryDelay]
    on the sender; when that schedules a retry, the metrics sender is left
    with its queue less the oldest message (the others in order) and the
    status sender with an empty queue; when it does not, the queue is
    kept. *)
Theorem try_later_drop_policy (mres : MessageResult) :
  GetResult mres = ResultCode_TRY_LATER \/ GetResult mres = ResultCode_LIMIT_EXCEEDED ->
  (forall flush r c oldest rest,
     let r1 := sendMetrics_collect flush r in
     let now := gRPC.currTime (grpcReporter.metricsConn r1) in
     let st := grpcReporter.s r1 in
     let ret := setRetryDelay now (retryAmplifier st) (maxMetricsRetries st)
                              (grpcReporter.metrics r1) in
     gRPC.status (grpcReporter.metricsConn r1) = OK ->
     gRPC.client (grpcReporter.metricsConn r1) = Some c ->
     Sender.retryActive (grpcReporter.metrics r1)
       && time.After (Sender.retryTime (grpcReporter.metrics r1)) now = false ->
     Sender.messages (grpcReporter.metrics r1) = oldest :: rest ->
     sendMetrics flush (Some mres) r =
     Some (grpcReporter.set_metrics
             (if snd ret then Sender.set_messages rest (fst ret) else fst ret)
             (grpcReporter.upd_metricsConn
                (gRPC.set_nextKeepAliveTime
                   (getNextTime now (metricsConnKeepAliveInterval st))) r1))) /\
  (forall r c,
     let r1 := fst (statusToSend r) in
     let now := gRPC.currTime (grpcReporter.metricsConn r) in
     let st := grpcReporter.s r in
     let ret := setRetryDelay now (retryAmplifier st) (maxMetricsRetries st)
                              (grpcReporter.status r1) in
     gRPC.status (grpcReporter.metricsConn r) = OK ->
     gRPC.client (grpcReporter.metricsConn r) = Some c ->
     Sender.retryActive (grpcReporter.status r)
       && time.After (Sender.retryTime (grpcReporter.status r)) now = false ->
     snd (statusToSend r) = true ->
     sendStatus (Some mres) r =
     Some (grpcReporter.set_status
             (if snd ret then Sender.set_messages [] (fst ret) else fst ret)
             (grpcReporter.upd_metricsConn
                (gRPC.set_nextKeepAliveTime
                   (getNextTime now (metricsConnKeepAliveInterval st))) r1))).
Proof.
  intros Hcode. split.
  - intros flush r c oldest rest r1 now st ret Hst Hcl Hwait Hmsgs.
    unfold sendMetrics, sendMetrics_post. fold r1. fold now. fold st.
    rewrite Hwait, Hst, Hcl, Hmsgs, len_cons_nonzero. simpl.
    pose proof (setRetryDelay_messages now (retryAmplifier st) (maxMetricsRetries st)
                  (grpcReporter.metrics r1)) as Hkeep.
    fold ret in Hkeep. rewrite Hmsgs in Hkeep.
    assert (Hgoal :
      (let '(m, scheduled) := ret in
       let r0 := grpcReporter.set_metrics m
                   (grpcReporter.upd_metricsConn
                      (gRPC.set_nextKeepAliveTime
                         (getNextTime now (metricsConnKeepAliveInterval st))) r1) in
       if scheduled
       then Some (grpcReporter.upd_metrics
                    (fun m0 => Sender.set_messages (tl (Sender.messages m0)) m0) r0)
       else Some r0) =
      Some (grpcReporter.set_metrics
              (if snd ret then Sender.set_messages rest (fst ret) else fst ret)
              (grpcReporter.upd_metricsConn
                 (gRPC.set_nextKeepAliveTime
                    (getNextTime now (metricsConnKeepAliveInterval st))) r1))).
    { destruct ret as [m [|]]; simpl in *; [|reflexivity].
      unfold grpcReporter.upd_metrics; simpl. now rewrite Hkeep. }
    destruct Hcode as [-> | ->]; exact Hgoal.
  - intros r c r1 now st ret Hst Hcl Hwait Hgo.
    destruct (statusToSend_frame r) as (Hconn & Hset & _).
    unfold sendStatus. fold now. fold st.
    rewrite Hst, Hwait. simpl.
    destruct (statusToSend r) as [r1' go] eqn:Hts. simpl in *. subst go r1. simpl.
    rewrite Hconn, Hcl.
    assert (Hgoal :
      (let '(m, scheduled) :=
         setRetryDelay now (retryAmplifier st) (maxMetricsRetries st)
                       (grpcReporter.status r1') in
       let r0 := grpcReporter.set_status m
                   (grpcReporter.upd_metricsConn
                      (gRPC.set_nextKeepAliveTime
                         (getNextTime now (metricsConnKeepAliveInterval st))) r1') in
       if scheduled
       then Some (grpcReporter.upd_status (Sender.set_messages []) r0)
       else Some r0) =
      Some (grpcReporter.set_status
              (if snd ret then Sender.set_messages [] (fst ret) else fst ret)
              (grpcReporter.upd_metricsConn
                 (gRPC.set_nextKeepAliveTime
                    (getNextTime now (metricsConnKeepAliveInterval st))) r1'))).
    { subst ret. destruct (setRetryDelay _ _ _ _) as [m [|]]; reflexivity. }
    destruct Hcode as [-> | ->]; exact Hgoal.
Qed.

Lemma try_later_drop_policy_witness :
  let r := grpcReporter.upd_metrics (Sender.set_messages [zeros 3; zeros 4; zeros 5])
             defaultReporter in
  option_map (fun r' => Sender.messages (grpcReporter.metrics r'))
    (sendMetrics None (Some (mkMessageResult ResultCode_TRY_LATER "")) r)
  = Some [zeros 4; zeros 5].
Proof.
  intros r.
  rewrite (proj1 (try_later_drop_policy (mkMessageResult ResultCode_TRY_LATER "")
                    (or_introl eq_refl))
             None r (NewTraceCollectorClient 2%nat) (zeros 3) [zeros 4; zeros 5]);
    by_eval.
Defined.

(** ** Result code OK *)

(** C3, as stated, fails: after a TRY_LATER and then an OK answer to the
    metrics post, the queue is empty, the retry counter is zero and the
    retry-active flag is clear, but the backoff delay is one second, twice
    the initial retry interval it is claimed to return to. *)
Lemma ok_reply_keeps_backoff :
  option_map (fun p => let m := grpcReporter.metrics (rep p) in
                       (Sender.messages m, Sender.retries m, Sender.retryActive m,
                        Sender.nextRetryDelay m))
             (periodic startedLoop laterThenOk)
  = Some ([], 0, false, 1000 * time.Millisecond)
  /\ initialRetryInterval (grpcReporter.s defaultReporter) = 500 * time.Millisecond
  /\ 1000 * time.Millisecond <> initialRetryInterval (grpcReporter.s defaultReporter).
Proof. by_eval. Qed.

(** C3, amended.  A post answered OK
    - by the metrics sender: empties the queue, zeroes the retry counter,
      clears the retry-active flag and zeroes the redirect counter;
    - by the status sender: empties the queue, clears the retry-active flag
      and zeroes the redirect counter;
    - by the settings sender: clears the retry-active flag, zeroes the
      redirect counter and leaves its queue as it is;
    and in all three the backoff delay keeps the value it had. *)
Theorem ok_reply_effect (mres : MessageResult) :
  GetResult mres = ResultCode_OK ->
  (forall flush r c,
     let r1 := sendMetrics_collect flush r in
     let now := gRPC.currTime (grpcReporter.metricsConn r1) in
     gRPC.status (grpcReporter.metricsConn r1) = OK ->
     gRPC.client (grpcReporter.metricsConn r1) = Some c ->
     Sender.retryActive (grpcReporter.metrics r1)
       && time.After (Sender.retryTime (grpcReporter.metrics r1)) now = false ->
     Sender.messages (grpcReporter.metrics r1) <> [] ->
     exists r',
       sendMetrics flush (Some mres) r = Some r' /\
       Sender.messages (grpcReporter.metrics r') = [] /\
       Sender.retries (grpcReporter.metrics r') = 0 /\
       Sender.retryActive (grpcReporter.metrics r') = false /\
       gRPC.redirects (grpcReporter.metricsConn r') = 0 /\
       Sender.nextRetryDelay (grpcReporter.metrics r') =
         Sender.nextRetryDelay (grpcReporter.metrics r)) /\
  (forall r c,
     let now := gRPC.currTime (grpcReporter.metricsConn r) in
     gRPC.status (grpcReporter.metricsConn r) = OK ->
     gRPC.client (grpcReporter.metricsConn r) = Some c ->
     Sender.retryActive (grpcReporter.status r)
       && time.After (Sender.retryTime (grpcReporter.status r)) now = false ->
     snd (statusToSend r) = true ->
     exists r',
       sendStatus (Some mres) r = Some r' /\
       Sender.messages (grpcReporter.status r') = [] /\
       Sender.retryActive (grpcReporter.status r') = false /\
       gRPC.redirects (grpcReporter.metricsConn r') = 0 /\
       Sender.nextRetryDelay (grpcReporter.status r') =
         Sender.nextRetryDelay (grpcReporter.status r)) /\
  (forall r c latest settingsList,
     gRPC.status (grpcReporter.metricsConn r) = OK ->
     gRPC.client (grpcReporter.metricsConn r) = Some c ->
     settingsDue r = true ->
     exists r',
       getSettings (Some (mkSettingsResult mres settingsList)) r latest =
         Some (r', storeSettings (mkSettingsResult mres settingsList) latest, true) /\
       Sender.retryActive (grpcReporter.settings r') = false /\
       gRPC.redirects (grpcReporter.metricsConn r') = 0 /\
       Sender.messages (grpcReporter.settings r') = Sender.messages (grpcReporter.settings r) /\
       Sender.nextRetryDelay (grpcReporter.settings r') =
         Sender.nextRetryDelay (grpcReporter.settings r)).
Proof.
  intros Hcode. split; [|split].
  - intros flush r c r1 now Hst Hcl Hwait Hmsgs.
    destruct (sendMetrics_collect_frame flush r) as (_ & _ & Hdelay).
    fold r1 in Hdelay.
    unfold sendMetrics, sendMetrics_post. fold r1. fold now.
    rewrite Hwait, Hst, Hcl, Hcode.
    destruct (Sender.messages (grpcReporter.metrics r1)) as [|m0 ms] eqn:Hq;
      [contradiction|].
    rewrite len_cons_nonzero. simpl.
    eexists. split; [reflexivity|]. simpl. repeat split. exact Hdelay.
  - intros r c now Hst Hcl Hwait Hgo.
    destruct (statusToSend_frame r) as (Hconn & Hset & Hdelay).
    unfold sendStatus. fold now. rewrite Hst, Hwait. simpl.
    destruct (statusToSend r) as [r1 go] eqn:Hts. simpl in *. subst go. simpl.
    rewrite Hconn, Hcl, Hcode.
    eexists. split; [reflexivity|]. simpl. repeat split. exact Hdelay.
  - intros r c latest settingsList Hst Hcl Hdue.
    unfold getSettings. rewrite Hst, Hdue, Hcl. simpl. rewrite Hcode.
    eexists. split; [reflexivity|]. simpl. repeat split.
Qed.

Lemma ok_reply_effect_witness :
  let r := grpcReporter.upd_metrics (Sender.set_messages [zeros 3; zeros 4])
             defaultReporter in
  exists r',
    sendMetrics None (Some okResult) r = Some r' /\
    Sender.messages (grpcReporter.metrics r') = [] /\
    Sender.retries (grpcReporter.metrics r') = 0 /\
    Sender.retryActive (grpcReporter.metrics r') = false /\
    gRPC.redirects (grpcReporter.metricsConn r') = 0 /\
    Sender.nextRetryDelay (grpcReporter.metrics r') =
      Sender.nextRetryDelay (grpcReporter.metrics r).
Proof.
  intros r.
  refine (proj1 (ok_reply_effect okResult eq_refl) None r (NewTraceCollectorClient 2%nat)
            _ _ _ _); by_eval.
Defined.

(** ** Backoff *)

Lemma min_cap_mul (cap x y : Z) :
  0 <= cap -> 0 <= x -> 1 <= y ->
  Z.min cap (Z.min cap x * y) = Z.min cap (x * y).
Proof. intros Hc Hx Hy. destruct (Z.min_spec cap x) as [[? ->]|[? ->]]; nia. Qed.

(** One scheduling call, when nothing overflows: the delay scheduled is the
    current backoff, which is then multiplied and capped at one minute. *)
Lemma setRetryDelay_grow (now : time.Time) (amp ceiling : Z) (s : Sender) :
  GoInt.in_range ceiling ->
  GoInt.in_range (Sender.retries s) ->
  Sender.retries s < ceiling ->
  1 <= amp -> time.Minute * amp <= GoInt.max_int ->
  0 <= Sender.nextRetryDelay s <= time.Minute ->
  let s' := fst (setRetryDelay now amp ceiling s) in
  snd (setRetryDelay now amp ceiling s) = true /\
  Sender.retryTime s' - now = Sender.nextRetryDelay s /\
  Sender.nextRetryDelay s' = Z.min time.Minute (Sender.nextRetryDelay s * amp) /\
  Sender.retries s' = Sender.retries s + 1 /\
  Sender.retryActive s' = true.
Proof.
  intros Hc Hr Hlt Hamp Hcap Hd s'. subst s'.
  rewrite setRetryDelay_schedule by exact Hlt. simpl.
  assert (Hmul : GoInt.mul (Sender.nextRetryDelay s) amp = Sender.nextRetryDelay s * amp).
  { apply mul_no_overflow.
    unfold GoInt.in_range, GoInt.min_int, GoInt.max_int, time.Minute in *. nia. }
  rewrite Hmul. repeat split.
  - unfold time.Add. lia.
  - destruct (time.Minute <? Sender.nextRetryDelay s * amp) eqn:E.
    + apply Z.ltb_lt in E. lia.
    + apply Z.ltb_ge in E. lia.
  - apply add_no_overflow.
    unfold GoInt.in_range, GoInt.min_int, GoInt.max_int in *. lia.
Qed.

(** Under the cap the code applies (one minute, the default maximum retry
    interval) the backoff follows the claimed law: after [n] consecutive
    scheduling calls on a sender below its ceiling the backoff delay is
    [min(time.Minute, d * amp^n)] and the retry counter has grown by [n]. *)
Lemma backoff_after_rounds (amp ceiling : Z) (nows : list time.Time) :
  forall s : Sender,
    GoInt.in_range ceiling ->
    GoInt.in_range (Sender.retries s) ->
    Sender.retries s + GoInt.len nows <= ceiling ->
    1 <= amp -> time.Minute * amp <= GoInt.max_int ->
    0 <= Sender.nextRetryDelay s <= time.Minute ->
    let s' := fst (retryRounds nows amp ceiling s) in
    Sender.nextRetryDelay s' =
      Z.min time.Minute (Sender.nextRetryDelay s * amp ^ GoInt.len nows) /\
    Sender.retries s' = Sender.retries s + GoInt.len nows /\
    List.length (snd (retryRounds nows amp ceiling s)) = List.length nows.
Proof.
  induction nows as [|now rest IH]; intros s Hc Hr Hle Hamp Hcap Hd;
    cbn [retryRounds fst snd].
  - change (GoInt.len (@nil time.Time)) with 0. rewrite Z.pow_0_r, Z.mul_1_r.
    repeat split; lia.
  - assert (Hlen : GoInt.len (now :: rest) = GoInt.len rest + 1)
      by (unfold GoInt.len; simpl List.length; lia).
    pose proof (len_nonneg rest) as Hnn.
    rewrite Hlen in *.
    destruct (setRetryDelay_grow now amp ceiling s Hc Hr ltac:(lia) Hamp Hcap Hd)
      as (Hok & Htime & Hdelay & Hretries & _).
    destruct (IH (fst (setRetryDelay now amp ceiling s))) as (IH1 & IH2 & IH3); auto.
    + rewrite Hretries. unfold GoInt.in_range, GoInt.min_int, GoInt.max_int in *. lia.
    + rewrite Hretries. lia.
    + rewrite Hdelay. unfold time.Minute in *. lia.
    + rewrite Hok. cbn [List.length]. rewrite IH1, IH2, IH3, Hdelay, Hretries.
      repeat split; try lia.
      rewrite min_cap_mul.
      * f_equal. rewrite Z.pow_add_r, Z.pow_1_r by lia. ring.
      * unfold time.Minute; lia.
      * lia.
      * rewrite <- (Z.pow_1_l (GoInt.len rest)) at 1 by lia.
        apply Z.pow_le_mono_l. lia.
Qed.

(** The scenario of C2 on the default settings: two consecutive TRY_LATER
    answers schedule 500ms and then 1000ms and leave the counter at 2. *)
Lemma backoff_scenario :
  let st := newDefaultSettings in
  let run := retryRounds [5 * time.Second; 9 * time.Second]
               (retryAmplifier st) (maxMetricsRetries st)
               (newSender (initialRetryInterval st)) in
  snd run = [500 * time.Millisecond; 1000 * time.Millisecond] /\
  Sender.retries (fst run) = 2 /\
  Sender.nextRetryDelay (fst run) = 2000 * time.Millisecond.
Proof. by_eval. Qed.

(** C2, at a configured maximum other than one minute.  With the maximum
    retry interval configured to one second, initial interval 500ms and
    amplifier 2, three consecutive scheduling calls schedule 500ms, 1000ms
    and 2000ms and leave a backoff of 4000ms: the delay outgrows the
    configured maximum, which [setRetryDelay] never reads. *)
Theorem setRetryDelay_ignores_configured_cap :
  let st := oneSecondCap in
  let run := retryRounds [0; 0; 0] (retryAmplifier st) (maxMetricsRetries st)
               (newSender (initialRetryInterval st)) in
  maxRetryInterval st = 1000 * time.Millisecond /\
  snd run = [500 * time.Millisecond; 1000 * time.Millisecond; 2000 * time.Millisecond] /\
  Sender.nextRetryDelay (fst run) = 4000 * time.Millisecond /\
  Sender.nextRetryDelay (fst run) <>
    Z.min (maxRetryInterval st) (initialRetryInterval st * retryAmplifier st ^ 3) /\
  Sender.retries (fst run) = 3.
Proof. by_eval. Qed.

(** ** Retry ceiling *)

Lemma retryRounds_bounded (amp ceiling : Z) (nows : list time.Time) :
  forall s : Sender,
    GoInt.in_range ceiling ->
    GoInt.in_range (Sender.retries s) ->
    GoInt.len (snd (retryRounds nows amp ceiling s))
      <= Z.max 0 (ceiling - Sender.retries s).
Proof.
  induction nows as [|now rest IH]; intros s Hc Hr; cbn [retryRounds fst snd].
  - change (GoInt.len (@nil time.Duration)) with 0. lia.
  - destruct (Z_lt_le_dec (Sender.retries s) ceiling) as [Hlt|Hge].
    + rewrite setRetryDelay_schedule by exact Hlt. cbn [fst snd].
      assert (Hadd : GoInt.add (Sender.retries s) 1 = Sender.retries s + 1).
      { apply add_no_overflow.
        unfold GoInt.in_range, GoInt.min_int, GoInt.max_int in *. lia. }
      match goal with |- context [retryRounds rest amp ceiling ?s1] =>
        specialize (IH s1 Hc) end.
      cbn [Sender.retries] in IH. rewrite Hadd in IH |- *.
      unfold GoInt.len in *. cbn [List.length].
      assert (Hr1 : GoInt.in_range (Sender.retries s + 1))
        by (unfold GoInt.in_range, GoInt.min_int, GoInt.max_int in *; lia).
      specialize (IH Hr1). lia.
    + rewrite setRetryDelay_giveup by exact Hge. cbn [fst snd].
      specialize (IH (Sender.set_retryActive false s) Hc Hr).
      cbn [Sender.set_retryActive Sender.retries] in IH. exact IH.
Qed.

(** C6, as stated, fails: on the default settings (ceiling 20) the collector
    answers 25 consecutive settings requests TRY_LATER; all 25 requests are
    made, the last 24 of them retries, and the settings sender is still
    retry-active with its retry counter at 1. *)
Lemma settings_retries_exceed_ceiling :
  option_map (fun p => (settingsCalls p,
                        Sender.retryActive (grpcReporter.settings (rep p)),
                        Sender.retries (grpcReporter.settings (rep p))))
             (periodic startedLoop (settingsAlwaysLater 25))
  = Some (25%nat, true, 1)
  /\ maxMetricsRetries (grpcReporter.s (rep startedLoop)) = 20.
Proof. by_eval. Qed.

(** C6, amended.  A sender stops scheduling at the ceiling: once its retry
    counter has reached the ceiling [setRetryDelay] returns false and
    clears the retry-active flag, so consecutive calls schedule at most
    [ceiling - retries] retries.  The settings sender is not bound by it:
    [getSettings] zeroes the counter before every call, so with a ceiling
    of at least 1 every TRY_LATER or LIMIT_EXCEEDED answer schedules a
    further retry and leaves the counter at 1. *)
Theorem retry_ceiling (amp ceiling : Z) :
  GoInt.in_range ceiling ->
  (forall now s,
     ceiling <= Sender.retries s ->
     setRetryDelay now amp ceiling s = (Sender.set_retryActive false s, false)) /\
  (forall nows s,
     GoInt.in_range (Sender.retries s) ->
     GoInt.len (snd (retryRounds nows amp ceiling s))
       <= Z.max 0 (ceiling - Sender.retries s)) /\
  (forall mres settingsList r c latest,
     GetResult mres = ResultCode_TRY_LATER \/ GetResult mres = ResultCode_LIMIT_EXCEEDED ->
     maxMetricsRetries (grpcReporter.s r) = ceiling ->
     retryAmplifier (grpcReporter.s r) = amp ->
     1 <= ceiling ->
     gRPC.status (grpcReporter.metricsConn r) = OK ->
     gRPC.client (grpcReporter.metricsConn r) = Some c ->
     settingsDue r = true ->
     exists r',
       getSettings (Some (mkSettingsResult mres settingsList)) r latest
         = Some (r', latest, true) /\
       Sender.retryActive (grpcReporter.settings r') = true /\
       Sender.retries (grpcReporter.settings r') = 1 /\
       Sender.retryTime (grpcReporter.settings r') =
         time.Add (gRPC.currTime (grpcReporter.metricsConn r))
                  (Sender.nextRetryDelay (grpcReporter.settings r))).
Proof.
  intros Hc. split; [|split].
  - intros now s. apply setRetryDelay_giveup.
  - intros nows s. now apply retryRounds_bounded.
  - intros mres settingsList r c latest Hcode Hceil Hamp Hpos Hst Hcl Hdue.
    unfold getSettings. rewrite Hst, Hdue, Hcl. cbn [negb sresult].
    assert (Hgoal :
      (let r0 := grpcReporter.upd_settings (Sender.set_retries 0)
                   (grpcReporter.upd_metricsConn
                      (gRPC.set_nextKeepAliveTime
                         (getNextTime (gRPC.currTime (grpcReporter.metricsConn r))
                            (metricsConnKeepAliveInterval (grpcReporter.s r)))) r) in
       let '(m, _) :=
         setRetryDelay (gRPC.currTime (grpcReporter.metricsConn r))
           (retryAmplifier (grpcReporter.s r)) (maxMetricsRetries (grpcReporter.s r))
           (grpcReporter.settings r0) in
       Some (grpcReporter.set_settings m r0, latest, true)) =
      Some (grpcReporter.set_settings
              (fst (setRetryDelay (gRPC.currTime (grpcReporter.metricsConn r)) amp ceiling
                      (Sender.set_retries 0 (grpcReporter.settings r))))
              (grpcReporter.upd_settings (Sender.set_retries 0)
                 (grpcReporter.upd_metricsConn
                    (gRPC.set_nextKeepAliveTime
                       (getNextTime (gRPC.currTime (grpcReporter.metricsConn r))
                          (metricsConnKeepAliveInterval (grpcReporter.s r)))) r)),
            latest, true)).
    { rewrite Hceil, Hamp. cbn zeta.
      destruct r as [c0 a cp ex k st g m stt se ch ag sm]. cbn.
      destruct (setRetryDelay _ _ _ _); reflexivity. }
    eexists. split.
    + destruct Hcode as [-> | ->]; exact Hgoal.
    + rewrite setRetryDelay_schedule by (cbn; lia). cbn. repeat split.
Qed.

Lemma retry_ceiling_witness :
  let r := grpcReporter.upd_metricsConn (gRPC.set_currTime (1021 * time.Second))
             defaultReporter in
  exists r',
    getSettings (Some tryLaterSettings) r [] = Some (r', [], true) /\
    Sender.retryActive (grpcReporter.settings r') = true /\
    Sender.retries (grpcReporter.settings r') = 1 /\
    Sender.retryTime (grpcReporter.settings r') =
      time.Add (1021 * time.Second) (500 * time.Millisecond).
Proof.
  intros r.
  refine (proj2 (proj2 (retry_ceiling 2 20 _)) tryLater [] r (NewTraceCollectorClient 2%nat) []
            (or_introl eq_refl) _ _ _ _ _ _); by_eval.
Defined.

(** ** Reconnection *)

Lemma reconnect_idle (addr certPath : string) (s : settings)
      (dial : outcome ClientConn) (g : gRPC) :
  gRPC.status g = OK \/ gRPC.status g = CLOSING ->
  reconnect addr certPath s dial g = (g, []).
Proof. unfold reconnect. now intros [-> | ->]. Qed.

Lemma reconnect_give_up (addr certPath : string) (s : settings)
      (dial : outcome ClientConn) (g : gRPC) :
  gRPC.status g = DISCONNECTED ->
  maxConnRetries s < gRPC.retries g ->
  reconnect addr certPath s dial g = (gRPC.set_status CLOSING g, []).
Proof.
  intros Hst Hgt. unfold reconnect. rewrite Hst.
  replace (maxConnRetries s <? gRPC.retries g) with true
    by (symmetry; apply Z.ltb_lt; exact Hgt).
  reflexivity.
Qed.

Lemma reconnect_backing_off (addr certPath : string) (s : settings)
      (dial : outcome ClientConn) (g : gRPC) :
  gRPC.status g = DISCONNECTED ->
  gRPC.retries g <= maxConnRetries s ->
  time.After (gRPC.nextRetryTime g) (gRPC.currTime g) = true ->
  reconnect addr certPath s dial g = (g, []).
Proof.
  intros Hst Hle Hafter. unfold reconnect. rewrite Hst, Hafter.
  replace (maxConnRetries s <? gRPC.retries g) with false
    by (symmetry; apply Z.ltb_ge; exact Hle).
  reflexivity.
Qed.

(** A failed dial, whatever the arithmetic does: one call, the counter
    incremented, the status kept. *)
Lemma reconnect_dial_failed_shape (addr certPath : string) (s : settings) (g : gRPC) :
  gRPC.status g = DISCONNECTED ->
  gRPC.retries g <= maxConnRetries s ->
  time.After (gRPC.nextRetryTime g) (gRPC.currTime g) = false ->
  let res := reconnect addr certPath s None g in
  snd res = [mkDialCall certPath addr] /\
  gRPC.status (fst res) = DISCONNECTED /\
  gRPC.retries (fst res) = GoInt.add (gRPC.retries g) 1.
Proof.
  intros Hst Hle Hafter. unfold reconnect. rewrite Hst, Hafter.
  replace (maxConnRetries s <? gRPC.retries g) with false
    by (symmetry; apply Z.ltb_ge; exact Hle).
  cbn. rewrite Hst. repeat split.
Qed.

Lemma reconnect_dial_failed (addr certPath : string) (s : settings) (g : gRPC) :
  gRPC.status g = DISCONNECTED ->
  gRPC.retries g <= maxConnRetries s ->
  time.After (gRPC.nextRetryTime g) (gRPC.currTime g) = false ->
  0 <= gRPC.retries g < GoInt.max_int ->
  0 <= retryAmplifier s ->
  time.Second * ((gRPC.retries g + 1) * retryAmplifier s) <= GoInt.max_int ->
  reconnect addr certPath s None g =
  (gRPC.mk (gRPC.client g) DISCONNECTED (gRPC.retries g + 1)
           (time.Add (gRPC.currTime g)
              (Z.min (maxRetryInterval s)
                     (time.Second * ((gRPC.retries g + 1) * retryAmplifier s))))
           (gRPC.redirects g) (gRPC.nextKeepAliveTime g) (gRPC.currTime g),
   [mkDialCall certPath addr]).
Proof.
  intros Hst Hle Hafter Hr Hamp Hno. unfold reconnect. rewrite Hst, Hafter.
  replace (maxConnRetries s <? gRPC.retries g) with false
    by (symmetry; apply Z.ltb_ge; exact Hle).
  assert (Hadd : GoInt.add (gRPC.retries g) 1 = gRPC.retries g + 1).
  { apply add_no_overflow.
    unfold GoInt.in_range, GoInt.min_int, GoInt.max_int in *. lia. }
  assert (Hin : GoInt.mul (gRPC.retries g + 1) (retryAmplifier s)
                = (gRPC.retries g + 1) * retryAmplifier s).
  { apply mul_no_overflow.
    unfold GoInt.in_range, GoInt.min_int, GoInt.max_int, time.Second in *. nia. }
  assert (Hout : GoInt.mul time.Second ((gRPC.retries g + 1) * retryAmplifier s)
                 = time.Second * ((gRPC.retries g + 1) * retryAmplifier s)).
  { apply mul_no_overflow.
    unfold GoInt.in_range, GoInt.min_int, GoInt.max_int, time.Second in *. nia. }
  grpc_simpl. rewrite Hadd, Hin, Hout.
  assert (Hmin : (if maxRetryInterval s
                       <? time.Second * ((gRPC.retries g + 1) * retryAmplifier s)
                  then maxRetryInterval s
                  else time.Second * ((gRPC.retries g + 1) * retryAmplifier s))
                 = Z.min (maxRetryInterval s)
                         (time.Second * ((gRPC.retries g + 1) * retryAmplifier s))).
  { destruct (maxRetryInterval s
                <? time.Second * ((gRPC.retries g + 1) * retryAmplifier s)) eqn:E.
    - apply Z.ltb_lt in E. lia.
    - apply Z.ltb_ge in E. lia. }
  rewrite Hmin.
  destruct g as [gc gs gr gn gd gk gt].
  cbn [gRPC.status] in Hst. subst gs. reflexivity.
Qed.

Lemma reconnect_dial_ok (addr certPath : string) (s : settings) (g : gRPC)
      (conn : ClientConn) :
  gRPC.status g = DISCONNECTED ->
  gRPC.retries g <= maxConnRetries s ->
  time.After (gRPC.nextRetryTime g) (gRPC.currTime g) = false ->
  reconnect addr certPath s (Some conn) g =
  (gRPC.mk (Some (NewTraceCollectorClient conn)) OK 0 time.zero
           (gRPC.redirects g)
           (getNextTime (gRPC.currTime g) (metricsConnKeepAliveInterval s))
           (gRPC.currTime g),
   [mkDialCall certPath addr]).
Proof.
  intros Hst Hle Hafter. unfold reconnect. rewrite Hst, Hafter.
  replace (maxConnRetries s <? gRPC.retries g) with false
    by (symmetry; apply Z.ltb_ge; exact Hle).
  reflexivity.
Qed.

(** Once CLOSING, no tick dials again. *)
Lemma redial_closing (addr certPath : string) (s : settings) (ticks : list time.Time) :
  forall g, gRPC.status g = CLOSING ->
            snd (redial addr certPath s ticks g) = [] /\
            gRPC.status (fst (redial addr certPath s ticks g)) = CLOSING.
Proof.
  induction ticks as [|t rest IH]; intros g Hst; cbn [redial fst snd]; [auto|].
  rewrite reconnect_idle by (right; exact Hst). cbn [fst snd].
  apply IH. exact Hst.
Qed.

(** Failed dials are counted by the retry counter, and stop when it has
    passed the ceiling. *)
Lemma redial_bounded (addr certPath : string) (s : settings) (ticks : list time.Time) :
  forall g,
    gRPC.status g = DISCONNECTED ->
    0 <= gRPC.retries g ->
    maxConnRetries s < GoInt.max_int ->
    let run := redial addr certPath s ticks g in
    GoInt.len (snd run) <= Z.max 0 (maxConnRetries s + 1 - gRPC.retries g) /\
    (gRPC.status (fst run) = CLOSING \/
     gRPC.status (fst run) = DISCONNECTED /\
     gRPC.retries (fst run) = gRPC.retries g + GoInt.len (snd run)).
Proof.
  induction ticks as [|t rest IH]; intros g Hst Hr Hmax; cbn [redial fst snd].
  - change (GoInt.len (@nil dialCall)) with 0. split; [lia|right; split; [auto|lia]].
  - set (g1 := gRPC.set_currTime t g).
    assert (Hst1 : gRPC.status g1 = DISCONNECTED) by exact Hst.
    assert (Hr1 : gRPC.retries g1 = gRPC.retries g) by reflexivity.
    destruct (Z_lt_le_dec (maxConnRetries s) (gRPC.retries g1)) as [Hgt|Hle].
    + rewrite reconnect_give_up by assumption. cbn [fst snd app].
      destruct (redial_closing addr certPath s rest (gRPC.set_status CLOSING g1) eq_refl)
        as (-> & ->).
      change (GoInt.len (@nil dialCall)) with 0. split; [lia|now left].
    + destruct (time.After (gRPC.nextRetryTime g1) (gRPC.currTime g1)) eqn:Hafter.
      * rewrite reconnect_backing_off by assumption. cbn [fst snd app].
        specialize (IH g1 Hst1 ltac:(lia) Hmax). rewrite Hr1 in IH. exact IH.
      * destruct (reconnect_dial_failed_shape addr certPath s g1 Hst1 Hle Hafter)
          as (Hcalls & Hst2 & Hr2).
        rewrite Hcalls.
        rewrite add_no_overflow in Hr2
          by (unfold GoInt.in_range, GoInt.min_int, GoInt.max_int in *; lia).
        specialize (IH (fst (reconnect addr certPath s None g1)) Hst2 ltac:(lia) Hmax).
        rewrite Hr2, Hr1 in IH. destruct IH as (IHn & IHs).
        cbn [app]. unfold GoInt.len in *. cbn [List.length].
        split; [lia|]. destruct IHs as [Hc|(Hd & Hn)]; [now left|right].
        split; [exact Hd|]. rewrite Hn. lia.
Qed.

(** C4, as stated, fails on the count of failed dials: with two connection
    retries allowed, after two consecutive failed dials the connection is
    still DISCONNECTED and the third tick dials again; CLOSING is reached
    at the fourth tick, after three failed dials, and from then on no dial
    is made. *)
Lemma reconnect_dials_once_more :
  let ticks := map (fun i => Z.of_nat i * 100 * time.Second) (seq 1 5) in
  let after n := redial "collector" "cert" twoConnRetries (firstn n ticks) lostConn in
  maxConnRetries twoConnRetries = 2 /\
  (gRPC.status (fst (after 2%nat)), List.length (snd (after 2%nat)))
    = (DISCONNECTED, 2%nat) /\
  (gRPC.status (fst (after 3%nat)), List.length (snd (after 3%nat)))
    = (DISCONNECTED, 3%nat) /\
  (gRPC.status (fst (after 4%nat)), List.length (snd (after 4%nat)))
    = (CLOSING, 3%nat) /\
  (gRPC.status (fst (after 5%nat)), List.length (snd (after 5%nat)))
    = (CLOSING, 3%nat).
Proof. by_eval. Qed.

(** C4, amended.  [reconnect] returns the connection unchanged, without
    dialing, when the status is OK or CLOSING; when DISCONNECTED with the
    retry counter above the ceiling it sets CLOSING without dialing; when
    the retry time is still ahead it changes nothing; otherwise it dials
    once: a failed dial schedules the next retry at the tick time plus
    [min(maxRetryInterval, (retries+1) * retryAmplifier seconds)] and
    increments the counter, a successful one installs the client, zeroes
    the counter, clears the retry time, sets OK and reschedules the
    keep-alive.  Counted from a zero counter, at most [maxConnRetries + 1]
    dials fail before the connection is CLOSING (one more than the
    ceiling), the counter telling their number while DISCONNECTED; and a
    CLOSING connection is never dialed again. *)
Theorem reconnect_contract (addr certPath : string) (s : settings) (g : gRPC) :
  (forall dial,
     gRPC.status g = OK \/ gRPC.status g = CLOSING ->
     reconnect addr certPath s dial g = (g, [])) /\
  (forall dial,
     gRPC.status g = DISCONNECTED -> maxConnRetries s < gRPC.retries g ->
     reconnect addr certPath s dial g = (gRPC.set_status CLOSING g, [])) /\
  (forall dial,
     gRPC.status g = DISCONNECTED -> gRPC.retries g <= maxConnRetries s ->
     time.After (gRPC.nextRetryTime g) (gRPC.currTime g) = true ->
     reconnect addr certPath s dial g = (g, [])) /\
  (gRPC.status g = DISCONNECTED -> gRPC.retries g <= maxConnRetries s ->
   time.After (gRPC.nextRetryTime g) (gRPC.currTime g) = false ->
   0 <= gRPC.retries g < GoInt.max_int ->
   0 <= retryAmplifier s ->
   time.Second * ((gRPC.retries g + 1) * retryAmplifier s) <= GoInt.max_int ->
     reconnect addr certPath s None g =
     (gRPC.mk (gRPC.client g) DISCONNECTED (gRPC.retries g + 1)
              (time.Add (gRPC.currTime g)
                 (Z.min (maxRetryInterval s)
                        (time.Second * ((gRPC.retries g + 1) * retryAmplifier s))))
              (gRPC.redirects g) (gRPC.nextKeepAliveTime g) (gRPC.currTime g),
      [mkDialCall certPath addr])) /\
  (forall conn,
     gRPC.status g = DISCONNECTED -> gRPC.retries g <= maxConnRetries s ->
     time.After (gRPC.nextRetryTime g) (gRPC.currTime g) = false ->
     reconnect addr certPath s (Some conn) g =
     (gRPC.mk (Some (NewTraceCollectorClient conn)) OK 0 time.zero
              (gRPC.redirects g)
              (getNextTime (gRPC.currTime g) (metricsConnKeepAliveInterval s))
              (gRPC.currTime g),
      [mkDialCall certPath addr])) /\
  (forall ticks,
     gRPC.status g = DISCONNECTED -> gRPC.retries g = 0 ->
     0 <= maxConnRetries s < GoInt.max_int ->
     let run := redial addr certPath s ticks g in
     GoInt.len (snd run) <= maxConnRetries s + 1 /\
     (gRPC.status (fst run) = CLOSING \/
      gRPC.status (fst run) = DISCONNECTED /\
      gRPC.retries (fst run) = GoInt.len (snd run))) /\
  (forall ticks,
     gRPC.status g = CLOSING ->
     snd (redial addr certPath s ticks g) = [] /\
     gRPC.status (fst (redial addr certPath s ticks g)) = CLOSING).
Proof.
  repeat apply conj.
  - intros dial. apply reconnect_idle.
  - intros dial. apply reconnect_give_up.
  - intros dial. apply reconnect_backing_off.
  - apply reconnect_dial_failed.
  - intros conn. apply reconnect_dial_ok.
  - intros ticks Hst Hr Hmax run.
    destruct (redial_bounded addr certPath s ticks g Hst ltac:(lia) ltac:(lia))
      as (Hn & Hs).
    fold run in Hn, Hs. rewrite Hr in Hn, Hs. split; [lia|].
    destruct Hs as [Hc|(Hd & Hk)]; [now left|right]. split; [exact Hd|lia].
  - intros ticks. apply redial_closing.
Qed.

Lemma reconnect_contract_witness :
  let g := gRPC.set_currTime (100 * time.Second) lostConn in
  reconnect "collector" "cert" newDefaultSettings None g =
  (gRPC.mk (gRPC.client g) DISCONNECTED (0 + 1)
           (time.Add (100 * time.Second)
              (Z.min time.Minute (time.Second * ((0 + 1) * 2))))
           0 time.zero (100 * time.Second),
   [mkDialCall "cert" "collector"]).
Proof.
  intros g.
  refine (proj1 (proj2 (proj2 (proj2
            (reconnect_contract "collector" "cert" newDefaultSettings g))))
            _ _ _ _ _ _); by_eval.
Defined.

(** ** Event validation *)

Lemma bytes_Equal_spec (a : bytes) : forall b, bytes_Equal a b = true <-> a = b.
Proof.
  induction a as [|x a IH]; intros [|y b]; simpl; split; try easy.
  - rewrite andb_true_iff, IH. intros [Hxy ->]. now rewrite (Byte.byte_dec_bl _ _ Hxy).
  - intros [= -> ->]. rewrite andb_true_iff, IH. split; [now apply Byte.byte_dec_lb|easy].
Qed.

Lemma bytes_Equal_neq (a b : bytes) : a <> b -> bytes_Equal a b = false.
Proof.
  intros H. destruct (bytes_Equal a b) eqn:E; [|reflexivity].
  apply bytes_Equal_spec in E. contradiction.
Qed.

(** C8, as stated, fails for a reporter that is not open: the event of
    another trace, and the event carrying the context's own operation
    identifier, are both answered with a nil error by the null reporter and
    by a gRPC reporter without event client. *)
Lemma reportEvent_closed_reporter_no_error :
  let closed := newGRPCReporterWithConfig None newDefaultSettings None "" "" "" in
  taskID (ids (oboeContext.metadata ctxA)) <> taskID (ids (event.metadata eventB)) /\
  opID (ids (oboeContext.metadata ctxA)) = opID (ids (event.metadata eventSameOp)) /\
  rep_err (reportEvent (enc := nullEncoder) 0 "host" 1 mkNullReporter
             (Some ctxA) (Some eventB)) = None /\
  rep_err (reportEvent (enc := nullEncoder) 0 "host" 1 mkNullReporter
             (Some ctxA) (Some eventSameOp)) = None /\
  rep_err (reportEvent (enc := nullEncoder) 0 "host" 1 closed
             (Some ctxA) (Some eventB)) = None.
Proof. by_eval. Qed.

(** C8, amended.  For an event whose task identifier differs from the
    context's, or whose operation identifier equals the context's:
    [reportEvent] on an open reporter returns a validation error and leaves
    the reporter, the context and the event as they were (no packet is
    written); on a reporter that is not open it returns no error and
    likewise writes nothing; [prepareEvent] returns a validation error and
    leaves the context and the event as they were. *)
Theorem reportEvent_validation {R : Type} {RI : reporter R} {enc : Encoder}
        (unixNano : Z) (hostname : string) (pid : Z)
        (r : R) (c : oboeContext) (ev : event) :
  taskID (ids (oboeContext.metadata c)) <> taskID (ids (event.metadata ev)) \/
  opID (ids (oboeContext.metadata c)) = opID (ids (event.metadata ev)) ->
  (IsOpen r = true ->
     exists msg,
       reportEvent unixNano hostname pid r (Some c) (Some ev)
         = mkReported r (Some c) (Some ev) (Some msg)) /\
  (IsOpen r = false ->
     reportEvent unixNano hostname pid r (Some c) (Some ev)
       = mkReported r (Some c) (Some ev) None) /\
  (exists msg,
     aoreporter.prepareEvent unixNano hostname pid (Some c) (Some ev)
       = aoreporter.mkPrepared (Some c) (Some ev) (Some msg)).
Proof.
  intros Hbad.
  assert (Hcases :
    bytes_Equal (taskID (ids (oboeContext.metadata c))) (taskID (ids (event.metadata ev)))
      = false \/
    bytes_Equal (taskID (ids (oboeContext.metadata c))) (taskID (ids (event.metadata ev)))
      = true /\
    bytes_Equal (opID (ids (oboeContext.metadata c))) (opID (ids (event.metadata ev)))
      = true).
  { destruct (bytes_Equal (taskID (ids (oboeContext.metadata c)))
                          (taskID (ids (event.metadata ev)))) eqn:Et; [right|now left].
    split; [reflexivity|]. apply bytes_Equal_spec.
    destruct Hbad as [Hneq|Heq]; [|exact Heq].
    apply bytes_Equal_spec in Et. contradiction. }
  split; [|split].
  - intros Hopen. unfold reportEvent. rewrite Hopen. cbn [negb].
    destruct Hcases as [-> | (-> & ->)]; cbn [negb]; eexists; reflexivity.
  - intros Hclosed. unfold reportEvent. rewrite Hclosed. reflexivity.
  - unfold aoreporter.prepareEvent.
    destruct Hcases as [-> | (-> & ->)]; cbn [negb]; eexists; reflexivity.
Qed.

Lemma reportEvent_validation_witness :
  exists msg,
    reportEvent (enc := nullEncoder) 0 "host" 1 defaultReporter (Some ctxA) (Some eventB)
      = mkReported defaultReporter (Some ctxA) (Some eventB) (Some msg).
Proof.
  refine (proj1 (reportEvent_validation (enc := nullEncoder) 0 "host" 1
                   defaultReporter ctxA eventB _) _).
  - left. vm_compute. discriminate.
  - reflexivity.
Defined.

(** * Further properties of the code *)

(** ** Event pipeline: what every run keeps *)

Lemma totalBytes_nonneg (b : list bytes) : 0 <= totalBytes b.
Proof.
  induction b as [|x b IH]; simpl; [lia|]. pose proof (len_nonneg x). lia.
Qed.

Lemma totalBytes_app (a b : list bytes) : totalBytes (a ++ b) = totalBytes a + totalBytes b.
Proof. induction a as [|x a IH]; simpl; lia. Qed.

(** The eviction loop, when its counter does not overflow: it fails exactly
    when the batch holds fewer bytes than are asked for, and otherwise
    returns a suffix of the batch from which at least the bytes asked for
    are gone. *)
Lemma dropOldest_cases (need : Z) (batch : list bytes) :
  forall dropped,
    0 <= dropped -> dropped + totalBytes batch <= GoInt.max_int ->
    match dropOldest need dropped batch with
    | None => dropped + totalBytes batch < need
    | Some b =>
        need <= dropped + totalBytes batch /\
        exists evicted, batch = evicted ++ b /\
                        need <= dropped + totalBytes evicted
    end.
Proof.
  induction batch as [|oldest rest IH]; intros dropped Hd Hsum; simpl in *.
  - destruct (dropped <? need) eqn:E.
    + apply Z.ltb_lt in E. lia.
    + apply Z.ltb_ge in E. split; [lia|]. exists []. simpl. split; [reflexivity|lia].
  - pose proof (len_nonneg oldest) as Hlen. pose proof (totalBytes_nonneg rest) as Hrest.
    destruct (dropped <? need) eqn:E.
    + apply Z.ltb_lt in E.
      rewrite add_no_overflow
        by (unfold GoInt.in_range, GoInt.min_int, GoInt.max_int in *; lia).
      specialize (IH (dropped + GoInt.len oldest) ltac:(lia) ltac:(lia)).
      destruct (dropOldest need (dropped + GoInt.len oldest) rest) as [b|]; [|lia].
      destruct IH as (Hge & evicted & -> & Hev). split; [lia|].
      exists (oldest :: evicted). simpl. split; [reflexivity|lia].
    + apply Z.ltb_ge in E. split; [lia|].
      exists []. simpl. split; [reflexivity|lia].
Qed.

Lemma flushBatch_sound (maxBytes k : Z) (p p' : pipeline) :
  pipeline_sound maxBytes k p -> flushBatch p = Some p' -> pipeline_sound maxBytes k p'.
Proof.
  unfold flushBatch. intros (Hb & Htot & Hcap & Hsent).
  destruct (negb (pipeline.logIsRunning p) && (0 <? GoInt.len (pipeline.batch p))) eqn:Hgo.
  - apply andb_true_iff in Hgo as (_ & Hne).
    destruct (pipeline.batchesClosed p); [discriminate|]. some_inv.
    assert (Hnonempty : pipeline.batch p <> []).
    { intros Hnil. rewrite Hnil in Hne. discriminate. }
    unfold pipeline_sound; simpl. split; [lia|]. split; [lia|]. split; [now left|].
    intros b Hin. apply in_app_or in Hin as [Hin|[<-|[]]]; [now apply Hsent|].
    split; [exact Hnonempty|]. destruct Hcap; [contradiction|assumption].
  - some_inv. unfold pipeline_sound. auto.
Qed.

Lemma reportEvents_step_sound (maxBytes k : Z) (p p' : pipeline) (ev : pipelineEvent) :
  pipeline_sound maxBytes k p ->
  k + submitted [ev] <= GoInt.max_int ->
  reportEvents_step maxBytes p ev = Some p' ->
  pipeline_sound maxBytes (k + submitted [ev]) p'.
Proof.
  intros Hinv Hk. destruct ev as [evbuf| | |]; simpl in *.
  - pose proof (len_nonneg evbuf) as Hlen.
    destruct Hinv as (Hb & Htot & Hcap & Hsent).
    pose proof (totalBytes_nonneg (pipeline.batch p)) as Hnn.
    rewrite add_no_overflow
      by (unfold GoInt.in_range, GoInt.min_int, GoInt.max_int in *; lia).
    assert (Happ : forall b,
               totalBytes b + GoInt.len evbuf <= maxBytes ->
               totalBytes b <= pipeline.eventBytes p ->
               pipeline_sound maxBytes (k + (GoInt.len evbuf + 0)) (appendEvent evbuf b p)).
    { intros b Hfit Hle. unfold pipeline_sound, appendEvent; simpl.
      rewrite add_no_overflow
        by (unfold GoInt.in_range, GoInt.min_int, GoInt.max_int in *; lia).
      rewrite totalBytes_app. simpl. split; [lia|]. split; [lia|]. split; [right; lia|].
      exact Hsent. }
    destruct (maxBytes <? pipeline.eventBytes p + GoInt.len evbuf) eqn:Hfull.
    + destruct (maxBytes <=? GoInt.len evbuf) eqn:Hbig.
      * some_inv. split; [lia|]. split; [lia|]. split; assumption.
      * apply Z.leb_gt in Hbig.
        pose proof (dropOldest_cases (GoInt.len evbuf) (pipeline.batch p) 0
                      ltac:(lia) ltac:(lia)) as Hdrop.
        destruct (dropOldest _ _ _) as [b|]; [|discriminate].
        destruct Hdrop as (_ & evicted & Heq & Hev). some_inv.
        rewrite Heq, totalBytes_app in *.
        pose proof (totalBytes_nonneg b). pose proof (totalBytes_nonneg evicted).
        apply Happ; [|lia].
        destruct Hcap as [Hnil|Hcap]; [|lia].
        apply app_eq_nil in Hnil as (-> & ->). simpl in *. lia.
    + apply Z.ltb_ge in Hfull. some_inv. apply Happ; lia.
  - intros H. rewrite Z.add_0_r. eapply flushBatch_sound; [|exact H].
    destruct Hinv as (Hb & Htot & Hcap & Hsent). unfold pipeline_sound. simpl. auto.
  - intros H. rewrite Z.add_0_r. eapply flushBatch_sound; eauto.
  - destruct (pipeline.batchesClosed p); [discriminate|]. some_inv.
    rewrite Z.add_0_r. destruct Hinv as (Hb & Htot & Hcap & Hsent).
    unfold pipeline_sound. simpl. auto.
Qed.

Lemma submitted_cons (ev : pipelineEvent) (evs : list pipelineEvent) :
  submitted (ev :: evs) = submitted [ev] + submitted evs.
Proof. destruct ev; simpl; lia. Qed.

Lemma reportEvents_sound (maxBytes : Z) (evs : list pipelineEvent) :
  forall k p p',
    pipeline_sound maxBytes k p ->
    k + submitted evs <= GoInt.max_int ->
    reportEvents maxBytes p evs = Some p' ->
    pipeline_sound maxBytes (k + submitted evs) p'.
Proof.
  induction evs as [|ev evs IH]; intros k p p' Hinv Hk.
  - simpl. some_inv. now rewrite Z.add_0_r.
  - rewrite submitted_cons in *. cbn [reportEvents].
    destruct (reportEvents_step maxBytes p ev) as [p1|] eqn:Hstep; [|discriminate].
    intros Hrun. pose proof (submitted_nonneg evs) as Hnn.
    rewrite Z.add_assoc.
    eapply IH; [eapply reportEvents_step_sound; eauto; lia | lia | exact Hrun].
Qed.

Lemma newPipeline_sound (maxBytes : Z) : pipeline_sound maxBytes 0 newPipeline.
Proof.
  unfold pipeline_sound; simpl. split; [lia|]. split; [lia|]. split; [now left|].
  intros b [].
Qed.

(** X1.  In every state the pipeline reaches, the buffers of the current
    batch, and those of every batch handed to the poster, add up to at most
    the ceiling; the running total never undercounts the batch. *)
Theorem reportEvents_batch_within_ceiling (maxBytes : Z) (evs : list pipelineEvent)
        (p : pipeline) :
  0 <= maxBytes ->
  submitted evs <= GoInt.max_int ->
  reportEvents maxBytes newPipeline evs = Some p ->
  totalBytes (pipeline.batch p) <= maxBytes /\
  totalBytes (pipeline.batch p) <= pipeline.eventBytes p /\
  (forall b, In b (pipeline.batches p) -> totalBytes b <= maxBytes).
Proof.
  intros Hmax Hsub Hrun.
  destruct (reportEvents_sound maxBytes evs 0 newPipeline p
              (newPipeline_sound maxBytes) Hsub Hrun) as (_ & Htot & Hcap & Hsent).
  split; [|split; [exact Htot|intros b Hin; now apply Hsent]].
  destruct Hcap as [-> | H]; [simpl; lia | exact H].
Qed.

Lemma reportEvents_batch_within_ceiling_witness :
  let p := {| pipeline.batch := [zeros 10; zeros 7]; pipeline.eventBytes := 32;
              pipeline.logIsRunning := false;
              pipeline.batches := []; pipeline.batchesClosed := false |} in
  totalBytes (pipeline.batch p) <= 25 /\
  totalBytes (pipeline.batch p) <= pipeline.eventBytes p /\
  (forall b, In b (pipeline.batches p) -> totalBytes b <= 25).
Proof.
  intros p.
  refine (reportEvents_batch_within_ceiling 25
            [RecvEvent (zeros 5); RecvEvent (zeros 10); RecvEvent (zeros 10);
             RecvEvent (zeros 7)] p _ _ _); by_eval.
Defined.

(** X2.  A submission makes the pipeline panic exactly when it has to
    evict (the running total plus the buffer passes the ceiling, the buffer
    itself being shorter than the ceiling) and the batch holds fewer bytes
    than the buffer is long: the eviction loop then runs off the end of the
    batch. *)
Theorem reportEvents_panics_iff (maxBytes : Z) (evs : list pipelineEvent)
        (p : pipeline) (evbuf : bytes) :
  submitted evs + GoInt.len evbuf <= GoInt.max_int ->
  reportEvents maxBytes newPipeline evs = Some p ->
  (reportEvents_step maxBytes p (RecvEvent evbuf) = None <->
   maxBytes < pipeline.eventBytes p + GoInt.len evbuf /\
   GoInt.len evbuf < maxBytes /\
   totalBytes (pipeline.batch p) < GoInt.len evbuf).
Proof.
  intros Hsub Hrun. pose proof (len_nonneg evbuf) as Hlen.
  destruct (reportEvents_sound maxBytes evs 0 newPipeline p
              (newPipeline_sound maxBytes) ltac:(lia) Hrun) as (Hb & Htot & _ & _).
  simpl in Hb. pose proof (totalBytes_nonneg (pipeline.batch p)) as Hnn.
  cbn [reportEvents_step].
  rewrite add_no_overflow
    by (unfold GoInt.in_range, GoInt.min_int, GoInt.max_int in *; lia).
  pose proof (dropOldest_cases (GoInt.len evbuf) (pipeline.batch p) 0
                ltac:(lia) ltac:(lia)) as Hdrop.
  destruct (maxBytes <? pipeline.eventBytes p + GoInt.len evbuf) eqn:Hfull;
    [apply Z.ltb_lt in Hfull | apply Z.ltb_ge in Hfull; split; [discriminate|lia]].
  destruct (maxBytes <=? GoInt.len evbuf) eqn:Hbig;
    [apply Z.leb_le in Hbig; split; [discriminate|lia] | apply Z.leb_gt in Hbig].
  destruct (dropOldest _ _ _) as [b|].
  - split; [discriminate|]. lia.
  - split; [lia|reflexivity].
Qed.

Lemma reportEvents_panics_iff_witness :
  reportEvents_step 25
    {| pipeline.batch := [zeros 10]; pipeline.eventBytes := 10;
       pipeline.logIsRunning := false;
       pipeline.batches := []; pipeline.batchesClosed := false |}
    (RecvEvent (zeros 20)) = None.
Proof.
  refine (proj2 (reportEvents_panics_iff 25 [RecvEvent (zeros 10)] _ (zeros 20) _ _) _);
    by_eval.
Defined.

Lemma flushBatch_in_flight (n : nat) (p p' : pipeline) :
  (List.length (pipeline.batches p)
     <= n + if pipeline.logIsRunning p then 1 else 0)%nat ->
  flushBatch p = Some p' ->
  (List.length (pipeline.batches p')
     <= n + if pipeline.logIsRunning p' then 1 else 0)%nat.
Proof.
  unfold flushBatch. intros Hn.
  destruct (pipeline.logIsRunning p) eqn:Hrun; cbn [negb andb].
  - some_inv. now rewrite Hrun.
  - destruct (0 <? GoInt.len (pipeline.batch p)); [|some_inv; now rewrite Hrun].
    destruct (pipeline.batchesClosed p); [discriminate|]. some_inv. simpl.
    rewrite length_app. simpl. lia.
Qed.

Lemma reportEvents_in_flight (maxBytes : Z) (evs : list pipelineEvent) :
  forall n p p',
    (List.length (pipeline.batches p)
       <= n + if pipeline.logIsRunning p then 1 else 0)%nat ->
    reportEvents maxBytes p evs = Some p' ->
    (List.length (pipeline.batches p')
       <= n + countResults evs + if pipeline.logIsRunning p' then 1 else 0)%nat.
Proof.
  induction evs as [|ev evs IH]; intros n p p' Hn; cbn [reportEvents countResults].
  - some_inv. lia.
  - destruct (reportEvents_step maxBytes p ev) as [p1|] eqn:Hstep; [|discriminate].
    intros Hrun.
    assert (H1 : (List.length (pipeline.batches p1)
                   <= n + countResults [ev]
                      + if pipeline.logIsRunning p1 then 1 else 0)%nat).
    { destruct ev as [evbuf| | |]; cbn [reportEvents_step countResults] in *.
      - assert (Hsame : pipeline.batches p1 = pipeline.batches p /\
                        pipeline.logIsRunning p1 = pipeline.logIsRunning p).
        { destruct (maxBytes <? _); [destruct (maxBytes <=? _)|].
          - injection Hstep as <-. auto.
          - destruct (dropOldest _ _ _); [|discriminate]. injection Hstep as <-. auto.
          - injection Hstep as <-. auto. }
        destruct Hsame as (-> & ->). lia.
      - apply (flushBatch_in_flight (n + 1)) in Hstep; [exact Hstep|].
        simpl. destruct (pipeline.logIsRunning p); lia.
      - apply (flushBatch_in_flight n) in Hstep; [lia|exact Hn].
      - destruct (pipeline.batchesClosed p); [discriminate|].
        injection Hstep as <-. simpl. lia. }
    specialize (IH (n + countResults [ev])%nat p1 p' H1 Hrun).
    destruct ev; cbn [countResults] in *; lia.
Qed.

(** X3.  At most one batch is in flight: the number of batches handed to
    the poster never exceeds the number of results received from it by more
    than one (by none while no post is marked running), and no batch handed
    over is empty. *)
Theorem reportEvents_one_in_flight (maxBytes : Z) (evs : list pipelineEvent) (p : pipeline) :
  reportEvents maxBytes newPipeline evs = Some p ->
  (List.length (pipeline.batches p)
     <= countResults evs + if pipeline.logIsRunning p then 1 else 0)%nat /\
  (forall b, In b (pipeline.batches p) -> b <> []).
Proof.
  intros Hrun. split.
  - apply (reportEvents_in_flight maxBytes evs 0 newPipeline p); [simpl; lia|exact Hrun].
  - clear -Hrun.
    assert (Hgen : forall evs p p',
               (forall b, In b (pipeline.batches p) -> b <> []) ->
               reportEvents maxBytes p evs = Some p' ->
               forall b, In b (pipeline.batches p') -> b <> []).
    { clear. induction evs as [|ev evs IH]; intros p p' Hp; cbn [reportEvents].
      - some_inv. exact Hp.
      - destruct (reportEvents_step maxBytes p ev) as [p1|] eqn:Hstep; [|discriminate].
        apply IH. clear IH.
        assert (Hflush : forall q q',
                   (forall b, In b (pipeline.batches q) -> b <> []) ->
                   flushBatch q = Some q' ->
                   forall b, In b (pipeline.batches q') -> b <> []).
        { unfold flushBatch. intros q q' Hq.
          destruct (negb (pipeline.logIsRunning q) && (0 <? GoInt.len (pipeline.batch q)))
            eqn:Hgo; [|some_inv; exact Hq].
          apply andb_true_iff in Hgo as (_ & Hne).
          destruct (pipeline.batchesClosed q); [discriminate|]. some_inv. simpl.
          intros b Hin. apply in_app_or in Hin as [Hin|[<-|[]]]; [now apply Hq|].
          intros Hnil. rewrite Hnil in Hne. discriminate. }
        destruct ev as [evbuf| | |]; cbn [reportEvents_step] in Hstep.
        + destruct (maxBytes <? _); [destruct (maxBytes <=? _)|].
          * injection Hstep as <-. exact Hp.
          * destruct (dropOldest _ _ _); [|discriminate]. injection Hstep as <-. exact Hp.
          * injection Hstep as <-. exact Hp.
        + eapply Hflush; [|exact Hstep]. exact Hp.
        + eapply Hflush; [|exact Hstep]. exact Hp.
        + destruct (pipeline.batchesClosed p); [discriminate|].
          injection Hstep as <-. exact Hp. }
    apply (Hgen evs newPipeline p); [intros b []|exact Hrun].
Qed.

Lemma reportEvents_one_in_flight_witness :
  let p := {| pipeline.batch := [zeros 2; zeros 3]; pipeline.eventBytes := 5;
              pipeline.logIsRunning := true;
              pipeline.batches := [[zeros 1]]; pipeline.batchesClosed := false |} in
  (List.length (pipeline.batches p) <= 0 + 1)%nat /\
  (forall b, In b (pipeline.batches p) -> b <> []).
Proof.
  intros p.
  refine (reportEvents_one_in_flight 25
            [RecvEvent (zeros 1); FlushTimeout; RecvEvent (zeros 2); FlushTimeout;
             RecvEvent (zeros 3)] p _).
  by_eval.
Defined.

Lemma subseq_nil_l {A : Type} (h : list A) : subseq [] h.
Proof. induction h; constructor; assumption. Qed.

Lemma subseq_refl {A : Type} (l : list A) : subseq l l.
Proof. induction l; constructor; assumption. Qed.

Lemma subseq_trans {A : Type} (a b c : list A) : subseq a b -> subseq b c -> subseq a c.
Proof.
  intros Hab Hbc. revert a Hab.
  induction Hbc as [|x l h Hlh IH|x l h Hlh IH]; intros a Hab.
  - exact Hab.
  - apply subseq_skip. now apply IH.
  - inversion Hab; subst.
    + apply subseq_skip. now apply IH.
    + apply subseq_keep. now apply IH.
Qed.

Lemma subseq_app {A : Type} (a b c d : list A) :
  subseq a b -> subseq c d -> subseq (a ++ c) (b ++ d).
Proof.
  intros Hab Hcd. induction Hab; simpl; [assumption|now constructor..].
Qed.

Lemma subseq_extend {A : Type} (l h t : list A) : subseq l h -> subseq l (h ++ t).
Proof.
  intros H. rewrite <- (app_nil_r l). apply subseq_app; [exact H|apply subseq_nil_l].
Qed.

Lemma dropOldest_suffix (need : Z) (batch : list bytes) :
  forall dropped b, dropOldest need dropped batch = Some b ->
                    exists evicted, batch = evicted ++ b.
Proof.
  induction batch as [|oldest rest IH]; intros dropped b; simpl.
  - destruct (dropped <? need); [discriminate|]. some_inv. now exists [].
  - destruct (dropped <? need).
    + intros H. apply IH in H as (evicted & ->). now exists (oldest :: evicted).
    + some_inv. now exists [].
Qed.

Lemma flushBatch_contents (p p' : pipeline) :
  flushBatch p = Some p' ->
  List.concat (pipeline.batches p') ++ pipeline.batch p'
  = List.concat (pipeline.batches p) ++ pipeline.batch p.
Proof.
  unfold flushBatch.
  destruct (negb (pipeline.logIsRunning p) && (0 <? GoInt.len (pipeline.batch p)));
    [|now some_inv].
  destruct (pipeline.batchesClosed p); [discriminate|]. some_inv. simpl.
  rewrite concat_app. simpl. now rewrite !app_nil_r.
Qed.

Lemma reportEvents_contents (maxBytes : Z) (evs : list pipelineEvent) :
  forall p p' h,
    subseq (List.concat (pipeline.batches p) ++ pipeline.batch p) h ->
    reportEvents maxBytes p evs = Some p' ->
    subseq (List.concat (pipeline.batches p') ++ pipeline.batch p') (h ++ submittedBufs evs).
Proof.
  induction evs as [|ev evs IH]; intros p p' h Hp; cbn [reportEvents submittedBufs].
  - some_inv. now rewrite app_nil_r.
  - destruct (reportEvents_step maxBytes p ev) as [p1|] eqn:Hstep; [|discriminate].
    intros Hrun.
    destruct ev as [evbuf| | |]; cbn [reportEvents_step] in Hstep.
    + replace (h ++ evbuf :: submittedBufs evs) with ((h ++ [evbuf]) ++ submittedBufs evs)
        by (rewrite <- app_assoc; reflexivity).
      apply (IH p1 p' _); [|exact Hrun].
      assert (Happ : forall b,
                 subseq (List.concat (pipeline.batches p) ++ b) h ->
                 subseq (List.concat (pipeline.batches (appendEvent evbuf b p))
                           ++ pipeline.batch (appendEvent evbuf b p)) (h ++ [evbuf])).
      { intros b Hb. simpl. rewrite app_assoc. apply subseq_app; [exact Hb|apply subseq_refl]. }
      destruct (maxBytes <? _); [destruct (maxBytes <=? _)|].
      * injection Hstep as <-. now apply subseq_extend.
      * destruct (dropOldest _ _ _) as [b|] eqn:Hdrop; [|discriminate].
        injection Hstep as <-. apply Happ.
        apply dropOldest_suffix in Hdrop as (evicted & Heq). rewrite Heq in Hp.
        eapply subseq_trans; [|exact Hp].
        apply subseq_app; [apply subseq_refl|].
        rewrite <- (app_nil_l b) at 1. apply subseq_app; [apply subseq_nil_l|apply subseq_refl].
      * injection Hstep as <-. now apply Happ.
    + apply (IH p1 p' h); [|exact Hrun].
      rewrite (flushBatch_contents _ _ Hstep). exact Hp.
    + apply (IH p1 p' h); [|exact Hrun].
      rewrite (flushBatch_contents _ _ Hstep). exact Hp.
    + apply (IH p1 p' h); [|exact Hrun].
      destruct (pipeline.batchesClosed p); [discriminate|].
      injection Hstep as <-. exact Hp.
Qed.

(** X4.  The pipeline neither invents, duplicates nor reorders events: the
    batches handed to the poster, followed by the current batch, are the
    submitted buffers with some left out, the others in submission
    order. *)
Theorem reportEvents_keeps_order (maxBytes : Z) (evs : list pipelineEvent) (p : pipeline) :
  reportEvents maxBytes newPipeline evs = Some p ->
  subseq (List.concat (pipeline.batches p) ++ pipeline.batch p) (submittedBufs evs).
Proof.
  intros Hrun.
  apply (reportEvents_contents maxBytes evs newPipeline p []); [constructor|exact Hrun].
Qed.

Lemma reportEvents_keeps_order_witness :
  subseq ([zeros 5] ++ [zeros 10; zeros 7])
         [zeros 5; zeros 10; zeros 10; zeros 10; zeros 7].
Proof.
  refine (reportEvents_keeps_order 25
            [RecvEvent (zeros 5); FlushTimeout; RecvEvent (zeros 10); RecvEvent (zeros 10);
             RecvEvent (zeros 10); RecvEvent (zeros 7)]
            {| pipeline.batch := [zeros 10; zeros 7]; pipeline.eventBytes := 37;
               pipeline.logIsRunning := true;
               pipeline.batches := [[zeros 5]]; pipeline.batchesClosed := false |} _).
  by_eval.
Defined.

Lemma reportEvents_app (maxBytes : Z) (evs1 evs2 : list pipelineEvent) :
  forall p,
    reportEvents maxBytes p (evs1 ++ evs2) =
    match reportEvents maxBytes p evs1 with
    | Some p1 => reportEvents maxBytes p1 evs2
    | None => None
    end.
Proof.
  induction evs1 as [|ev evs1 IH]; intros p; cbn [app reportEvents]; [reflexivity|].
  destruct (reportEvents_step maxBytes p ev); [apply IH|reflexivity].
Qed.

Lemma reportEvents_closed (maxBytes : Z) (evs : list pipelineEvent) :
  forall p p',
    pipeline.batchesClosed p = true ->
    reportEvents maxBytes p evs = Some p' ->
    pipeline.batches p' = pipeline.batches p /\ pipeline.batchesClosed p' = true /\
    ~ In RecvExit evs.
Proof.
  induction evs as [|ev evs IH]; intros p p' Hc; cbn [reportEvents].
  - some_inv. auto.
  - destruct (reportEvents_step maxBytes p ev) as [p1|] eqn:Hstep; [|discriminate].
    intros Hrun.
    assert (Hflush : forall q q',
               pipeline.batchesClosed q = true -> flushBatch q = Some q' ->
               pipeline.batches q' = pipeline.batches q /\ pipeline.batchesClosed q' = true).
    { unfold flushBatch. intros q q' Hq.
      destruct (negb (pipeline.logIsRunning q) && (0 <? GoInt.len (pipeline.batch q)));
        [rewrite Hq; discriminate|some_inv; auto]. }
    assert (H1 : pipeline.batches p1 = pipeline.batches p /\
                 pipeline.batchesClosed p1 = true /\ ev <> RecvExit).
    { destruct ev as [evbuf| | |]; cbn [reportEvents_step] in Hstep.
      - split; [|split; [|discriminate]].
        + destruct (maxBytes <? _); [destruct (maxBytes <=? _)|];
            [|destruct (dropOldest _ _ _); [|discriminate]|];
            injection Hstep as <-; reflexivity.
        + destruct (maxBytes <? _); [destruct (maxBytes <=? _)|];
            [|destruct (dropOldest _ _ _); [|discriminate]|];
            injection Hstep as <-; exact Hc.
      - apply Hflush in Hstep as (? & ?); [repeat split; auto; discriminate|exact Hc].
      - apply Hflush in Hstep as (? & ?); [repeat split; auto; discriminate|exact Hc].
      - rewrite Hc in Hstep. discriminate. }
    destruct H1 as (Hb1 & Hc1 & Hne).
    destruct (IH p1 p' Hc1 Hrun) as (Hb & Hc' & Hnot).
    split; [congruence|]. split; [exact Hc'|].
    intros [Heq|Hin]; [now apply Hne|now apply Hnot].
Qed.

(** X5.  Nothing is handed to the poster after the exit signal: in a run
    that goes on after it without panicking, the batches sent are those
    sent before the signal and the signal is not received a second time;
    and if events are left in the batch, the next result received from the
    poster makes the pipeline panic (send on the closed channel). *)
Theorem reportEvents_after_exit (maxBytes : Z) (before after : list pipelineEvent)
        (p' : pipeline) :
  reportEvents maxBytes newPipeline (before ++ RecvExit :: after) = Some p' ->
  exists p,
    reportEvents maxBytes newPipeline before = Some p /\
    pipeline.batches p' = pipeline.batches p /\
    ~ In RecvExit after /\
    (pipeline.batch p' <> [] -> reportEvents_step maxBytes p' RecvResult = None).
Proof.
  rewrite reportEvents_app.
  destruct (reportEvents maxBytes newPipeline before) as [p|]; [|discriminate].
  cbn [reportEvents reportEvents_step].
  destruct (pipeline.batchesClosed p); [discriminate|].
  intros Hrun. exists p. split; [reflexivity|].
  apply reportEvents_closed in Hrun as (Hb & Hc & Hnot); [|reflexivity].
  split; [exact Hb|]. split; [exact Hnot|].
  intros Hne. cbn [reportEvents_step]. unfold flushBatch. simpl.
  destruct (pipeline.batch p') as [|x l]; [contradiction|].
  rewrite len_cons_pos, Hc. reflexivity.
Qed.

Lemma reportEvents_after_exit_witness :
  exists p,
    reportEvents 25 newPipeline [RecvEvent (zeros 5); FlushTimeout] = Some p /\
    [[zeros 5]] = pipeline.batches p /\
    ~ In RecvExit [RecvEvent (zeros 3); FlushTimeout] /\
    ([zeros 3] <> [] ->
     reportEvents_step 25
       {| pipeline.batch := [zeros 3]; pipeline.eventBytes := 3;
          pipeline.logIsRunning := true;
          pipeline.batches := [[zeros 5]]; pipeline.batchesClosed := true |}
       RecvResult = None).
Proof.
  refine (reportEvents_after_exit 25 [RecvEvent (zeros 5); FlushTimeout]
            [RecvEvent (zeros 3); FlushTimeout]
            {| pipeline.batch := [zeros 3]; pipeline.eventBytes := 3;
               pipeline.logIsRunning := true;
               pipeline.batches := [[zeros 5]]; pipeline.batchesClosed := true |} _).
  by_eval.
Defined.

(** ** Tick alignment *)

Lemma getNextTime_aligned (now : time.Time) (interval : time.Duration) :
  0 < interval ->
  getNextTime now interval mod interval = 0 /\
  now <= getNextTime now interval < now + interval.
Proof.
  intros Hpos. unfold getNextTime, time.Round, time.Before, time.Add.
  replace (interval <=? 0) with false by (symmetry; apply Z.leb_gt; exact Hpos).
  pose proof (Z.mod_pos_bound now interval Hpos) as Hr.
  pose proof (Z.div_mod now interval ltac:(lia)) as Hdm.
  set (r := now mod interval) in *. set (q := now / interval) in *.
  assert (Hmul : forall k, (interval * k) mod interval = 0)
    by (intros k; rewrite Z.mul_comm; apply Z.mod_mul; lia).
  destruct (r + r <? interval) eqn:Hhalf.
  - destruct (now - r <? now) eqn:Hlt.
    + apply Z.ltb_lt in Hlt.
      replace (now - r + interval) with (interval * (q + 1)) by lia.
      split; [apply Hmul|lia].
    + apply Z.ltb_ge in Hlt.
      replace (now - r) with (interval * q) by lia.
      split; [apply Hmul|lia].
  - replace (now + (interval - r) <? now) with false by (symmetry; apply Z.ltb_ge; lia).
    replace (now + (interval - r)) with (interval * (q + 1)) by lia.
    split; [apply Hmul|lia].
Qed.

(** X6.  The loop wakes up on the interval grid.  For a positive interval
    [getNextTime now interval] is the first multiple of the interval that
    is not before [now] (a time on the grid is returned as it is); for an
    interval that is not positive it is [now].  [blockTillNextTick] returns
    that time while the connection is OK, and [now], without waiting,
    otherwise. *)
Theorem getNextTime_grid (now : time.Time) (interval : time.Duration) (r : grpcReporter) :
  (0 < interval ->
     getNextTime now interval mod interval = 0 /\
     now <= getNextTime now interval < now + interval /\
     (now mod interval = 0 -> getNextTime now interval = now)) /\
  (interval <= 0 -> getNextTime now interval = now) /\
  (gRPC.status (grpcReporter.metricsConn r) = OK ->
     blockTillNextTick now interval r = getNextTime now interval) /\
  (gRPC.status (grpcReporter.metricsConn r) <> OK ->
     blockTillNextTick now interval r = now).
Proof.
  repeat apply conj.
  - intros Hpos. destruct (getNextTime_aligned now interval Hpos) as (Hmod & Hrange).
    split; [exact Hmod|]. split; [exact Hrange|].
    intros Hnow.
    pose proof (Z.div_mod now interval ltac:(lia)) as H1.
    pose proof (Z.div_mod (getNextTime now interval) interval ltac:(lia)) as H2.
    rewrite Hnow in H1. rewrite Hmod in H2.
    set (a := now / interval) in *. set (b := getNextTime now interval / interval) in *.
    assert (a <= b) by nia. assert (b < a + 1) by nia.
    replace b with a in H2 by lia. lia.
  - intros Hle. unfold getNextTime, time.Round, time.Before.
    replace (interval <=? 0) with true by (symmetry; apply Z.leb_le; exact Hle).
    now rewrite Z.ltb_irrefl.
  - unfold blockTillNextTick. now intros ->.
  - unfold blockTillNextTick.
    destruct (gRPC.status (grpcReporter.metricsConn r)); [contradiction|reflexivity..].
Qed.

Lemma getNextTime_grid_witness :
  getNextTime (1021 * time.Second + 1) (500 * time.Millisecond) mod (500 * time.Millisecond) = 0 /\
  1021 * time.Second + 1
    <= getNextTime (1021 * time.Second + 1) (500 * time.Millisecond)
    < 1021 * time.Second + 1 + 500 * time.Millisecond /\
  ((1021 * time.Second + 1) mod (500 * time.Millisecond) = 0 ->
   getNextTime (1021 * time.Second + 1) (500 * time.Millisecond) = 1021 * time.Second + 1).
Proof.
  refine (proj1 (getNextTime_grid (1021 * time.Second + 1) (500 * time.Millisecond)
                   defaultReporter) _).
  by_eval.
Defined.

(** X7.  [InvalidateOutdatedSettings] never leaves the TTL deadline behind
    the current time: a deadline not yet passed is kept, a passed one moves
    to the next point of the interval grid. *)
Theorem InvalidateOutdatedSettings_ahead (timeout curr : time.Time)
        (interval : time.Duration) :
  0 < interval ->
  let timeout' := InvalidateOutdatedSettings timeout curr interval in
  curr <= timeout' /\
  (curr <= timeout -> timeout' = timeout) /\
  (timeout < curr -> timeout' = getNextTime curr interval /\ timeout' < curr + interval).
Proof.
  intros Hpos. unfold InvalidateOutdatedSettings, time.Before. cbn zeta.
  destruct (getNextTime_aligned curr interval Hpos) as (_ & Hrange).
  destruct (timeout <? curr) eqn:E.
  - apply Z.ltb_lt in E. repeat split; lia.
  - apply Z.ltb_ge in E. repeat split; lia.
Qed.

Lemma InvalidateOutdatedSettings_ahead_witness :
  let timeout' := InvalidateOutdatedSettings (1010 * time.Second) (1021 * time.Second)
                    (10 * time.Second) in
  1021 * time.Second <= timeout'.
Proof.
  refine (proj1 (InvalidateOutdatedSettings_ahead (1010 * time.Second) (1021 * time.Second)
                   (10 * time.Second) _)).
  by_eval.
Defined.

(** ** Sender *)

(** X8.  Whatever its arguments, [setRetryDelay] returns the retry-active
    flag it leaves, keeps the queue and the next send time, and, when it
    schedules a retry, sets the retry time to [now] plus the backoff it
    found and leaves a backoff of at most one minute, also when the
    multiplication overflows. *)
Theorem setRetryDelay_shape (now : time.Time) (amp ceiling : Z) (s : Sender) :
  let s' := fst (setRetryDelay now amp ceiling s) in
  let scheduled := snd (setRetryDelay now amp ceiling s) in
  Sender.retryActive s' = scheduled /\
  Sender.messages s' = Sender.messages s /\
  Sender.nextTime s' = Sender.nextTime s /\
  (scheduled = true ->
     Sender.retryTime s' = time.Add now (Sender.nextRetryDelay s) /\
     Sender.nextRetryDelay s' <= time.Minute) /\
  (scheduled = false ->
     ceiling <= Sender.retries s /\
     Sender.retries s' = Sender.retries s /\
     Sender.retryTime s' = Sender.retryTime s /\
     Sender.nextRetryDelay s' = Sender.nextRetryDelay s).
Proof.
  destruct (Z_lt_le_dec (Sender.retries s) ceiling) as [Hlt|Hge].
  - rewrite setRetryDelay_schedule by exact Hlt. simpl.
    repeat split; try discriminate.
    destruct (time.Minute <? GoInt.mul (Sender.nextRetryDelay s) amp) eqn:E.
    + lia.
    + apply Z.ltb_ge in E. exact E.
  - rewrite setRetryDelay_giveup by exact Hge. simpl.
    repeat split; try discriminate; auto.
Qed.

Lemma setRetryDelay_shape_witness :
  Sender.retryTime (fst (setRetryDelay 7 2 20 (newSender (500 * time.Millisecond))))
    = time.Add 7 (500 * time.Millisecond) /\
  Sender.nextRetryDelay (fst (setRetryDelay 7 2 20 (newSender (500 * time.Millisecond))))
    <= time.Minute.
Proof.
  refine (proj1 (proj2 (proj2 (proj2
            (setRetryDelay_shape 7 2 20 (newSender (500 * time.Millisecond)))))) _).
  by_eval.
Defined.

(** ** The periodic senders *)

Lemma same_static_refl (r : grpcReporter) : same_static r r.
Proof. unfold same_static. repeat split. Qed.

Lemma same_static_trans (a b c : grpcReporter) :
  same_static a b -> same_static b c -> same_static a c.
Proof.
  unfold same_static.
  intros (A1 & A2 & A3 & A4 & A5 & A6 & A7 & A8 & A9)
         (B1 & B2 & B3 & B4 & B5 & B6 & B7 & B8 & B9).
  repeat split; congruence.
Qed.

Lemma processRedirect_static (host : string) (r : grpcReporter) :
  same_static r (processRedirect host r) /\
  Sender.messages (grpcReporter.metrics (processRedirect host r))
    = Sender.messages (grpcReporter.metrics r) /\
  grpcReporter.status (processRedirect host r) = grpcReporter.status r /\
  grpcReporter.settings (processRedirect host r) = grpcReporter.settings r.
Proof.
  unfold processRedirect, setServerAddr, same_static.
  destruct (maxConnRedirects (grpcReporter.s r) <=? gRPC.redirects (grpcReporter.metricsConn r));
    [|destruct (containsColon host)];
    destruct r as [c a cp ex k st g m stt se ch ag sm]; cbn; repeat split.
Qed.

Lemma sendMetrics_collect_static (flush : outcome bytes) (r : grpcReporter) :
  same_static r (sendMetrics_collect flush r) /\
  gRPC.status (grpcReporter.metricsConn (sendMetrics_collect flush r))
    = gRPC.status (grpcReporter.metricsConn r).
Proof.
  destruct (sendMetrics_collect_frame flush r) as (Hconn & Hs & _).
  unfold same_static. rewrite Hconn, Hs.
  unfold sendMetrics_collect.
  destruct (time.Before _ _); [|repeat split].
  destruct flush as [message|]; [|destruct r; repeat split].
  cbn zeta.
  match goal with |- context [if ?c then _ else _] => destruct c end;
    destruct r; repeat split.
Qed.

Lemma sendMetrics_post_static (reply : outcome MessageResult) (r r' : grpcReporter) :
  sendMetrics_post reply r = Some r' -> same_static r r'.
Proof.
  unfold sendMetrics_post.
  destruct (_ && _); [some_inv; apply same_static_refl|].
  destruct (_ || _); [some_inv; apply same_static_refl|].
  destruct (gRPC.client (grpcReporter.metricsConn r)) eqn:Hcl; [|discriminate].
  destruct reply as [mres|]; [|some_inv; destruct r; repeat split].
  destruct (GetResult mres).
  - some_inv. destruct r; repeat split.
  - destruct (setRetryDelay _ _ _ _) as [m [|]]; some_inv; destruct r; repeat split.
  - destruct (setRetryDelay _ _ _ _) as [m [|]]; some_inv; destruct r; repeat split.
  - some_inv. destruct r; repeat split.
  - some_inv. eapply same_static_trans; [|apply processRedirect_static].
    destruct r; repeat split.
Qed.

Lemma statusToSend_static (r : grpcReporter) : same_static r (fst (statusToSend r)).
Proof.
  unfold statusToSend, loadStatusMsgs.
  destruct (0 <? _); destruct r; repeat split.
Qed.

Lemma sendStatus_static (reply : outcome MessageResult) (r r' : grpcReporter) :
  sendStatus reply r = Some r' -> same_static r r'.
Proof.
  unfold sendStatus.
  destruct (negb _); [some_inv; apply same_static_refl|].
  destruct (_ && _); [some_inv; apply same_static_refl|].
  pose proof (statusToSend_static r) as Hts.
  destruct (statusToSend r) as [r1 go]. cbn [fst] in Hts.
  destruct go; cbn [negb]; [|some_inv; exact Hts].
  destruct (gRPC.client (grpcReporter.metricsConn r1)) eqn:Hcl; [|discriminate].
  intros H. eapply same_static_trans; [exact Hts|]. revert H.
  destruct reply as [mres|]; [|some_inv; destruct r1; repeat split].
  destruct (GetResult mres).
  - some_inv. destruct r1; repeat split.
  - destruct (setRetryDelay _ _ _ _) as [m [|]]; some_inv; destruct r1; repeat split.
  - destruct (setRetryDelay _ _ _ _) as [m [|]]; some_inv; destruct r1; repeat split.
  - some_inv. destruct r1; repeat split.
  - some_inv. eapply same_static_trans; [|apply processRedirect_static].
    destruct r1; repeat split.
Qed.

Lemma getSettings_static (reply : outcome SettingsResult) (r r' : grpcReporter)
      (latest latest' : list OboeSetting) (called : bool) :
  getSettings reply r latest = Some (r', latest', called) -> same_static r r'.
Proof.
  unfold getSettings.
  destruct (negb (Status_eqb _ _)); [some_inv; apply same_static_refl|].
  destruct (negb (settingsDue r)); [some_inv; apply same_static_refl|].
  destruct (gRPC.client (grpcReporter.metricsConn r)) eqn:Hcl; [|discriminate].
  destruct reply as [sres|]; [|some_inv; destruct r; repeat split].
  destruct (GetResult (sresult sres)).
  - some_inv. destruct r; repeat split.
  - destruct (setRetryDelay _ _ _ _) as [m b]. some_inv. destruct r; repeat split.
  - destruct (setRetryDelay _ _ _ _) as [m b]. some_inv. destruct r; repeat split.
  - some_inv. destruct r; repeat split.
  - some_inv. eapply same_static_trans; [|apply processRedirect_static].
    destruct r; repeat split.
Qed.

Lemma senders_static (flush : outcome bytes)
      (mreply sreply : outcome MessageResult) (greply : outcome SettingsResult)
      (r r1 r2 r3 : grpcReporter) (latest latest' : list OboeSetting) (called : bool) :
  sendMetrics flush mreply r = Some r1 ->
  sendStatus sreply r1 = Some r2 ->
  getSettings greply r2 latest = Some (r3, latest', called) ->
  same_static r r1 /\ same_static r r2 /\ same_static r r3.
Proof.
  intros H1 H2 H3. unfold sendMetrics in H1.
  apply sendMetrics_post_static in H1. apply sendStatus_static in H2.
  apply getSettings_static in H3.
  pose proof (proj1 (sendMetrics_collect_static flush r)) as H0.
  assert (Hr1 : same_static r r1) by (eapply same_static_trans; eauto).
  assert (Hr2 : same_static r r2) by (eapply same_static_trans; eauto).
  split; [exact Hr1|]. split; [exact Hr2|]. eapply same_static_trans; eauto.
Qed.

Lemma senders_idle (flush : outcome bytes)
      (mreply sreply : outcome MessageResult) (greply : outcome SettingsResult)
      (r : grpcReporter) (latest : list OboeSetting) :
  gRPC.status (grpcReporter.metricsConn r) <> OK ->
  sendMetrics flush mreply r = Some (sendMetrics_collect flush r) /\
  sendStatus sreply r = Some r /\
  getSettings greply r latest = Some (r, latest, false).
Proof.
  intros Hst.
  assert (Hneg : negb (Status_eqb (gRPC.status (grpcReporter.metricsConn r)) OK) = true).
  { destruct (gRPC.status (grpcReporter.metricsConn r)); [contradiction|reflexivity..]. }
  repeat split.
  - unfold sendMetrics, sendMetrics_post.
    rewrite (proj2 (sendMetrics_collect_static flush r)), Hneg. cbn [orb].
    destruct (_ && _); reflexivity.
  - unfold sendStatus. now rewrite Hneg.
  - unfold getSettings. now rewrite Hneg.
Qed.

(** X9.  The three periodic senders never touch the event side of the
    reporter: whatever the collector answers, the event client, the event
    channel, the exit channel, the settings, the certificate path, the API
    key, the aggregator handle, the metrics client and the tick time are
    the same after [sendMetrics], [sendStatus] and [getSettings]. *)
Theorem senders_leave_event_side (flush : outcome bytes)
        (mreply sreply : outcome MessageResult) (greply : outcome SettingsResult)
        (r r1 r2 r3 : grpcReporter) (latest latest' : list OboeSetting) (called : bool) :
  sendMetrics flush mreply r = Some r1 ->
  sendStatus sreply r1 = Some r2 ->
  getSettings greply r2 latest = Some (r3, latest', called) ->
  same_static r r1 /\ same_static r r2 /\ same_static r r3.
Proof.
  intros H1 H2 H3. eapply senders_static; eassumption.
Qed.

Lemma senders_leave_event_side_witness :
  let r := grpcReporter.upd_metrics (Sender.set_messages [zeros 3]) defaultReporter in
  exists r1 r2 r3,
    sendMetrics None (Some tryLater) r = Some r1 /\
    same_static r r1 /\ same_static r r2 /\ same_static r r3.
Proof.
  intros r.
  eexists _, _, _. split; [|refine (senders_leave_event_side None (Some tryLater)
                              (Some okResult) (Some okSettings) r _ _ _ [] _ _ _ _ _)].
  all: by_eval.
Defined.

(** X10.  While the connection is not OK no request goes out: [sendMetrics]
    only collects what the aggregator flushed, [sendStatus] returns the
    reporter as it is (the status channel is not drained) and [getSettings]
    makes no call; none of them reads the collector's answer or the client,
    so none can panic. *)
Theorem senders_idle_when_not_ok (flush : outcome bytes)
        (mreply sreply : outcome MessageResult) (greply : outcome SettingsResult)
        (r : grpcReporter) (latest : list OboeSetting) :
  gRPC.status (grpcReporter.metricsConn r) <> OK ->
  sendMetrics flush mreply r = Some (sendMetrics_collect flush r) /\
  sendStatus sreply r = Some r /\
  getSettings greply r latest = Some (r, latest, false).
Proof.
  intros Hst. now apply senders_idle.
Qed.

Lemma senders_idle_when_not_ok_witness :
  let r := grpcReporter.upd_metricsConn (gRPC.set_status DISCONNECTED) defaultReporter in
  sendMetrics None (Some okResult) r = Some (sendMetrics_collect None r) /\
  sendStatus (Some okResult) r = Some r /\
  getSettings (Some okSettings) r [] = Some (r, [], false).
Proof.
  intros r.
  refine (senders_idle_when_not_ok None (Some okResult) (Some okResult) (Some okSettings)
            r [] _).
  by_eval.
Defined.

(** X11.  A transport error ends the iteration's traffic: when the metrics
    post is made and fails, the only change to what was collected is the
    status, now DISCONNECTED, and the status post and the settings request
    of the same iteration are not made. *)
Theorem metrics_transport_error (flush : outcome bytes) (sreply : outcome MessageResult)
        (greply : outcome SettingsResult) (r : grpcReporter) (c : TraceCollectorClient)
        (latest : list OboeSetting) :
  let r1 := sendMetrics_collect flush r in
  gRPC.status (grpcReporter.metricsConn r1) = OK ->
  gRPC.client (grpcReporter.metricsConn r1) = Some c ->
  Sender.retryActive (grpcReporter.metrics r1)
    && time.After (Sender.retryTime (grpcReporter.metrics r1))
                  (gRPC.currTime (grpcReporter.metricsConn r1)) = false ->
  Sender.messages (grpcReporter.metrics r1) <> [] ->
  let r2 := grpcReporter.upd_metricsConn (gRPC.set_status DISCONNECTED) r1 in
  sendMetrics flush None r = Some r2 /\
  sendStatus sreply r2 = Some r2 /\
  getSettings greply r2 latest = Some (r2, latest, false).
Proof.
  intros r1 Hst Hcl Hwait Hq r2.
  assert (H2 : gRPC.status (grpcReporter.metricsConn r2) <> OK) by (cbn; discriminate).
  destruct (senders_idle None None sreply greply r2 latest H2) as (_ & Hs & Hg).
  split; [|split; assumption].
  unfold sendMetrics, sendMetrics_post. fold r1. rewrite Hwait, Hst, Hcl.
  destruct (Sender.messages (grpcReporter.metrics r1)) as [|m0 ms]; [contradiction|].
  rewrite len_cons_nonzero. reflexivity.
Qed.

Lemma metrics_transport_error_witness :
  let r := grpcReporter.upd_metrics (Sender.set_messages [zeros 3]) defaultReporter in
  let r2 := grpcReporter.upd_metricsConn (gRPC.set_status DISCONNECTED) r in
  sendMetrics None None r = Some r2 /\
  sendStatus (Some okResult) r2 = Some r2 /\
  getSettings (Some okSettings) r2 [] = Some (r2, [], false).
Proof.
  intros r r2.
  refine (metrics_transport_error None (Some okResult) (Some okSettings) r
            (NewTraceCollectorClient 2%nat) [] _ _ _ _); by_eval.
Defined.

Lemma len_tl_le {A : Type} (l : list A) : GoInt.len (tl l) <= GoInt.len l.
Proof. unfold GoInt.len. destruct l; simpl; lia. Qed.

Lemma sendMetrics_collect_queue (flush : outcome bytes) (r : grpcReporter) :
  let cap := maxMetricsMessagesOnePost (grpcReporter.s r) in
  let q := Sender.messages (grpcReporter.metrics r) in
  let q' := Sender.messages (grpcReporter.metrics (sendMetrics_collect flush r)) in
  q' = q \/
  exists message,
    flush = Some message /\
    time.Before (Sender.nextTime (grpcReporter.metrics r))
                (gRPC.currTime (grpcReporter.metricsConn r)) = true /\
    (GoInt.len q < cap /\ q' = q ++ [message] \/
     cap <= GoInt.len q /\ q' = tl (q ++ [message])).
Proof.
  cbn zeta. unfold sendMetrics_collect.
  destruct (time.Before _ _); [|now left].
  destruct flush as [message|]; [|left; destruct r; reflexivity].
  right. exists message. split; [reflexivity|]. split; [reflexivity|]. cbn zeta.
  match goal with |- context [if ?c then _ else _] => destruct c eqn:E end;
    destruct r as [c a cp ex k st g [q nt ra d rt n] stt se ch ag sm];
    cbn in *; rewrite len_app in E; change (GoInt.len [message]) with 1 in E.
  - apply Z.ltb_lt in E. right. split; [lia|reflexivity].
  - apply Z.ltb_ge in E. left. split; [lia|reflexivity].
Qed.

Lemma sendMetrics_post_queue (reply : outcome MessageResult) (r r' : grpcReporter) :
  sendMetrics_post reply r = Some r' ->
  let q := Sender.messages (grpcReporter.metrics r) in
  let q' := Sender.messages (grpcReporter.metrics r') in
  q' = q \/ q' = [] \/ q' = tl q.
Proof.
  unfold sendMetrics_post. cbn zeta.
  destruct (_ && _); [some_inv; now left|].
  destruct (_ || _); [some_inv; now left|].
  destruct (gRPC.client (grpcReporter.metricsConn r)); [|discriminate].
  destruct reply as [mres|]; [|some_inv; left; destruct r; reflexivity].
  destruct (GetResult mres).
  - some_inv. right; left. destruct r; reflexivity.
  - pose proof (setRetryDelay_messages (gRPC.currTime (grpcReporter.metricsConn r))
                  (retryAmplifier (grpcReporter.s r)) (maxMetricsRetries (grpcReporter.s r))
                  (grpcReporter.metrics r)) as Hk.
    destruct r as [c a cp ex k st g m stt se ch ag sm]. cbn in *.
    destruct (setRetryDelay _ _ _ m) as [m' [|]]; some_inv; cbn in *;
      [right; right; now rewrite Hk|now left].
  - pose proof (setRetryDelay_messages (gRPC.currTime (grpcReporter.metricsConn r))
                  (retryAmplifier (grpcReporter.s r)) (maxMetricsRetries (grpcReporter.s r))
                  (grpcReporter.metrics r)) as Hk.
    destruct r as [c a cp ex k st g m stt se ch ag sm]. cbn in *.
    destruct (setRetryDelay _ _ _ m) as [m' [|]]; some_inv; cbn in *;
      [right; right; now rewrite Hk|now left].
  - some_inv. right; left. destruct r; reflexivity.
  - some_inv. left. rewrite (proj1 (proj2 (processRedirect_static _ _))).
    destruct r; reflexivity.
Qed.

(** X12.  The metrics queue is bounded: if it holds at most
    [maxMetricsMessagesOnePost] messages before [sendMetrics], it holds at
    most that many after, whatever was flushed and whatever the collector
    answered; when the queue is full the oldest message makes room for the
    flushed one. *)
Theorem sendMetrics_queue_bounded (flush : outcome bytes) (reply : outcome MessageResult)
        (r r' : grpcReporter) :
  0 <= maxMetricsMessagesOnePost (grpcReporter.s r) ->
  GoInt.len (Sender.messages (grpcReporter.metrics r))
    <= maxMetricsMessagesOnePost (grpcReporter.s r) ->
  sendMetrics flush reply r = Some r' ->
  GoInt.len (Sender.messages (grpcReporter.metrics r'))
    <= maxMetricsMessagesOnePost (grpcReporter.s r).
Proof.
  intros Hcap Hq Hsend. unfold sendMetrics in Hsend.
  assert (H1 : GoInt.len (Sender.messages (grpcReporter.metrics (sendMetrics_collect flush r)))
               <= maxMetricsMessagesOnePost (grpcReporter.s r)).
  { destruct (sendMetrics_collect_queue flush r) as [-> | (m & _ & _ & [(Hlt & ->)|(Hge & ->)])].
    - exact Hq.
    - rewrite len_app. change (GoInt.len [m]) with 1. lia.
    - assert (Hfull : GoInt.len (Sender.messages (grpcReporter.metrics r))
                      = maxMetricsMessagesOnePost (grpcReporter.s r)) by lia.
      rewrite <- Hfull. unfold GoInt.len.
      destruct (Sender.messages (grpcReporter.metrics r)); simpl;
        [lia | rewrite length_app; simpl; lia]. }
  apply sendMetrics_post_queue in Hsend. cbn zeta in Hsend.
  destruct Hsend as [-> | [-> | ->]]; [exact H1|exact Hcap|].
  pose proof (len_tl_le (Sender.messages (grpcReporter.metrics (sendMetrics_collect flush r)))).
  lia.
Qed.

Lemma sendMetrics_queue_bounded_witness :
  let r := grpcReporter.upd_metricsConn (gRPC.set_currTime (1021 * time.Second))
             (grpcReporter.upd_metrics (Sender.set_messages (repeat (zeros 1) 100))
                defaultReporter) in
  exists r', sendMetrics (Some (zeros 2)) None r = Some r' /\
             GoInt.len (Sender.messages (grpcReporter.metrics r')) <= 100.
Proof.
  intros r.
  destruct (sendMetrics (Some (zeros 2)) None r) as [r'|] eqn:H;
    [|vm_compute in H; discriminate].
  exists r'. split; [reflexivity|].
  refine (sendMetrics_queue_bounded (Some (zeros 2)) None r r' _ _ H); by_eval.
Defined.

(** ** Shutdown *)

(** X13.  [closeMetricsConn] releases the connection once: on a connection
    whose client is set (and whose aggregator is still running) it clears
    the client and the three queues, marks the aggregator's exit channel
    closed and changes nothing else; on a connection already released it
    changes nothing, so a second call is harmless. *)
Theorem closeMetricsConn_once (r : grpcReporter) (c : TraceCollectorClient) :
  gRPC.client (grpcReporter.metricsConn r) = Some c ->
  exitChanClosed (grpcReporter.mAgg r) = false ->
  exists r',
    closeMetricsConn r = Some r' /\
    closeMetricsConn r' = Some r' /\
    gRPC.client (grpcReporter.metricsConn r') = None /\
    Sender.messages (grpcReporter.metrics r') = [] /\
    Sender.messages (grpcReporter.status r') = [] /\
    Sender.messages (grpcReporter.settings r') = [] /\
    exitChanClosed (grpcReporter.mAgg r') = true /\
    gRPC.status (grpcReporter.metricsConn r') = gRPC.status (grpcReporter.metricsConn r) /\
    grpcReporter.client r' = grpcReporter.client r /\
    grpcReporter.ch r' = grpcReporter.ch r /\
    grpcReporter.sMsgs r' = grpcReporter.sMsgs r /\
    IsMetricsConnOpen r' = false.
Proof.
  intros Hcl Hexit. unfold closeMetricsConn. rewrite Hcl, Hexit.
  eexists. split; [reflexivity|].
  destruct r as [ec a cp ex k st g m stt se ch ag sm]. cbn. repeat split.
Qed.

Lemma closeMetricsConn_once_witness :
  exists r',
    closeMetricsConn defaultReporter = Some r' /\
    closeMetricsConn r' = Some r' /\
    gRPC.client (grpcReporter.metricsConn r') = None.
Proof.
  destruct (closeMetricsConn_once defaultReporter (NewTraceCollectorClient 2%nat)
              eq_refl eq_refl) as (r' & H1 & H2 & H3 & _).
  exists r'. repeat split; assumption.
Defined.




(** ** The process-wide reporter *)

(** X15.  The package hands out only null reporters.  [initReporter] sets
    [reportingDisabled] exactly when the reporter it built is not the null
    reporter, and [globalReporter] answers with a null reporter when
    [reportingDisabled] is set: so whatever the environment, the host name
    and the dials, the first call of [globalReporter] and every later one
    return the null reporter (which is not open), the later ones leaving
    the package variables as they are; and the package's
    [PushMetricsRecord] answers true without asking the aggregator. *)
Theorem globalReporter_always_null (ERROR : Z) (env env' : initEnv) (h : string)
        (failed accepted : bool) :
  let g0 := initialGlobals ERROR h failed in
  let g1 := snd (globalReporter ERROR env g0) in
  fst (globalReporter ERROR env g0) = AsNull mkNullReporter /\
  globalReporter ERROR env' g1 = (AsNull mkNullReporter, g1) /\
  reportingDisabled g1 = negb (isNullReporter (_globalReporter g1)) /\
  IsOpen (fst (globalReporter ERROR env g0)) = false /\
  fst (PushMetricsRecord ERROR env accepted g0) = true /\
  fst (PushMetricsRecord ERROR env' accepted g1) = true.
Proof.
  cbn zeta.
  assert (Hfirst : forall g,
             initGlobalReporterOnce g = false ->
             let g1 := snd (globalReporter ERROR env g) in
             fst (globalReporter ERROR env g) = AsNull mkNullReporter /\
             initGlobalReporterOnce g1 = true /\
             reportingDisabled g1 = negb (isNullReporter (_globalReporter g1))).
  { intros g Honce. unfold globalReporter. rewrite Honce. cbn.
    unfold initReporter. cbn.
    destruct (if String.eqb _ "udp" then _ else _) as [[]|u|gr]; cbn; repeat split. }
  destruct (Hfirst (initialGlobals ERROR h failed)) as (H1 & Honce & Hdis);
    [destruct failed; reflexivity|].
  set (g1 := snd (globalReporter ERROR env (initialGlobals ERROR h failed))) in *.
  assert (H2 : globalReporter ERROR env' g1 = (AsNull mkNullReporter, g1)).
  { unfold globalReporter. rewrite Honce, Hdis.
    destruct (_globalReporter g1) as [[]|u|gr]; reflexivity. }
  repeat split; auto.
  - now rewrite H1.
  - unfold PushMetricsRecord.
    destruct (globalReporter ERROR env (initialGlobals ERROR h failed)) as [r g].
    cbn in H1. now subst r.
  - unfold PushMetricsRecord. now rewrite H2.
Qed.

(** On an environment where everything succeeds a gRPC reporter with an
    open event client is built and stored, and reporting is thereby
    disabled. *)
Lemma globalReporter_built_but_disabled :
  let g1 := snd (globalReporter 0 goodEnv (initialGlobals 0 "host" false)) in
  IsOpen (_globalReporter g1) = true /\
  reportingDisabled g1 = true /\
  fst (globalReporter 0 goodEnv g1) = AsNull mkNullReporter.
Proof. by_eval. Qed.

(** ** Settings arguments *)

Lemma byteOf_value (x : Z) : Z.of_N (Byte.to_N (aoreporter.byteOf x)) = x mod 256.
Proof.
  unfold aoreporter.byteOf.
  pose proof (Z.mod_pos_bound x 256 ltac:(lia)) as Hb.
  destruct (Byte.of_N (Z.to_N (x mod 256))) as [b|] eqn:E.
  - apply Byte.to_of_N in E. rewrite E. lia.
  - apply Byte.of_N_None_iff in E. lia.
Qed.

Lemma PutUint32_value (v : Z) :
  0 <= v < 4294967296 -> littleEndian (aoreporter.PutUint32 v) = v.
Proof.
  intros Hv. unfold aoreporter.PutUint32, littleEndian.
  rewrite !byteOf_value, !Z.shiftr_div_pow2 by lia.
  change (2 ^ 8) with 256. change (2 ^ 16) with 65536. change (2 ^ 24) with 16777216.
  Z.div_mod_to_equations. lia.
Qed.

Lemma PutUint64_value (v : Z) :
  0 <= v < 18446744073709551616 -> littleEndian (aoreporter.PutUint64 v) = v.
Proof.
  intros Hv. unfold aoreporter.PutUint64, littleEndian.
  rewrite !byteOf_value, !Z.shiftr_div_pow2 by lia.
  change (2 ^ 8) with 256. change (2 ^ 16) with 65536. change (2 ^ 24) with 16777216.
  change (2 ^ 32) with 4294967296. change (2 ^ 40) with 1099511627776.
  change (2 ^ 48) with 281474976710656. change (2 ^ 56) with 72057594037927936.
  Z.div_mod_to_equations. lia.
Qed.

Lemma setArg_same (k : string) (v : bytes) (args : aoreporter.argsMap) :
  aoreporter.setArg k v args k = Some v.
Proof. unfold aoreporter.setArg. now rewrite String.eqb_refl. Qed.

Lemma setArg_other (k k' : string) (v : bytes) (args : aoreporter.argsMap) :
  k' <> k -> aoreporter.setArg k v args k' = args k'.
Proof.
  intros Hne. unfold aoreporter.setArg.
  destruct (String.eqb k' k) eqn:E; [apply String.eqb_eq in E; contradiction|reflexivity].
Qed.

(** X16.  [argsToMap] writes an argument exactly when it is above -1, under
    its own key and in little-endian order: an interval or a transaction
    count above -1 is stored as four bytes spelling its value modulo 2^32
    (the value itself below 2^32), a capacity or a rate above -1 as the
    eight bytes of its bit pattern; an argument that is not above -1 leaves
    its key out; and no other key, [EventsFlushInterval] included, is ever
    set. *)
Theorem argsToMap_entries (float64 : Type) (aboveMinusOne : float64 -> bool)
        (Float64bits : float64 -> Z) (capacity ratePerSec : float64)
        (metricsFlushInterval maxTransactions : Z) :
  let args := aoreporter.argsToMap float64 aboveMinusOne Float64bits
                capacity ratePerSec metricsFlushInterval maxTransactions in
  (forall x, 0 <= Float64bits x < 18446744073709551616) ->
  args aoreporter.kvBucketCapacity =
    (if aboveMinusOne capacity
     then Some (aoreporter.PutUint64 (Float64bits capacity)) else None) /\
  args aoreporter.kvBucketRate =
    (if aboveMinusOne ratePerSec
     then Some (aoreporter.PutUint64 (Float64bits ratePerSec)) else None) /\
  littleEndian (aoreporter.PutUint64 (Float64bits capacity)) = Float64bits capacity /\
  littleEndian (aoreporter.PutUint64 (Float64bits ratePerSec)) = Float64bits ratePerSec /\
  (-1 < metricsFlushInterval ->
     exists b, args aoreporter.kvMetricsFlushInterval = Some b /\ List.length b = 4%nat /\
               littleEndian b = metricsFlushInterval mod 4294967296) /\
  (metricsFlushInterval <= -1 -> args aoreporter.kvMetricsFlushInterval = None) /\
  (-1 < maxTransactions ->
     exists b, args aoreporter.kvMaxTransactions = Some b /\ List.length b = 4%nat /\
               littleEndian b = maxTransactions mod 4294967296) /\
  (maxTransactions <= -1 -> args aoreporter.kvMaxTransactions = None) /\
  (forall k, k <> aoreporter.kvBucketCapacity -> k <> aoreporter.kvBucketRate ->
             k <> aoreporter.kvMetricsFlushInterval -> k <> aoreporter.kvMaxTransactions ->
             args k = None) /\
  args aoreporter.kvEventsFlushInterval = None.
Proof.
  intros args Hbits. subst args. unfold aoreporter.argsToMap.
  assert (Hu32 : forall v, 0 <= aoreporter.uint32 v < 4294967296)
    by (intros v; apply Z.mod_pos_bound; lia).
  assert (Hgen : forall k, k <> aoreporter.kvBucketCapacity -> k <> aoreporter.kvBucketRate ->
             k <> aoreporter.kvMetricsFlushInterval -> k <> aoreporter.kvMaxTransactions ->
             (let a := aoreporter.emptyArgs in
              let a := if aboveMinusOne capacity
                       then aoreporter.setArg aoreporter.kvBucketCapacity
                              (aoreporter.PutUint64 (Float64bits capacity)) a else a in
              let a := if aboveMinusOne ratePerSec
                       then aoreporter.setArg aoreporter.kvBucketRate
                              (aoreporter.PutUint64 (Float64bits ratePerSec)) a else a in
              let a := if -1 <? metricsFlushInterval
                       then aoreporter.setArg aoreporter.kvMetricsFlushInterval
                              (aoreporter.PutUint32 (aoreporter.uint32 metricsFlushInterval)) a
                       else a in
              let a := if -1 <? maxTransactions
                       then aoreporter.setArg aoreporter.kvMaxTransactions
                              (aoreporter.PutUint32 (aoreporter.uint32 maxTransactions)) a
                       else a in
              a) k = None).
  { intros k H1 H2 H3 H4. cbn zeta.
    destruct (aboveMinusOne capacity), (aboveMinusOne ratePerSec),
             (-1 <? metricsFlushInterval), (-1 <? maxTransactions);
      rewrite ?setArg_other by assumption; reflexivity. }
  cbn zeta in *.
  assert (Hd1 : aoreporter.kvBucketCapacity <> aoreporter.kvBucketRate) by discriminate.
  assert (Hd2 : aoreporter.kvBucketCapacity <> aoreporter.kvMetricsFlushInterval)
    by discriminate.
  assert (Hd3 : aoreporter.kvBucketCapacity <> aoreporter.kvMaxTransactions) by discriminate.
  assert (Hd4 : aoreporter.kvBucketRate <> aoreporter.kvMetricsFlushInterval) by discriminate.
  assert (Hd5 : aoreporter.kvBucketRate <> aoreporter.kvMaxTransactions) by discriminate.
  assert (Hd6 : aoreporter.kvMetricsFlushInterval <> aoreporter.kvMaxTransactions)
    by discriminate.
  repeat apply conj.
  - destruct (aboveMinusOne capacity), (aboveMinusOne ratePerSec),
             (-1 <? metricsFlushInterval), (-1 <? maxTransactions);
      rewrite ?setArg_other by assumption; rewrite ?setArg_same; reflexivity.
  - destruct (aboveMinusOne capacity), (aboveMinusOne ratePerSec),
             (-1 <? metricsFlushInterval), (-1 <? maxTransactions);
      rewrite ?setArg_other by (assumption || (intros E; symmetry in E; contradiction));
      rewrite ?setArg_same; reflexivity.
  - apply PutUint64_value, Hbits.
  - apply PutUint64_value, Hbits.
  - intros Hgt. replace (-1 <? metricsFlushInterval) with true
      by (symmetry; apply Z.ltb_lt; exact Hgt).
    exists (aoreporter.PutUint32 (aoreporter.uint32 metricsFlushInterval)).
    split; [|split; [reflexivity|apply PutUint32_value, Hu32]].
    destruct (-1 <? maxTransactions);
      rewrite ?setArg_other by assumption; apply setArg_same.
  - intros Hle. replace (-1 <? metricsFlushInterval) with false
      by (symmetry; apply Z.ltb_ge; lia).
    destruct (aboveMinusOne capacity), (aboveMinusOne ratePerSec), (-1 <? maxTransactions);
      rewrite ?setArg_other by (assumption || (intros E; symmetry in E; contradiction));
      reflexivity.
  - intros Hgt. replace (-1 <? maxTransactions) with true
      by (symmetry; apply Z.ltb_lt; exact Hgt).
    exists (aoreporter.PutUint32 (aoreporter.uint32 maxTransactions)).
    split; [apply setArg_same|split; [reflexivity|apply PutUint32_value, Hu32]].
  - intros Hle. replace (-1 <? maxTransactions) with false
      by (symmetry; apply Z.ltb_ge; lia).
    destruct (aboveMinusOne capacity), (aboveMinusOne ratePerSec),
             (-1 <? metricsFlushInterval);
      rewrite ?setArg_other by (assumption || (intros E; symmetry in E; contradiction));
      reflexivity.
  - exact Hgen.
  - apply Hgen; discriminate.
Qed.

Lemma argsToMap_entries_witness :
  let args := aoreporter.argsToMap Z (fun x => -1 <? x)
                (fun x => x mod 18446744073709551616) 7 (-1) 30 (-1) in
  exists b, args aoreporter.kvMetricsFlushInterval = Some b /\ List.length b = 4%nat /\
            littleEndian b = 30 mod 4294967296.
Proof.
  intros args.
  refine (proj1 (proj2 (proj2 (proj2 (proj2
            (argsToMap_entries Z (fun x => -1 <? x) (fun x => x mod 18446744073709551616)
               7 (-1) 30 (-1) _))))) _).
  - intros x. apply Z.mod_pos_bound. reflexivity.
  - reflexivity.
Defined.

(** ** Redirects *)

(** X17.  An accepted redirect is followed without delay: after
    [processRedirect] has installed the host, the health check of the same
    iteration dials that host (with the certificate path it had), whatever
    backoff the connection was in before; if the dial succeeds the
    connection is OK again, with the redirect counter one higher. *)
Theorem redirect_then_dial (host : string) (conn : ClientConn) (r : grpcReporter) :
  gRPC.redirects (grpcReporter.metricsConn r) < maxConnRedirects (grpcReporter.s r) ->
  containsColon host = false ->
  0 <= gRPC.currTime (grpcReporter.metricsConn r) ->
  0 <= maxConnRetries (grpcReporter.s r) ->
  let r1 := processRedirect host r in
  (exists r2, healthCheck None r1 = Some (r2, [mkDialCall (grpcReporter.certPath r) host]) /\
              gRPC.status (grpcReporter.metricsConn r2) = DISCONNECTED) /\
  (exists r2, healthCheck (Some conn) r1
                = Some (r2, [mkDialCall (grpcReporter.certPath r) host]) /\
              gRPC.status (grpcReporter.metricsConn r2) = OK /\
              gRPC.client (grpcReporter.metricsConn r2) = Some (NewTraceCollectorClient conn) /\
              gRPC.redirects (grpcReporter.metricsConn r2)
                = GoInt.add (gRPC.redirects (grpcReporter.metricsConn r)) 1 /\
              gRPC.retries (grpcReporter.metricsConn r2) = 0 /\
              grpcReporter.serverAddr r2 = host).
Proof.
  intros Hlt Hhost Hnow Hmax r1. subst r1.
  rewrite processRedirect_accept by assumption.
  assert (Hafter : time.After time.zero (gRPC.currTime (grpcReporter.metricsConn r)) = false).
  { unfold time.After, time.zero. apply Z.ltb_ge. lia. }
  destruct r as [ec a cp ex k st [gc gs gr gn gd gk gt] m stt se ch ag sm].
  cbn [grpcReporter.metricsConn grpcReporter.s grpcReporter.certPath gRPC.currTime
       gRPC.redirects gRPC.client gRPC.nextKeepAliveTime] in *.
  unfold healthCheck.
  cbn [grpcReporter.metricsConn grpcReporter.set_metricsConn grpcReporter.set_metrics
       grpcReporter.set_serverAddr grpcReporter.serverAddr grpcReporter.certPath
       grpcReporter.s gRPC.status].
  split.
  - match goal with |- context [reconnect ?a ?c ?s None ?g] =>
      destruct (reconnect_dial_failed_shape a c s g eq_refl Hmax Hafter) as (Hcalls & Hst & _);
      destruct (reconnect a c s None g) as [g' calls] eqn:E
    end.
    cbn [fst snd] in *. subst calls. eexists. split; [reflexivity|exact Hst].
  - match goal with |- context [reconnect ?a ?c ?s (Some conn) ?g] =>
      rewrite (reconnect_dial_ok a c s g conn eq_refl Hmax Hafter)
    end.
    eexists. split; [reflexivity|]. cbn. repeat split.
Qed.

Lemma redirect_then_dial_witness :
  exists r2,
    healthCheck (Some 7%nat) (processRedirect "new-collector.example.com" defaultReporter)
      = Some (r2, [mkDialCall "" "new-collector.example.com"]) /\
    gRPC.status (grpcReporter.metricsConn r2) = OK.
Proof.
  destruct (proj2 (redirect_then_dial "new-collector.example.com" 7%nat defaultReporter
                     ltac:(by_eval) eq_refl ltac:(by_eval) ltac:(by_eval)))
    as (r2 & H1 & H2 & _).
  exists r2. split; assumption.
Defined.

Lemma redirectRound_accept (host : string) (conn : ClientConn) (r : grpcReporter) (k : Z) :
  redirect_ready r k ->
  k < maxConnRedirects (grpcReporter.s r) ->
  containsColon host = false ->
  exists r1,
    redirectRound host conn r = Some (r1, [mkDialCall (grpcReporter.certPath r) host]) /\
    redirect_ready r1 (GoInt.add k 1) /\
    grpcReporter.serverAddr r1 = host /\
    grpcReporter.s r1 = grpcReporter.s r /\
    grpcReporter.certPath r1 = grpcReporter.certPath r.
Proof.
  intros (Hst & Hk & Hcl & Hex & Hnow & Hmax & Hrange) Hlt Hhost.
  unfold redirectRound.
  rewrite processRedirect_accept by (rewrite ?Hk; assumption).
  assert (Hafter : time.After time.zero (gRPC.currTime (grpcReporter.metricsConn r)) = false).
  { unfold time.After, time.zero. apply Z.ltb_ge. lia. }
  destruct r as [ec a cp ex ky st [gc gs gr gn gd gk gt] m stt se ch ag sm].
  cbn [grpcReporter.metricsConn grpcReporter.s grpcReporter.certPath gRPC.currTime
       gRPC.redirects gRPC.client gRPC.nextKeepAliveTime gRPC.status grpcReporter.mAgg] in *.
  unfold healthCheck.
  cbn [grpcReporter.metricsConn grpcReporter.set_metricsConn grpcReporter.set_metrics
       grpcReporter.set_serverAddr grpcReporter.serverAddr grpcReporter.certPath
       grpcReporter.s gRPC.status].
  match goal with |- context [reconnect ?a ?c ?s (Some conn) ?g] =>
    rewrite (reconnect_dial_ok a c s g conn eq_refl Hmax Hafter)
  end.
  eexists. split; [reflexivity|]. subst gd. cbn. unfold redirect_ready. cbn.
  repeat split; auto; try discriminate; apply Hrange.
Qed.

Lemma redirectRound_refused (host : string) (conn : ClientConn) (r : grpcReporter) (k : Z) :
  redirect_ready r k ->
  maxConnRedirects (grpcReporter.s r) <= k ->
  exists r1,
    redirectRound host conn r = Some (r1, []) /\
    gRPC.status (grpcReporter.metricsConn r1) = CLOSING /\
    gRPC.client (grpcReporter.metricsConn r1) = None /\
    grpcReporter.serverAddr r1 = grpcReporter.serverAddr r /\
    gRPC.redirects (grpcReporter.metricsConn r1) = k.
Proof.
  intros (Hst & Hk & Hcl & Hex & Hnow & Hmax & Hrange) Hge.
  unfold redirectRound, processRedirect.
  replace (maxConnRedirects (grpcReporter.s r) <=? gRPC.redirects (grpcReporter.metricsConn r))
    with true by (symmetry; apply Z.leb_le; rewrite Hk; exact Hge).
  destruct r as [ec a cp ex ky st [[gc|] gs gr gn gd gk gt] m stt se ch ag sm];
    [|contradiction].
  cbn in *. unfold healthCheck, closeMetricsConn. cbn. rewrite Hex. cbn.
  eexists. split; [reflexivity|]. cbn. repeat split. exact Hk.
Qed.

Lemma last_cons_default {A : Type} (l : list A) :
  forall x d, last (x :: l) d = last l x.
Proof.
  induction l as [|a l IH]; intros x d; [reflexivity|].
  change (last (x :: a :: l) d) with (last (a :: l) d).
  now rewrite !IH.
Qed.

Lemma redirectRounds_below (rounds : list (string * ClientConn)) :
  forall r k,
    redirect_ready r k -> 0 <= k ->
    k + GoInt.len rounds <= maxConnRedirects (grpcReporter.s r) ->
    Forall (fun hc => containsColon (fst hc) = false) rounds ->
    exists r' calls,
      redirectRounds rounds r = Some (r', calls) /\
      redirect_ready r' (k + GoInt.len rounds) /\
      map dial_addr calls = map fst rounds /\
      grpcReporter.s r' = grpcReporter.s r /\
      grpcReporter.serverAddr r' = last (map fst rounds) (grpcReporter.serverAddr r).
Proof.
  induction rounds as [|[host conn] rest IH]; intros r k Hready Hk Hle Hvalid.
  - exists r, []. change (GoInt.len (@nil (string * ClientConn))) with 0.
    rewrite Z.add_0_r. split; [reflexivity|]. split; [exact Hready|]. repeat split.
  - assert (Hlen : GoInt.len ((host, conn) :: rest) = GoInt.len rest + 1)
      by (unfold GoInt.len; simpl List.length; lia).
    pose proof (len_nonneg rest) as Hnn. rewrite Hlen in *.
    inversion Hvalid as [|? ? Hhost Hrest]; subst. cbn [fst] in Hhost.
    destruct (redirectRound_accept host conn r k Hready ltac:(lia) Hhost)
      as (r1 & Hround & Hready1 & Haddr & Hs & _).
    assert (Hrng : GoInt.in_range (maxConnRedirects (grpcReporter.s r)))
      by (apply Hready).
    rewrite add_no_overflow in Hready1
      by (unfold GoInt.in_range, GoInt.min_int, GoInt.max_int in *; lia).
    destruct (IH r1 (k + 1) Hready1 ltac:(lia) ltac:(rewrite Hs; lia) Hrest)
      as (r' & calls & Hrun & Hready' & Hcalls & Hs' & Hlast).
    exists r', (mkDialCall (grpcReporter.certPath r) host :: calls).
    cbn [redirectRounds]. rewrite Hround, Hrun. cbn [app].
    split; [reflexivity|].
    split; [replace (k + (GoInt.len rest + 1)) with (k + 1 + GoInt.len rest) by lia;
            exact Hready'|].
    split; [cbn; now rewrite Hcalls|]. split; [congruence|].
    rewrite Hlast, Haddr. cbn [map fst]. symmetry. apply last_cons_default.
Qed.

(** X18.  Redirects are counted across reconnections.  Starting with the
    counter at zero, each redirect to a host without port, reconnected at
    once, leaves the connection OK, pointed at that host, with the counter
    one higher, the dials going to the hosts in turn; once as many
    redirects as [maxConnRedirects] have been followed with no OK answer in
    between, the next one, whatever its host, is not followed: no dial is
    made, the server address stays, and the connection is CLOSING and
    released in the same iteration. *)
Theorem redirect_ceiling (rounds : list (string * ClientConn)) (host : string)
        (conn : ClientConn) (r : grpcReporter) :
  redirect_ready r 0 ->
  Forall (fun hc => containsColon (fst hc) = false) rounds ->
  GoInt.len rounds <= maxConnRedirects (grpcReporter.s r) ->
  exists r' calls,
    redirectRounds rounds r = Some (r', calls) /\
    gRPC.status (grpcReporter.metricsConn r') = OK /\
    gRPC.redirects (grpcReporter.metricsConn r') = GoInt.len rounds /\
    map dial_addr calls = map fst rounds /\
    grpcReporter.serverAddr r' = last (map fst rounds) (grpcReporter.serverAddr r) /\
    (GoInt.len rounds = maxConnRedirects (grpcReporter.s r) ->
     exists r'',
       redirectRound host conn r' = Some (r'', []) /\
       gRPC.status (grpcReporter.metricsConn r'') = CLOSING /\
       gRPC.client (grpcReporter.metricsConn r'') = None /\
       grpcReporter.serverAddr r'' = grpcReporter.serverAddr r').
Proof.
  intros Hready Hvalid Hle.
  destruct (redirectRounds_below rounds r 0 Hready ltac:(lia) ltac:(lia) Hvalid)
    as (r' & calls & Hrun & Hready' & Hcalls & Hs & Hlast).
  rewrite Z.add_0_l in Hready'.
  exists r', calls. split; [exact Hrun|].
  split; [apply Hready'|]. split; [apply Hready'|]. split; [exact Hcalls|].
  split; [exact Hlast|].
  intros Hfull.
  destruct (redirectRound_refused host conn r' (GoInt.len rounds) Hready'
              ltac:(rewrite Hs; lia)) as (r'' & Hround & Hst & Hcl & Haddr & _).
  exists r''. repeat split; assumption.
Qed.

Lemma redirect_ceiling_witness :
  exists r' calls,
    redirectRounds [("b.example.com"%string, 5%nat); ("c.example.com"%string, 6%nat)]
      defaultReporter = Some (r', calls) /\
    gRPC.status (grpcReporter.metricsConn r') = OK /\
    gRPC.redirects (grpcReporter.metricsConn r') = 2 /\
    map dial_addr calls = ["b.example.com"%string; "c.example.com"%string] /\
    grpcReporter.serverAddr r' = "c.example.com"%string.
Proof.
  destruct (redirect_ceiling
              [("b.example.com"%string, 5%nat); ("c.example.com"%string, 6%nat)]
              "d.example.com" 7%nat defaultReporter)
    as (r' & calls & H1 & H2 & H3 & H4 & H5 & _).
  - unfold redirect_ready. by_eval.
  - repeat constructor.
  - by_eval.
  - exists r', calls. repeat split; assumption.
Defined.

(** ** Reconnection, whatever the arithmetic *)

(** X19.  A failed dial is never fatal and never postpones the next attempt
    beyond the configured maximum: the status stays DISCONNECTED, client,
    redirect counter and keep-alive time are untouched, and the next retry
    time is at most the tick time plus [maxRetryInterval], also when the
    product of counter and amplifier overflows. *)
Theorem reconnect_failed_dial_bounded (addr certPath : string) (s : settings) (g : gRPC) :
  gRPC.status g = DISCONNECTED ->
  gRPC.retries g <= maxConnRetries s ->
  time.After (gRPC.nextRetryTime g) (gRPC.currTime g) = false ->
  let g' := fst (reconnect addr certPath s None g) in
  gRPC.status g' = DISCONNECTED /\
  gRPC.nextRetryTime g' <= time.Add (gRPC.currTime g) (maxRetryInterval s) /\
  gRPC.client g' = gRPC.client g /\
  gRPC.redirects g' = gRPC.redirects g /\
  gRPC.nextKeepAliveTime g' = gRPC.nextKeepAliveTime g /\
  gRPC.currTime g' = gRPC.currTime g.
Proof.
  intros Hst Hle Hafter. unfold reconnect. rewrite Hst, Hafter.
  replace (maxConnRetries s <? gRPC.retries g) with false
    by (symmetry; apply Z.ltb_ge; exact Hle).
  grpc_simpl. repeat split; auto.
  unfold time.Add.
  match goal with |- context [if ?c then _ else _] => destruct c eqn:E end.
  - lia.
  - apply Z.ltb_ge in E. lia.
Qed.

Lemma reconnect_failed_dial_bounded_witness :
  let g := gRPC.set_retries 5000000000 (gRPC.set_currTime (100 * time.Second) lostConn) in
  let g' := fst (reconnect "collector" "cert" newDefaultSettings None g) in
  gRPC.status g' = DISCONNECTED /\
  gRPC.nextRetryTime g' <= time.Add (100 * time.Second) time.Minute.
Proof.
  intros g g'.
  destruct (reconnect_failed_dial_bounded "collector" "cert" newDefaultSettings g)
    as (H1 & H2 & _); [by_eval..|].
  split; assumption.
Defined.

(** ** Settings snapshot *)

(** X20.  The stored settings change only on an OK answer that carries
    settings: after [getSettings] the snapshot is the one before, unless
    the request was made and answered OK with a non-empty list, which then
    replaces it whole. *)
Theorem getSettings_snapshot (reply : outcome SettingsResult) (r r' : grpcReporter)
        (latest latest' : list OboeSetting) (called : bool) :
  getSettings reply r latest = Some (r', latest', called) ->
  latest' = latest \/
  exists sres,
    reply = Some sres /\ called = true /\
    GetResult (sresult sres) = ResultCode_OK /\
    Settings sres <> [] /\ latest' = Settings sres.
Proof.
  unfold getSettings.
  destruct (negb (Status_eqb _ _)); [some_inv; now left|].
  destruct (negb (settingsDue r)); [some_inv; now left|].
  destruct (gRPC.client (grpcReporter.metricsConn r)); [|discriminate].
  destruct reply as [sres|]; [|some_inv; now left].
  destruct (GetResult (sresult sres)) eqn:Hcode.
  - intros H. injection H as _ Hl Hc. subst latest' called.
    unfold storeSettings.
    destruct (Settings sres) as [|x l] eqn:Hs; [now left|].
    right. exists sres. rewrite Hs, len_cons_pos. repeat split; auto. discriminate.
  - destruct (setRetryDelay _ _ _ _). some_inv. now left.
  - destruct (setRetryDelay _ _ _ _). some_inv. now left.
  - some_inv. now left.
  - some_inv. now left.
Qed.

Lemma getSettings_snapshot_witness :
  let r := grpcReporter.upd_metricsConn (gRPC.set_currTime (1021 * time.Second))
             defaultReporter in
  exists r' latest' called,
    getSettings (Some okSettings) r [zeros 4] = Some (r', latest', called) /\
    (latest' = [zeros 4] \/
     exists sres,
       Some okSettings = Some sres /\ called = true /\
       GetResult (sresult sres) = ResultCode_OK /\
       Settings sres <> [] /\ latest' = Settings sres).
Proof.
  intros r.
  destruct (getSettings (Some okSettings) r [zeros 4]) as [[[r' latest'] called]|] eqn:H;
    [|vm_compute in H; discriminate].
  exists r', latest', called. split; [reflexivity|].
  exact (getSettings_snapshot (Some okSettings) r r' [zeros 4] latest' called H).
Defined.

(** ** Reporting an event *)

Lemma bytes_Equal_refl (a : bytes) : bytes_Equal a a = true.
Proof. now apply bytes_Equal_spec. Qed.

(** X21.  A valid event is reported once.  On a gRPC reporter with an event
    client, an event of the context's trace with an operation identifier of
    its own is finished and put on the event channel, behind what was
    there, with no error, and the context takes the event's operation
    identifier (keeping its task identifier); reporting the same event
    again against that context is refused as "same as context" and puts
    nothing on the channel.  [prepareEvent] behaves alike. *)
Theorem reportEvent_once {enc : Encoder} (unixNano : Z) (hostname : string) (pid : Z)
        (r : grpcReporter) (c : oboeContext) (ev : event) :
  IsOpen r = true ->
  taskID (ids (oboeContext.metadata c)) = taskID (ids (event.metadata ev)) ->
  opID (ids (oboeContext.metadata c)) <> opID (ids (event.metadata ev)) ->
  let out := reportEvent unixNano hostname pid r (Some c) (Some ev) in
  exists c' ev',
    rep_ctx out = Some c' /\ rep_event out = Some ev' /\ rep_err out = None /\
    event.metadata ev' = event.metadata ev /\
    taskID (ids (oboeContext.metadata c')) = taskID (ids (oboeContext.metadata c)) /\
    opID (ids (oboeContext.metadata c')) = opID (ids (event.metadata ev)) /\
    grpcReporter.ch (rep_reporter out) = grpcReporter.ch r ++ [buf (event.bbuf ev')] /\
    reportEvent unixNano hostname pid (rep_reporter out) (Some c') (Some ev')
      = mkReported (rep_reporter out) (Some c') (Some ev')
                   (Some "Invalid event, same as context"%string) /\
    aoreporter.prepareEvent unixNano hostname pid (Some c) (Some ev)
      = aoreporter.mkPrepared (Some c') (Some ev') None /\
    aoreporter.prepareEvent unixNano hostname pid (Some c') (Some ev')
      = aoreporter.mkPrepared (Some c') (Some ev')
                              (Some "invalid event, same as context"%string).
Proof.
  intros Hopen Htask Hop out.
  assert (Ht : bytes_Equal (taskID (ids (oboeContext.metadata c)))
                           (taskID (ids (event.metadata ev))) = true)
    by (now apply bytes_Equal_spec).
  assert (Ho : bytes_Equal (opID (ids (oboeContext.metadata c)))
                           (opID (ids (event.metadata ev))) = false)
    by (now apply bytes_Equal_neq).
  assert (Hout : reportEvent unixNano hostname pid r (Some c) (Some ev) =
                 let ev' := finish (AddInt "PID" pid (AddString "Hostname" hostname
                              (AddInt64 "Timestamp_u" (Z.quot unixNano 1000) ev))) in
                 mkReported (grpcReporter.set_ch (grpcReporter.ch r ++ [buf (event.bbuf ev')]) r)
                            (Some (setOpID (opID (ids (event.metadata ev))) c))
                            (Some ev') None).
  { unfold reportEvent. rewrite Hopen, Ht, Ho. reflexivity. }
  cbn zeta in Hout. subst out. rewrite Hout.
  cbn [rep_ctx rep_event rep_err rep_reporter].
  eexists _, _. split; [reflexivity|]. split; [reflexivity|]. split; [reflexivity|].
  split; [reflexivity|]. split; [reflexivity|]. split; [reflexivity|].
  split; [destruct r; reflexivity|]. split.
  - unfold reportEvent.
    replace (IsOpen (grpcReporter.set_ch _ r)) with true
      by (symmetry; destruct r; exact Hopen).
    cbn [negb setOpID oboeContext.metadata ids taskID opID finish AddInt AddString AddInt64
         event.metadata].
    rewrite Htask, !bytes_Equal_refl. reflexivity.
  - split.
    + unfold aoreporter.prepareEvent. rewrite Ht, Ho. reflexivity.
    + unfold aoreporter.prepareEvent.
      cbn [negb setOpID oboeContext.metadata ids taskID opID finish AddInt AddString AddInt64
           event.metadata].
      rewrite Htask, !bytes_Equal_refl. reflexivity.
Qed.

Lemma reportEvent_once_witness :
  let ev := event.mk (mkMetadata (mkIDs [x01; x02] [x0b])) (mkBuffer [x07]) in
  let out := reportEvent (enc := nullEncoder) 0 "host" 1 defaultReporter
               (Some ctxA) (Some ev) in
  exists c' ev',
    rep_ctx out = Some c' /\ rep_event out = Some ev' /\ rep_err out = None /\
    grpcReporter.ch (rep_reporter out) = [[x07]] /\
    rep_err (reportEvent (enc := nullEncoder) 0 "host" 1 (rep_reporter out)
               (Some c') (Some ev')) = Some "Invalid event, same as context"%string.
Proof.
  intros ev out.
  destruct (reportEvent_once (enc := nullEncoder) 0 "host" 1 defaultReporter ctxA ev)
    as (c' & ev' & H1 & H2 & H3 & _ & _ & _ & H7 & H8 & _); [by_eval..|].
  exists c', ev'. subst out.
  split; [exact H1|]. split; [exact H2|]. split; [exact H3|].
  assert (Hev : ev' = ev) by (vm_compute in H2; now injection H2 as <-).
  split; [etransitivity; [exact H7|rewrite Hev; reflexivity]|].
  etransitivity; [apply f_equal; exact H8|reflexivity].
Defined.

(** ** Status messages *)

Lemma processRedirect_status (host : string) (r : grpcReporter) :
  grpcReporter.status (processRedirect host r) = grpcReporter.status r /\
  grpcReporter.sMsgs (processRedirect host r) = grpcReporter.sMsgs r.
Proof.
  unfold processRedirect, setServerAddr.
  destruct (_ <=? _); [destruct r; split; reflexivity|].
  destruct (containsColon host); destruct r; split; reflexivity.
Qed.

(** X22.  A status message leaves the reporter only through an answered
    post.  The status channel is drained only into an empty queue, so while
    the queue holds messages the channel is left alone; and after
    [sendStatus] the queue followed by the channel is what it was before,
    in the same order, unless the post was made on an OK connection and
    answered by something other than a redirect, in which case the queue is
    empty.  A transport error, a redirect and every early return lose
    nothing. *)
Theorem sendStatus_keeps_messages (reply : outcome MessageResult) (r r' : grpcReporter) :
  sendStatus reply r = Some r' ->
  (Sender.messages (grpcReporter.status r) <> [] ->
   grpcReporter.sMsgs r' = grpcReporter.sMsgs r) /\
  (Sender.messages (grpcReporter.status r') ++ grpcReporter.sMsgs r'
     = Sender.messages (grpcReporter.status r) ++ grpcReporter.sMsgs r
   \/
   Sender.messages (grpcReporter.status r') = [] /\
   gRPC.status (grpcReporter.metricsConn r) = OK /\
   exists mres, reply = Some mres /\ GetResult mres <> ResultCode_REDIRECT).
Proof.
  unfold sendStatus.
  destruct (Status_eqb (gRPC.status (grpcReporter.metricsConn r)) OK) eqn:Hok; cbn [negb];
    [|some_inv; split; [reflexivity|now left]].
  assert (Hst : gRPC.status (grpcReporter.metricsConn r) = OK)
    by (destruct (gRPC.status (grpcReporter.metricsConn r)); [reflexivity|discriminate..]).
  destruct (_ && _); [some_inv; split; [reflexivity|now left]|].
  assert (Hload : (Sender.messages (grpcReporter.status r) <> [] ->
                   grpcReporter.sMsgs (fst (statusToSend r)) = grpcReporter.sMsgs r) /\
                  Sender.messages (grpcReporter.status (fst (statusToSend r)))
                    ++ grpcReporter.sMsgs (fst (statusToSend r))
                  = Sender.messages (grpcReporter.status r) ++ grpcReporter.sMsgs r).
  { unfold statusToSend, loadStatusMsgs.
    destruct (Sender.messages (grpcReporter.status r)) as [|m0 ms] eqn:Hq.
    - change (0 <? GoInt.len (@nil bytes)) with false. cbv iota.
      split; [intros H; now elim H|].
      destruct r as [ec a cp ex k st g m stt se ch ag sm]. cbn in *. rewrite Hq.
      cbn. now rewrite app_nil_r.
    - rewrite len_cons_pos. cbn [fst]. rewrite Hq. split; reflexivity. }
  destruct (statusToSend r) as [r1 go]. cbn [fst] in Hload.
  destruct Hload as [Hch Hcat].
  destruct go; cbn [negb]; [|some_inv; split; [exact Hch|now left]].
  destruct (gRPC.client (grpcReporter.metricsConn r1)); [|discriminate].
  destruct reply as [mres|].
  2:{ some_inv. destruct r1. cbn in *. split; [exact Hch|now left]. }
  destruct (GetResult mres) eqn:Hcode.
  - some_inv. destruct r1. cbn in *. split; [exact Hch|].
    right. repeat split; auto. exists mres. split; [reflexivity|]. rewrite Hcode. discriminate.
  - pose proof (setRetryDelay_messages (gRPC.currTime (grpcReporter.metricsConn r))
                  (retryAmplifier (grpcReporter.s r)) (maxMetricsRetries (grpcReporter.s r))
                  (grpcReporter.status
                     (grpcReporter.upd_metricsConn
                        (gRPC.set_nextKeepAliveTime
                           (getNextTime (gRPC.currTime (grpcReporter.metricsConn r))
                              (metricsConnKeepAliveInterval (grpcReporter.s r)))) r1))) as Hm.
    destruct (setRetryDelay _ _ _ _) as [m [|]]; some_inv; destruct r1; cbn in *.
    + split; [exact Hch|]. right. repeat split; auto.
      exists mres. split; [reflexivity|]. rewrite Hcode. discriminate.
    + split; [exact Hch|]. left. rewrite Hm. exact Hcat.
  - pose proof (setRetryDelay_messages (gRPC.currTime (grpcReporter.metricsConn r))
                  (retryAmplifier (grpcReporter.s r)) (maxMetricsRetries (grpcReporter.s r))
                  (grpcReporter.status
                     (grpcReporter.upd_metricsConn
                        (gRPC.set_nextKeepAliveTime
                           (getNextTime (gRPC.currTime (grpcReporter.metricsConn r))
                              (metricsConnKeepAliveInterval (grpcReporter.s r)))) r1))) as Hm.
    destruct (setRetryDelay _ _ _ _) as [m [|]]; some_inv; destruct r1; cbn in *.
    + split; [exact Hch|]. right. repeat split; auto.
      exists mres. split; [reflexivity|]. rewrite Hcode. discriminate.
    + split; [exact Hch|]. left. rewrite Hm. exact Hcat.
  - some_inv. destruct r1. cbn in *. split; [exact Hch|].
    right. repeat split; auto. exists mres. split; [reflexivity|]. rewrite Hcode. discriminate.
  - some_inv.
    destruct (processRedirect_status (GetArg mres)
                (grpcReporter.upd_metricsConn
                   (gRPC.set_nextKeepAliveTime
                      (getNextTime (gRPC.currTime (grpcReporter.metricsConn r))
                         (metricsConnKeepAliveInterval (grpcReporter.s r)))) r1)) as [-> ->].
    destruct r1. cbn in *. split; [exact Hch|now left].
Qed.

Lemma sendStatus_keeps_messages_witness :
  let r := grpcReporter.set_sMsgs [zeros 1; zeros 2] defaultReporter in
  exists r',
    sendStatus None r = Some r' /\
    (Sender.messages (grpcReporter.status r) <> [] ->
     grpcReporter.sMsgs r' = grpcReporter.sMsgs r) /\
    (Sender.messages (grpcReporter.status r') ++ grpcReporter.sMsgs r'
       = Sender.messages (grpcReporter.status r) ++ grpcReporter.sMsgs r
     \/
     Sender.messages (grpcReporter.status r') = [] /\
     gRPC.status (grpcReporter.metricsConn r) = OK /\
     exists mres, @None MessageResult = Some mres /\ GetResult mres <> ResultCode_REDIRECT).
Proof.
  intros r.
  destruct (sendStatus None r) as [r'|] eqn:H; [|vm_compute in H; discriminate].
  exists r'. split; [reflexivity|].
  exact (sendStatus_keeps_messages None r r' H).
Defined.
